(** * Eisenhower matrix task tracker: scoring, staffing and sheet updates

    A shallow embedding of [eisenhower_app.py]: the task catalogue
    [TASK_TIME], the staffing function [calculate_people_needed], the
    priority score computed by [update_task], and the three sheet operations
    [update_task], [load_tasks] and [reset_tasks].

    Python [int]s are unbounded and are modelled by [Z].  Python [float]s are
    IEEE-754 binary64 numbers; every arithmetic operation on them returns the
    exact result rounded to the nearest representable number, ties to even.
    They are modelled in [Module Float] by their exact rational value,
    together with the two infinities and NaN, and compared with the standard
    library's [SpecFloat] in [Module IEEE].

    The Google sheet is the list of its records below the header row, with
    the seven columns Task, Urgency, Importance, Days Until Due, Priority,
    Quantity and People Needed in this order, together with the log of the
    [update_cell] calls made on it.  Writes to the sheet succeed; the read
    in [load_tasks] may fail.  [load_tasks] works on whole columns, as
    pandas does: one cell decides with the others the type of its column,
    and an exception in one column empties the table.
    Of the Streamlit page, the defaults it computes for its form are
    modelled ([form_defaults]); its widgets and its printing are not. *)

From Stdlib Require Import ZArith QArith Qround Qabs Qpower Qreduction.
From Stdlib Require Import List String Bool Lia Lqa.
From Stdlib Require Floats.SpecFloat.
Import ListNotations.

Local Open Scope Z_scope.

(** ** Python exceptions and results *)

Inductive exn : Type :=
| OverflowError
| ValueError
| ZeroDivisionError
| APIError.

Inductive result (A : Type) : Type :=
| Ok (a : A)
| Raise (e : exn).
Arguments Ok {A} a.
Arguments Raise {A} e.

Definition rbind {A B : Type} (r : result A) (k : A -> result B) : result B :=
  match r with
  | Ok a => k a
  | Raise e => Raise e
  end.

Declare Scope result_scope.
Delimit Scope result_scope with result.
Notation "'let?' x ':=' r 'in' k" := (rbind r (fun x => k))
  (at level 10, x name, r at level 100, k at level 200) : result_scope.

(** ** Binary64 floating point *)

Module Float.

Local Open Scope Q_scope.

(** A float is a finite rational (always one that binary64 represents when
    it comes out of an operation below), an infinity, or NaN.  The sign of
    zero is not tracked: no operation of the modelled code tells the two
    zeros apart. *)
Inductive float : Type :=
| Fin (x : Q)
| Inf (neg : bool)
| NaN.

Definition prec : Z := 53.
Definition emax : Z := 1024.
(** Exponent of the least positive subnormal number, 2^-1074. *)
Definition emin : Z := -1074.

Definition pow2 (e : Z) : Q := 2 ^ e.

(** [ilog2 x] is the integer [k] with [2^k <= x < 2^(k+1)], for [0 < x]. *)
Definition ilog2 (x : Q) : Z :=
  if Qle_bool 1 x then Z.log2 (Qfloor x)
  else (- Z.log2_up (Qceiling (/ x)))%Z.

(** Nearest integer, ties to the even one. *)
Definition rne (y : Q) : Z :=
  let f := Qfloor y in
  match Qcompare (y - inject_Z f) (1 # 2) with
  | Lt => f
  | Gt => (f + 1)%Z
  | Eq => if Z.even f then f else (f + 1)%Z
  end.

(** Exponent of the unit in the last place of the binade of [x]. *)
Definition ulp_exp (x : Q) : Z :=
  Z.max (ilog2 (Qabs x) - (prec - 1)) emin.

Definition is_neg (x : Q) : bool := negb (Qle_bool 0 x).

(** Round-to-nearest-even of an exact result to binary64: the significand
    keeps 53 bits, fewer below 2^-1022, and what rounds to 2^1024 or more
    in magnitude becomes an infinity. *)
Definition round_ne (x0 : Q) : float :=
  let x := Qred x0 in
  if Qeq_bool x 0 then Fin 0
  else
    let e := ulp_exp x in
    let y := inject_Z (rne (x / pow2 e)) * pow2 e in
    if Qle_bool (pow2 emax) (Qabs y) then Inf (is_neg x)
    else Fin (Qred y).

(** float * float *)
Definition mul (a b : float) : float :=
  match a, b with
  | NaN, _ | _, NaN => NaN
  | Fin x, Fin y => round_ne (x * y)
  | Fin x, Inf s | Inf s, Fin x =>
      if Qeq_bool x 0 then NaN else Inf (xorb s (is_neg x))
  | Inf s, Inf t => Inf (xorb s t)
  end.

(** float + float *)
Definition add (a b : float) : float :=
  match a, b with
  | NaN, _ | _, NaN => NaN
  | Fin x, Fin y => round_ne (x + y)
  | Fin _, Inf s | Inf s, Fin _ => Inf s
  | Inf s, Inf t => if Bool.eqb s t then Inf s else NaN
  end.

Definition opp (a : float) : float :=
  match a with
  | Fin x => Fin (Qred (- x))
  | Inf s => Inf (negb s)
  | NaN => NaN
  end.

(** float - float *)
Definition sub (a b : float) : float :=
  match a, b with
  | NaN, _ | _, NaN => NaN
  | Fin x, Fin y => round_ne (x - y)
  | Fin _, Inf s => Inf (negb s)
  | Inf s, Fin _ => Inf s
  | Inf s, Inf t => if Bool.eqb s t then NaN else Inf s
  end.

(** float / float: a zero divisor raises [ZeroDivisionError]. *)
Definition div (a b : float) : result float :=
  match a, b with
  | NaN, Fin y => if Qeq_bool y 0 then Raise ZeroDivisionError else Ok NaN
  | NaN, _ | _, NaN => Ok NaN
  | Fin x, Fin y =>
      if Qeq_bool y 0 then Raise ZeroDivisionError else Ok (round_ne (x / y))
  | Fin _, Inf _ => Ok (Fin 0)
  | Inf s, Fin y =>
      if Qeq_bool y 0 then Raise ZeroDivisionError
      else Ok (Inf (xorb s (is_neg y)))
  | Inf _, Inf _ => Ok NaN
  end.

(** Conversion of a Python int in a mixed int/float operation: correctly
    rounded, [OverflowError] when the int is too large for a float. *)
Definition of_int (n : Z) : result float :=
  match round_ne (inject_Z n) with
  | Fin x => Ok (Fin x)
  | _ => Raise OverflowError
  end.

(** int / int (true division): the correctly rounded quotient,
    [ZeroDivisionError] on a zero divisor and [OverflowError] when the
    quotient is too large for a float. *)
Definition int_truediv (a b : Z) : result float :=
  if (b =? 0)%Z then Raise ZeroDivisionError
  else
    match round_ne (inject_Z a / inject_Z b) with
    | Fin x => Ok (Fin x)
    | _ => Raise OverflowError
    end.

(** [math.ceil]: the least int not below the float; infinities raise
    [OverflowError] and NaN raises [ValueError]. *)
Definition ceil (a : float) : result Z :=
  match a with
  | Fin x => Ok (Qceiling x)
  | Inf _ => Raise OverflowError
  | NaN => Raise ValueError
  end.

End Float.

Import Float.

(** ** Task catalogue and staffing *)

(** Estimated time per task, in minutes. *)
Definition TASK_TIME : list (string * Z) :=
  [ ("Putaway 3002"%string, 20);
    ("Putaway 3043"%string, 15);
    ("Unload Shuttles"%string, 20);
    ("Unload 3002 Inbound"%string, 20);
    ("Unload 3043 Inbound"%string, 20);
    ("Load 3043 Outbound"%string, 20);
    ("Load 3002 Outbound"%string, 20);
    ("Load LTL Outbound"%string, 20);
    ("LTL Picks Same Day"%string, 15);
    ("LTL Picks Next Day"%string, 15);
    ("FTL Picks Same Day"%string, 25);
    ("FTL Picks Next Day"%string, 25);
    ("Export Live Loads Same Day"%string, 25);
    ("Export Live Loads Next Day"%string, 25);
    ("Export Drop Same Day"%string, 25);
    ("Export Drop Next Day"%string, 25) ].

(** Dictionary lookup: [Some] is [task in d] with [d[task]]. *)
Fixpoint dict_get (task : string) (d : list (string * Z)) : option Z :=
  match d with
  | [] => None
  | (k, v) :: rest => if String.eqb k task then Some v else dict_get task rest
  end.

(** Work minutes per worker: 7 hours per shift. *)
Definition WORK_MINUTES_PER_WORKER : Z := 420.

Local Open Scope result_scope.

(** [(urgency * 1.5 + importance * 2) / 10], evaluated as Python does: the
    int operands are converted to float as each operation needs them. *)
Definition priority_factor (urgency importance : Z) : result float :=
  let? fu := of_int urgency in
  let weighted_urgency := Float.mul fu (Fin (3 # 2)) in
  let? fi := of_int (importance * 2) in
  let? ten := of_int 10 in
  Float.div (Float.add weighted_urgency fi) ten.

Definition calculate_people_needed
    (task : string) (quantity urgency importance : Z) : result Z :=
  match dict_get task TASK_TIME with
  | None => Ok 1
  | Some time_per_task =>
      let total_time_needed := quantity * time_per_task in
      let? factor := priority_factor urgency importance in
      let? shifts := int_truediv total_time_needed WORK_MINUTES_PER_WORKER in
      let? c := ceil (Float.mul shifts factor) in
      Ok (Z.max 1 c)
  end.

(** The priority score of [update_task]:
    [(int(urgency) * 1.5) + (int(importance) * 2) - (int(days_until_due) * 0.5)]
    on int arguments. *)
Definition priority_score (urgency importance days_until_due : Z)
  : result float :=
  let? fu := of_int urgency in
  let weighted_urgency := Float.mul fu (Fin (3 # 2)) in
  let? fi := of_int (importance * 2) in
  let sum := Float.add weighted_urgency fi in
  let? fd := of_int days_until_due in
  Ok (Float.sub sum (Float.mul fd (Fin (1 # 2)))).

(** ** The sheet *)

(** A cell holds what [get_all_records] returns for it and what
    [update_cell] is given: an int, a float or a string. *)
Inductive number : Type :=
| NInt (z : Z)
| NFloat (f : float).

Inductive value : Type :=
| VNum (n : number)
| VStr (s : string).

(** One record of the sheet, its cells in column order 1 to 7. *)
Record row : Type := mkRow {
  Task : value;
  Urgency : value;
  Importance : value;
  DaysUntilDue : value;
  Priority : value;
  Quantity : value;
  PeopleNeeded : value
}.

(** The sheet below its header row, and the [update_cell] calls made so
    far, oldest first, as (row, column, value) in sheet coordinates. *)
Record sheet : Type := mkSheet {
  records : list row;
  writes : list (Z * Z * value)
}.

Definition get_all_records (s : sheet) : list row := records s.

Definition set_column (col : Z) (v : value) (r : row) : row :=
  match col with
  | 1 => mkRow v (Urgency r) (Importance r) (DaysUntilDue r) (Priority r)
           (Quantity r) (PeopleNeeded r)
  | 2 => mkRow (Task r) v (Importance r) (DaysUntilDue r) (Priority r)
           (Quantity r) (PeopleNeeded r)
  | 3 => mkRow (Task r) (Urgency r) v (DaysUntilDue r) (Priority r)
           (Quantity r) (PeopleNeeded r)
  | 4 => mkRow (Task r) (Urgency r) (Importance r) v (Priority r)
           (Quantity r) (PeopleNeeded r)
  | 5 => mkRow (Task r) (Urgency r) (Importance r) (DaysUntilDue r) v
           (Quantity r) (PeopleNeeded r)
  | 6 => mkRow (Task r) (Urgency r) (Importance r) (DaysUntilDue r)
           (Priority r) v (PeopleNeeded r)
  | 7 => mkRow (Task r) (Urgency r) (Importance r) (DaysUntilDue r)
           (Priority r) (Quantity r) v
  | _ => r
  end.

(** Apply [f] to the element at position [n], if there is one. *)
Fixpoint update_nth {A : Type} (n : nat) (f : A -> A) (l : list A) : list A :=
  match l, n with
  | [], _ => []
  | x :: rest, O => f x :: rest
  | x :: rest, S n' => x :: update_nth n' f rest
  end.

(** [sheet.update_cell(r, c, v)]: sheet row 1 is the header, so sheet row
    [r] is record [r - 2].  A write outside the records or outside columns
    1 to 7 leaves the records as they are (the code never issues one). *)
Definition update_cell (r c : Z) (v : value) (s : sheet) : sheet :=
  mkSheet
    (if r <? 2 then records s
     else update_nth (Z.to_nat (r - 2)) (set_column c v) (records s))
    (writes s ++ [(r, c, v)]).

Definition vint (z : Z) : value := VNum (NInt z).
Definition vfloat (f : float) : value := VNum (NFloat f).

(** [row["Task"] == task] for a string [task]. *)
Definition task_is (task : string) (r : row) : bool :=
  match Task r with
  | VStr s => String.eqb s task
  | VNum _ => false
  end.

(** *** update_task *)

(** The loop [for i, row in enumerate(existing_tasks)] from index [i] on.
    The result pairs what the call returns or raises with the sheet it
    leaves. *)
Fixpoint update_task_from (i : Z) (existing_tasks : list row)
    (task : string) (urgency importance days_until_due quantity : Z)
    (s : sheet) : result bool * sheet :=
  match existing_tasks with
  | [] => (Ok false, s)
  | r :: rest =>
      if task_is task r then
        match priority_score urgency importance days_until_due with
        | Raise e => (Raise e, s)
        | Ok priority =>
            match calculate_people_needed task quantity urgency importance with
            | Raise e => (Raise e, s)
            | Ok people_needed =>
                let s := update_cell (i + 2) 2 (vint urgency) s in
                let s := update_cell (i + 2) 3 (vint importance) s in
                let s := update_cell (i + 2) 4 (vint days_until_due) s in
                let s := update_cell (i + 2) 5 (vfloat priority) s in
                let s := update_cell (i + 2) 6 (vint quantity) s in
                let s := update_cell (i + 2) 7 (vint people_needed) s in
                (Ok true, s)
            end
        end
      else
        update_task_from (i + 1) rest task urgency importance days_until_due
          quantity s
  end.

Definition update_task (task : string)
    (urgency importance days_until_due quantity : Z) (s : sheet)
  : result bool * sheet :=
  update_task_from 0 (get_all_records s) task urgency importance
    days_until_due quantity s.

(** *** reset_tasks *)

Fixpoint reset_tasks_from (i : Z) (existing_tasks : list row) (s : sheet)
  : sheet :=
  match existing_tasks with
  | [] => s
  | _ :: rest =>
      let s := update_cell (i + 2) 2 (vint 5) s in
      let s := update_cell (i + 2) 3 (vint 5) s in
      let s := update_cell (i + 2) 4 (vint 0) s in
      let s := update_cell (i + 2) 5 (vint 0) s in
      let s := update_cell (i + 2) 6 (vint 0) s in
      let s := update_cell (i + 2) 7 (vint 1) s in
      reset_tasks_from (i + 1) rest s
  end.

Definition reset_tasks (s : sheet) : sheet :=
  reset_tasks_from 0 (get_all_records s) s.

(** *** load_tasks *)

(** A row of the data frame that [load_tasks] returns: the four converted
    columns hold numbers, the other three hold the cells as the data frame
    types them. *)
Record frame_row : Type := mkFrameRow {
  df_Task : value;
  df_Urgency : value;
  df_Importance : value;
  df_DaysUntilDue : number;
  df_Priority : number;
  df_Quantity : number;
  df_PeopleNeeded : number
}.

Definition is_nan (n : number) : bool :=
  match n with
  | NFloat NaN => true
  | _ => false
  end.

(** [map] for a function that may raise: the first exception ends it. *)
Fixpoint map_result {A B : Type} (f : A -> result B) (l : list A)
  : result (list B) :=
  match l with
  | [] => Ok []
  | x :: rest =>
      let? y := f x in
      let? ys := map_result f rest in
      Ok (y :: ys)
  end.

Definition in_int64 (z : Z) : bool := (- 2 ^ 63 <=? z) && (z <? 2 ^ 63).
Definition in_uint64 (z : Z) : bool := (0 <=? z) && (z <? 2 ^ 64).

Definition number_in (range : Z -> bool) (n : number) : bool :=
  match n with
  | NInt z => range z
  | NFloat _ => false
  end.

(** A column of ints that pandas holds exactly, as int64 or as uint64. *)
Definition integer_column (ns : list number) : bool :=
  forallb (number_in in_int64) ns || forallb (number_in in_uint64) ns.

(** A number as an element of a float64 column: an int becomes the float
    nearest to it, and one too large for a float raises. *)
Definition to_float64 (n : number) : result number :=
  match n with
  | NInt z => let? f := of_int z in Ok (NFloat f)
  | NFloat f => Ok (NFloat f)
  end.

Definition as_float64 (v : value) : value :=
  match v with
  | VNum (NInt z) => VNum (NFloat (round_ne (inject_Z z)))
  | _ => v
  end.

(** The type [pd.DataFrame] gives a column of cells. *)
Inductive column_kind : Type := ObjectColumn | FloatColumn | IntColumn.

(** How [pd.DataFrame] types a column: it reads the cells in order, with
    what it has seen so far (a float, a negative int, an int above the
    int64 range), and stops at the first cell that makes the column one of
    Python objects: a string, an int beyond 64 bits, or a negative int in
    a column that also has an int above the int64 range.  It stores every
    int it reads as a float too, which raises [OverflowError] for an int
    too large for a float. *)
Fixpoint infer_column (cells : list value) (float_ sint_ uint_ : bool)
  : result column_kind :=
  match cells with
  | [] => Ok (if float_ then FloatColumn else IntColumn)
  | VStr _ :: _ => Ok ObjectColumn
  | VNum (NFloat _) :: rest => infer_column rest true sint_ uint_
  | VNum (NInt z) :: rest =>
      let? _ := of_int z in
      let sint_ := sint_ || (z <? 0) in
      let uint_ := uint_ || (2 ^ 63 <=? z) in
      if (sint_ && uint_) || (2 ^ 64 <=? z) || (z <? - 2 ^ 63)
      then Ok ObjectColumn
      else infer_column rest float_ sint_ uint_
  end.

(** A column as the data frame holds it: the ints of a column that has a
    float are held as floats; a column of ints, and one of objects, holds
    its cells as read. *)
Definition frame_column (column : list value) : result (list value) :=
  let? kind := infer_column column false false false in
  match kind with
  | FloatColumn => Ok (map as_float64 column)
  | _ => Ok column
  end.

(** The seven columns of [pd.DataFrame(data)]. *)
Record data_frame : Type := mkDataFrame {
  Task_column : list value;
  Urgency_column : list value;
  Importance_column : list value;
  DaysUntilDue_column : list value;
  Priority_column : list value;
  Quantity_column : list value;
  PeopleNeeded_column : list value
}.

Definition DataFrame (data : list row) : result data_frame :=
  let? task := frame_column (map Task data) in
  let? urgency := frame_column (map Urgency data) in
  let? importance := frame_column (map Importance data) in
  let? days_until_due := frame_column (map DaysUntilDue data) in
  let? priority := frame_column (map Priority data) in
  let? quantity := frame_column (map Quantity data) in
  let? people_needed := frame_column (map PeopleNeeded data) in
  Ok (mkDataFrame task urgency importance days_until_due priority quantity
        people_needed).

(** The rows of a data frame, from its seven columns. *)
Fixpoint frame_rows (tasks urgencies importances : list value)
    (days priorities quantities people : list number) : list frame_row :=
  match tasks, urgencies, importances, days, priorities, quantities, people
  with
  | t :: ts, u :: us, i :: ims, d :: ds, p :: ps, q :: qs, n :: ns =>
      mkFrameRow t u i d p q n :: frame_rows ts us ims ds ps qs ns
  | _, _, _, _, _, _, _ => []
  end.

Section Load.

(** How [pd.to_numeric] reads a string cell: [None] when the string is not
    a number.  The parser belongs to pandas; it is a parameter here. *)
Variable parse_number : string -> option number.

(** One cell under [errors="coerce"]: a cell that does not convert is
    NaN. *)
Definition cell_number (v : value) : number :=
  match v with
  | VNum n => n
  | VStr s =>
      match parse_number s with
      | Some n => n
      | None => NFloat NaN
      end
  end.

(** [pd.to_numeric(column, errors="coerce")] on a whole column: a column
    of ints that fit 64 bits is one of ints; any other column becomes
    float64, every int in it converted, and an int too large for a float
    raises [OverflowError], which [errors="coerce"] does not catch. *)
Definition to_numeric (column : list value) : result (list number) :=
  let ns := map cell_number column in
  if integer_column ns then Ok ns else map_result to_float64 ns.

(** [.fillna(d)] on a column: NaN occurs in float columns only, where the
    default is held as a float. *)
Definition fillna (d : Z) (column : list number) : list number :=
  map (fun n => if is_nan n then NFloat (Fin (inject_Z d)) else n) column.

(** [load_tasks], given what [sheet.get_all_records()] returns or raises.
    A data frame built from no records has no columns, so selecting
    ["Priority"] raises inside the [try]; building the frame or
    converting a column can raise [OverflowError]; like a failed read,
    each of these yields the empty frame. *)
Definition load_tasks (fetched : result (list row)) : list frame_row :=
  match fetched with
  | Raise _ => []
  | Ok [] => []
  | Ok data =>
      let converted :=
        let? df := DataFrame data in
        let? priority := to_numeric (Priority_column df) in
        let priority := fillna 0 priority in
        let? quantity := to_numeric (Quantity_column df) in
        let quantity := fillna 0 quantity in
        let? people_needed := to_numeric (PeopleNeeded_column df) in
        let people_needed := fillna 1 people_needed in
        let? days_until_due := to_numeric (DaysUntilDue_column df) in
        let days_until_due := fillna 0 days_until_due in
        Ok (frame_rows (Task_column df) (Urgency_column df)
              (Importance_column df) days_until_due priority quantity
              people_needed) in
      match converted with
      | Ok df => df
      | Raise _ => []
      end
  end.

End Load.

(** ** Reference formulas

    The formulas of the specification, over exact rationals. *)

Module Spec.

Local Open Scope Q_scope.

(** [priority = urgency * 1.5 + importance * 2 - daysUntilDue * 0.5] *)
Definition priority (urgency importance days_until_due : Z) : Q :=
  inject_Z urgency * (3 # 2) + inject_Z importance * 2
  - inject_Z days_until_due * (1 # 2).

(** [priorityFactor = (urgency * 1.5 + importance * 2) / 10] *)
Definition priority_factor (urgency importance : Z) : Q :=
  (inject_Z urgency * (3 # 2) + inject_Z importance * 2) / 10.

(** [max(1, ceil((quantity * minutesPerUnit / 420) * priorityFactor))] *)
Definition people_needed (minutes quantity urgency importance : Z) : Z :=
  Z.max 1
    (Qceiling (inject_Z (quantity * minutes) / 420
               * priority_factor urgency importance)).

End Spec.

(** ** Reference notions for the sheet operations *)

(** Logical index of the first record whose name equals [task]. *)
Fixpoint first_match (task : string) (rows : list row) : option nat :=
  match rows with
  | [] => None
  | r :: rest =>
      if task_is task r then Some O
      else option_map S (first_match task rest)
  end.

(** A record with its six value fields replaced and its name kept. *)
Definition with_fields (v2 v3 v4 v5 v6 v7 : value) (r : row) : row :=
  mkRow (Task r) v2 v3 v4 v5 v6 v7.

(** The baseline that Reset gives a record: urgency 5, importance 5,
    daysUntilDue 0, priority 0, quantity 0, peopleNeeded 1. *)
Definition baseline (r : row) : row :=
  with_fields (vint 5) (vint 5) (vint 0) (vint 0) (vint 0) (vint 1) r.

Definition column_of (w : Z * Z * value) : Z := snd (fst w).

(** What one record receives from [update_task]. *)
Definition updated_sheet (k : Z) (u i d q : Z) (p : float) (n : Z)
    (s : sheet) : sheet :=
  mkSheet
    (update_nth (Z.to_nat k)
       (with_fields (vint u) (vint i) (vint d) (vfloat p) (vint q) (vint n))
       (records s))
    (writes s ++ [(k + 2, 2, vint u); (k + 2, 3, vint i); (k + 2, 4, vint d);
                  (k + 2, 5, vfloat p); (k + 2, 6, vint q);
                  (k + 2, 7, vint n)]).

(** A parser for unsigned decimal integers, as a sample instance of the
    string parser that [load_tasks] is parameterised by. *)
Definition digit_of (c : Ascii.ascii) : option Z :=
  let n := Z.of_nat (Ascii.nat_of_ascii c) in
  if (48 <=? n) && (n <=? 57) then Some (n - 48) else None.

Fixpoint parse_digits (acc : Z) (s : string) : option Z :=
  match s with
  | EmptyString => Some acc
  | String c rest =>
      match digit_of c with
      | Some d => parse_digits (acc * 10 + d) rest
      | None => None
      end
  end.

Definition parse_decimal (s : string) : option number :=
  match s with
  | EmptyString => None
  | _ => option_map NInt (parse_digits 0 s)
  end.

(** What the specification asks of a converted field: the result is a
    number; it is the default when the cell holds none (text that is not a
    number, an empty cell, NaN), and otherwise the number stored or
    parsed, an int kept as it is or converted to the float nearest to it,
    as its column is one of ints or of floats. *)
Definition coerces_to (parse_number : string -> option number)
    (default : Z) (v : value) (out : number) : Prop :=
  is_nan out = false /\
  match cell_number parse_number v with
  | NInt z => out = NInt z \/ exists f, of_int z = Ok f /\ out = NFloat f
  | NFloat NaN => out = NFloat (Fin (inject_Z default))
  | NFloat f => out = NFloat f
  end.

(** Every int of the number fits in 64 bits (signed). *)
Definition plain_number (n : number) : Prop :=
  match n with
  | NInt z => in_int64 z = true
  | NFloat _ => True
  end.

Definition plain_value (v : value) : Prop :=
  match v with
  | VNum n => plain_number n
  | VStr _ => True
  end.

(** A record whose ints, stored in any cell or parsed from the text of a
    converted cell, all fit in 64 bits. *)
Definition plain_row (parse_number : string -> option number) (r : row)
  : Prop :=
  plain_value (Task r) /\ plain_value (Urgency r) /\
  plain_value (Importance r) /\
  plain_number (cell_number parse_number (DaysUntilDue r)) /\
  plain_number (cell_number parse_number (Priority r)) /\
  plain_number (cell_number parse_number (Quantity r)) /\
  plain_number (cell_number parse_number (PeopleNeeded r)).

Definition plain_sheet (parse_number : string -> option number)
    (data : list row) : Prop :=
  Forall (plain_row parse_number) data.

(** A cell of a column that [load_tasks] does not convert: it is held as
    read, or, when it is an int of a column of floats, as the float
    nearest to it.  Text stays the text it was. *)
Definition kept (v out : value) : Prop :=
  out = v \/ out = as_float64 v.

(** A record and the row of the data frame loaded from it. *)
Definition loaded (parse_number : string -> option number) (r : row)
    (f : frame_row) : Prop :=
  kept (Task r) (df_Task f) /\
  kept (Urgency r) (df_Urgency f) /\
  kept (Importance r) (df_Importance f) /\
  coerces_to parse_number 0 (DaysUntilDue r) (df_DaysUntilDue f) /\
  coerces_to parse_number 0 (Priority r) (df_Priority f) /\
  coerces_to parse_number 0 (Quantity r) (df_Quantity f) /\
  coerces_to parse_number 1 (PeopleNeeded r) (df_PeopleNeeded f).


(** The number [n], an int or a finite float, has the value [x]. *)
Definition num_is (n : number) (x : Q) : Prop :=
  match n with
  | NInt z => (inject_Z z == x)%Q
  | NFloat (Fin y) => (y == x)%Q
  | NFloat _ => False
  end.

Definition val_is (v : value) (x : Q) : Prop :=
  match v with
  | VNum n => num_is n x
  | VStr _ => False
  end.

(** ** Sample data *)

(** A record whose cells hold text where numbers are expected. *)
Definition text_row : row :=
  mkRow (VStr "Unload Shuttles") (VStr "high") (VStr "") (vint 0)
    (VStr "n/a") (VStr "") (VStr "two").

(** A sheet with a duplicated task name. *)
Definition three_rows : sheet :=
  mkSheet
    [ mkRow (VStr "Putaway 3002") (vint 5) (vint 5) (vint 0) (vint 0)
        (vint 0) (vint 1);
      mkRow (VStr "Unload Shuttles") (vint 3) (vint 4) (vint 2)
        (vfloat (Fin (23 # 2))) (vint 7) (vint 1);
      text_row ]
    [].

(** ** The same arithmetic on the binary64 specification of the standard
    library

    [SpecFloat] defines the IEEE-754 operations on significand/exponent
    pairs.  The staffing and priority computations are repeated on it, to
    compare [Float] with it on sample inputs. *)

Module IEEE.

Import SpecFloat.

Definition value_of (f : spec_float) : float :=
  match f with
  | S754_zero _ => Fin 0
  | S754_infinity s => Inf s
  | S754_nan => NaN
  | S754_finite s m e =>
      Fin (Qred (inject_Z (if s then Z.neg m else Z.pos m) * pow2 e))
  end.

Definition b64 (m e : Z) : spec_float := binary_normalize 53 1024 m e false.

Definition b64_priority_factor (urgency importance : Z) : spec_float :=
  SFdiv 53 1024
    (SFadd 53 1024 (SFmul 53 1024 (b64 urgency 0) (b64 3 (-1)))
       (b64 (importance * 2) 0))
    (b64 10 0).

Definition b64_product (minutes quantity urgency importance : Z)
  : spec_float :=
  SFmul 53 1024
    (SFdiv 53 1024 (b64 (quantity * minutes) 0)
       (b64 WORK_MINUTES_PER_WORKER 0))
    (b64_priority_factor urgency importance).

Definition b64_priority_score (urgency importance days_until_due : Z)
  : spec_float :=
  SFsub 53 1024
    (SFadd 53 1024 (SFmul 53 1024 (b64 urgency 0) (b64 3 (-1)))
       (b64 (importance * 2) 0))
    (SFmul 53 1024 (b64 days_until_due 0) (b64 1 (-1))).

Definition float_eqb (a b : float) : bool :=
  match a, b with
  | Fin x, Fin y => Qeq_bool x y
  | Inf s, Inf t => Bool.eqb s t
  | NaN, NaN => true
  | _, _ => false
  end.

Definition same_float (r : result float) (f : spec_float) : bool :=
  match r with
  | Ok a => float_eqb a (value_of f)
  | Raise _ => false
  end.

Definition same_people (r : result Z) (f : spec_float) : bool :=
  match r, value_of f with
  | Ok n, Fin x => n =? Z.max 1 (Qceiling x)
  | _, _ => false
  end.

Definition one_to_ten : list Z := [1; 2; 3; 4; 5; 6; 7; 8; 9; 10].

Definition sample_quantities : list Z :=
  [0; 1; 2; 3; 7; 10; 21; 28; 60; 200; 464; 1000; 2800; 123456789; 10 ^ 9].

Definition sample_tasks : list (string * Z) :=
  [ ("Putaway 3043"%string, 15); ("Putaway 3002"%string, 20);
    ("FTL Picks Same Day"%string, 25) ].

(** On every sample the priority factor, the priority score and the number
    of people are those of the standard library's binary64. *)
Definition samples_agree : bool :=
  forallb (fun u =>
    forallb (fun i =>
      same_float (priority_factor u i) (b64_priority_factor u i)
      && forallb (fun d =>
           same_float (priority_score u i d) (b64_priority_score u i d))
           [0; 1; 2; 3; 4; 5; 40; -3]
      && forallb (fun tm =>
           forallb (fun q =>
             same_people (calculate_people_needed (fst tm) q u i)
               (b64_product (snd tm) q u i))
             sample_quantities)
           sample_tasks)
      one_to_ten)
    one_to_ten.

(** Significands and exponents around the rounding, subnormal and
    overflow thresholds. *)
Definition sample_significands : list Z :=
  [ 1; 3; 5; -7; 2 ^ 52 + 1; 2 ^ 53 - 1; 2 ^ 53 + 1; 2 ^ 53 + 3;
    2 ^ 54 + 2; - (2 ^ 54 + 6); 2 ^ 54 - 1; 2 ^ 60 + 2 ^ 7; 10 ^ 30 + 1 ].

Definition sample_exponents : list Z :=
  [ -1200; -1140; -1130; -1129; -1128; -1127; -1126; -1077; -1076; -1075;
    -1074; -1073; -60; -1; 0; 1; 900; 969; 970; 971; 972; 1020; 1023; 1024 ].

(** [round_ne] against [binary_normalize] on these. *)
Definition rounding_agrees : bool :=
  forallb (fun m =>
    forallb (fun e =>
      float_eqb (round_ne (inject_Z m * pow2 e)) (value_of (b64 m e)))
      sample_exponents)
    sample_significands.

End IEEE.

(** A magnitude far below the range of binary64, far above any quantity,
    urgency or importance. *)
Definition huge : Z := 10 ^ 100.

(** The unit roundoff of binary64. *)
Definition u53 : Q := pow2 (-53).

(** [x] is a multiple of one half, with a numerator below 2^53. *)
Definition half_int (x : Q) (n : Z) : Prop :=
  (x == inject_Z n / pow2 1)%Q /\ Z.abs n < 2 ^ 53.

(** ** The form defaults of the page *)

(** [int(x)] on a float truncates toward zero. *)
Definition trunc (x : Q) : Z :=
  if Qle_bool 0 x then Qfloor x else Qceiling x.

(** [int(x)] on a number of the data frame: an infinity raises
    [OverflowError] and NaN raises [ValueError]. *)
Definition int_of_number (n : number) : result Z :=
  match n with
  | NInt z => Ok z
  | NFloat (Fin x) => Ok (trunc x)
  | NFloat (Inf _) => Raise OverflowError
  | NFloat NaN => Raise ValueError
  end.

(** [df["Task"] == selected_task] on one row, for a string
    [selected_task]. *)
Definition frame_task_is (selected_task : string) (f : frame_row) : bool :=
  match df_Task f with
  | VStr s => String.eqb s selected_task
  | VNum _ => false
  end.

Section Form.

(** How [int] reads a string: [None] is [ValueError].  The parser belongs
    to Python; it is a parameter here. *)
Variable parse_int : string -> option Z.

Definition int_of_value (v : value) : result Z :=
  match v with
  | VNum n => int_of_number n
  | VStr s =>
      match parse_int s with
      | Some z => Ok z
      | None => Raise ValueError
      end
  end.

(** The values the page puts in its form for [selected_task], as
    (urgency, importance, quantity, days_until_due): 5, 5, 0, 0 unless
    [task_data = df[df["Task"] == selected_task]] has a row, and then the
    ints read from its first row. *)
Definition form_defaults (df : list frame_row) (selected_task : string)
  : result (Z * Z * Z * Z) :=
  match filter (frame_task_is selected_task) df with
  | [] => Ok (5, 5, 0, 0)
  | f :: _ =>
      let? urgency := int_of_value (df_Urgency f) in
      let? importance := int_of_value (df_Importance f) in
      let? quantity := int_of_number (df_Quantity f) in
      let? days_until_due := int_of_number (df_DaysUntilDue f) in
      Ok (urgency, importance, quantity, days_until_due)
  end.

End Form.

(** A sheet whose records hold well-formed values. *)
Definition two_rows : sheet :=
  mkSheet
    [ mkRow (VStr "Putaway 3002") (vint 5) (vint 5) (vint 0) (vint 0)
        (vint 0) (vint 1);
      mkRow (VStr "Unload Shuttles") (vint 3) (vint 4) (vint 2)
        (vfloat (Fin (23 # 2))) (vint 7) (vint 1) ]
    [].

(** A reader of unsigned decimal integers, as a sample instance of the
    string parser that [form_defaults] is parameterised by. *)
Definition parse_unsigned (s : string) : option Z :=
  match s with
  | EmptyString => None
  | _ => parse_digits 0 s
  end.

(** ** Further reference notions *)

Definition row_of (w : Z * Z * value) : Z := fst (fst w).

(** A cell write that addresses one of [n] records and one of the six value
    columns. *)
Definition in_grid (n : nat) (w : Z * Z * value) : Prop :=
  2 <= row_of w <= Z.of_nat n + 1 /\ 2 <= column_of w <= 7.

(** The record's People Needed cell holds an int that is at least 1. *)
Definition people_ok (r : row) : Prop :=
  exists n, PeopleNeeded r = vint n /\ 1 <= n.

(** * Facts about rounding *)

Module FloatFacts.

Local Open Scope Q_scope.

Lemma pow2_pos (e : Z) : 0 < pow2 e.
Proof. apply Qpower_0_lt. reflexivity. Qed.

Lemma pow2_add (a b : Z) : pow2 (a + b) == pow2 a * pow2 b.
Proof. apply Qpower_plus. discriminate. Qed.

Lemma pow2_le (a b : Z) : (a <= b)%Z -> pow2 a <= pow2 b.
Proof. intros H. apply Qpower_le_compat_l; [exact H | discriminate]. Qed.

Lemma pow2_lt_inv (a b : Z) : pow2 a < pow2 b -> (a < b)%Z.
Proof. intros H. apply (Qpower_lt_compat_l_inv 2); [exact H | reflexivity]. Qed.

Lemma pow2_inject (n : Z) : (0 <= n)%Z -> pow2 n == inject_Z (2 ^ n).
Proof.
  intros H. unfold pow2. rewrite Zpower_Qpower by exact H. reflexivity.
Qed.

Lemma pow2_opp (e : Z) : pow2 (- e) == / pow2 e.
Proof. apply Qpower_opp. Qed.

Lemma div_pow2_mul (x : Q) (e : Z) : x / pow2 e * pow2 e == x.
Proof.
  field. intros H. pose proof (pow2_pos e) as P. rewrite H in P.
  discriminate P.
Qed.

Lemma Qabs_mul_pos (a p : Q) : 0 < p -> Qabs a * p == Qabs (a * p).
Proof.
  intros H. rewrite Qabs_Qmult, (Qabs_pos p) by lra. reflexivity.
Qed.

(** ** Nearest integer *)

Lemma rne_wd (a b : Q) : a == b -> rne a = rne b.
Proof.
  intros H. unfold rne.
  assert (F : Qfloor a = Qfloor b) by (rewrite H; reflexivity).
  rewrite F.
  assert (C : Qcompare (a - inject_Z (Qfloor b)) (1 # 2)
              = Qcompare (b - inject_Z (Qfloor b)) (1 # 2))
    by (rewrite H; reflexivity).
  rewrite C. reflexivity.
Qed.

Lemma rne_int (n : Z) : rne (inject_Z n) = n.
Proof.
  unfold rne. rewrite Qfloor_Z.
  assert (C : Qcompare (inject_Z n - inject_Z n) (1 # 2) = Lt).
  { apply (proj1 (Qlt_alt _ _)). lra. }
  rewrite C. reflexivity.
Qed.

Lemma rne_err (y : Q) : Qabs (inject_Z (rne y) - y) <= 1 # 2.
Proof.
  unfold rne.
  pose proof (Qfloor_le y) as L. pose proof (Qlt_floor y) as U.
  rewrite inject_Z_plus in U.
  change (inject_Z 1) with 1 in U.
  apply Qabs_Qle_condition.
  destruct (Qcompare_spec (y - inject_Z (Qfloor y)) (1 # 2)) as [E | E | E].
  - destruct (Z.even (Qfloor y)).
    + split; lra.
    + rewrite inject_Z_plus. change (inject_Z 1) with 1. split; lra.
  - split; lra.
  - rewrite inject_Z_plus. change (inject_Z 1) with 1. split; lra.
Qed.

Lemma int_near_bound (n : Z) (y : Q) :
  Qabs (inject_Z n - y) <= 1 # 2 -> Qabs (inject_Z n) <= 2 * Qabs y.
Proof.
  intros H. apply Qabs_Qle_condition in H. destruct H as [H1 H2].
  destruct (Z.eq_dec n 0) as [-> | N].
  - change (Qabs (inject_Z 0)) with 0. pose proof (Qabs_nonneg y). lra.
  - destruct (Z_lt_le_dec n 0) as [Neg | Pos].
    + assert (B : inject_Z n <= inject_Z (-1)) by (rewrite <- Zle_Qle; lia).
      change (inject_Z (-1)) with (-1) in B.
      rewrite Qabs_neg by lra. rewrite (Qabs_neg y) by lra. lra.
    + assert (B : inject_Z 1 <= inject_Z n) by (rewrite <- Zle_Qle; lia).
      change (inject_Z 1) with 1 in B.
      rewrite Qabs_pos by lra. rewrite (Qabs_pos y) by lra. lra.
Qed.

(** ** Binary logarithm *)

Lemma ilog2_spec (x : Q) :
  0 < x -> pow2 (ilog2 x) <= x /\ x < pow2 (ilog2 x + 1).
Proof.
  intros Hx. unfold ilog2. destruct (Qle_bool 1 x) eqn:C.
  - apply Qle_bool_iff in C.
    assert (F1 : (1 <= Qfloor x)%Z).
    { change 1%Z with (Qfloor 1). apply Qfloor_resp_le. exact C. }
    destruct (Z.log2_spec (Qfloor x)) as [L U]; [lia |].
    pose proof (Z.log2_nonneg (Qfloor x)) as N.
    rewrite <- Z.add_1_r in U.
    split.
    + rewrite pow2_inject by lia.
      apply Qle_trans with (inject_Z (Qfloor x)).
      * rewrite <- Zle_Qle. exact L.
      * apply Qfloor_le.
    + rewrite pow2_inject by lia.
      apply Qlt_le_trans with (inject_Z (Qfloor x + 1)).
      * apply Qlt_floor.
      * rewrite <- Zle_Qle. lia.
  - assert (C' : x < 1).
    { apply Qnot_le_lt. intros A. apply Qle_bool_iff in A. congruence. }
    assert (X0 : ~ x == 0) by (intros E; rewrite E in Hx; discriminate Hx).
    assert (I : 1 < / x).
    { apply Qlt_shift_inv_l; [exact Hx | lra]. }
    set (c := Qceiling (/ x)).
    pose proof (Qle_ceiling (/ x)) as Cle. fold c in Cle.
    assert (C2 : (1 < c)%Z).
    { rewrite Zlt_Qlt. change (inject_Z 1) with 1. lra. }
    destruct (Z.log2_up_spec c C2) as [L U].
    pose proof (Z.log2_up_pos c C2) as P.
    set (k := Z.log2_up c) in *.
    split.
    + rewrite pow2_opp, pow2_inject by lia.
      assert (Up : inject_Z c <= inject_Z (2 ^ k))
        by (rewrite <- Zle_Qle; exact U).
      assert (Pk : 0 < inject_Z (2 ^ k)) by lra.
      apply Qle_shift_inv_r; [exact Pk |].
      assert (M : x * / x <= x * inject_Z (2 ^ k)).
      { apply Qmult_le_l; [exact Hx | lra]. }
      rewrite Qmult_inv_r in M by exact X0. exact M.
    + replace (- k + 1)%Z with (- (Z.pred k))%Z by lia.
      rewrite pow2_opp, pow2_inject by lia.
      assert (Pk : 0 < inject_Z (2 ^ Z.pred k)).
      { rewrite <- pow2_inject by lia. apply pow2_pos. }
      assert (Lo : inject_Z (2 ^ Z.pred k) < / x).
      { apply Qnot_le_lt. intros A.
        apply Qceiling_resp_le in A. rewrite Qceiling_Z in A.
        fold c in A. lia. }
      apply Qlt_shift_inv_l; [exact Pk |].
      assert (M : x * inject_Z (2 ^ Z.pred k) < x * / x).
      { apply Qmult_lt_l; [exact Hx | exact Lo]. }
      rewrite Qmult_inv_r in M by exact X0. exact M.
Qed.

Lemma ilog2_wd (a b : Q) : a == b -> ilog2 a = ilog2 b.
Proof.
  intros H. unfold ilog2.
  assert (B : Qle_bool 1 a = Qle_bool 1 b).
  { destruct (Qle_bool 1 b) eqn:E.
    - apply Qle_bool_iff. apply Qle_bool_iff in E. rewrite H. exact E.
    - destruct (Qle_bool 1 a) eqn:E'; [| reflexivity].
      apply Qle_bool_iff in E'. rewrite H in E'. apply Qle_bool_iff in E'.
      congruence. }
  rewrite B.
  assert (F : Qfloor a = Qfloor b) by (rewrite H; reflexivity).
  assert (G : Qceiling (/ a) = Qceiling (/ b)) by (rewrite H; reflexivity).
  rewrite F, G. reflexivity.
Qed.

Lemma ulp_exp_wd (a b : Q) : a == b -> ulp_exp a = ulp_exp b.
Proof.
  intros H. unfold ulp_exp.
  rewrite (ilog2_wd (Qabs a) (Qabs b)) by (rewrite H; reflexivity).
  reflexivity.
Qed.

(** ** Rounding *)

Lemma round_ne_zero (x : Q) : x == 0 -> round_ne x = Fin 0.
Proof.
  intros H. unfold round_ne.
  assert (E : Qeq_bool (Qred x) 0 = true).
  { apply Qeq_bool_iff. rewrite Qred_correct. exact H. }
  rewrite E. reflexivity.
Qed.

Lemma round_ne_wd (a b : Q) : a == b -> round_ne a = round_ne b.
Proof.
  intros H. unfold round_ne. rewrite (Qred_complete a b H). reflexivity.
Qed.

(** Below 2^1023 in magnitude nothing overflows: the result is the nearest
    multiple of the unit in the last place, at most twice the argument. *)
Lemma round_ne_fin (x : Q) :
  Qabs x < pow2 1023 ->
  exists y, round_ne x = Fin y /\ Qabs y <= 2 * Qabs x /\
    (~ x == 0 ->
     y == inject_Z (rne (x / pow2 (ulp_exp x))) * pow2 (ulp_exp x)).
Proof.
  intros H. unfold round_ne.
  set (x' := Qred x). assert (X : x' == x) by apply Qred_correct.
  destruct (Qeq_bool x' 0) eqn:Z0.
  - exists 0. split; [reflexivity |]. split.
    + change (Qabs 0) with 0. pose proof (Qabs_nonneg x). lra.
    + intros NZ. exfalso. apply NZ. rewrite <- X.
      apply Qeq_bool_iff. exact Z0.
  - cbv zeta.
    set (e := ulp_exp x').
    set (y := inject_Z (rne (x' / pow2 e)) * pow2 e).
    pose proof (pow2_pos e) as Pe.
    assert (B : Qabs y <= 2 * Qabs x).
    { unfold y. rewrite Qabs_Qmult. rewrite (Qabs_pos (pow2 e)) by lra.
      pose proof (int_near_bound _ _ (rne_err (x' / pow2 e))) as R.
      apply (Qmult_le_compat_r _ _ (pow2 e)) in R; [| lra].
      assert (A : Qabs (x' / pow2 e) * pow2 e == Qabs x).
      { rewrite Qabs_mul_pos, div_pow2_mul, X by lra. reflexivity. }
      rewrite <- A. lra. }
    destruct (Qle_bool (pow2 emax) (Qabs y)) eqn:O.
    + apply Qle_bool_iff in O. exfalso.
      assert (T : pow2 emax == 2 * pow2 1023) by reflexivity.
      lra.
    + exists (Qred y). split; [reflexivity |]. split.
      * rewrite Qred_correct. exact B.
      * intros _. rewrite Qred_correct. unfold y, e.
        rewrite (ulp_exp_wd x' x X).
        rewrite (rne_wd (x' / pow2 (ulp_exp x)) (x / pow2 (ulp_exp x)))
          by (rewrite X; reflexivity).
        reflexivity.
Qed.

Lemma round_ne_bound (x : Q) :
  Qabs x < pow2 1023 ->
  exists y, round_ne x = Fin y /\ Qabs y <= 2 * Qabs x.
Proof.
  intros H. destruct (round_ne_fin x H) as (y & E & B & _).
  exists y. split; assumption.
Qed.

(** Standard model of rounding: in the normal range the result is within
    a relative [u53] of the exact value. *)
Lemma round_ne_rel (x : Q) :
  x == 0 \/ pow2 (-1022) <= Qabs x ->
  Qabs x < pow2 1023 ->
  exists y, round_ne x = Fin y /\ Qabs (y - x) <= Qabs x * u53.
Proof.
  intros [Z0 | N] H.
  - exists 0. split; [apply round_ne_zero; exact Z0 |].
    rewrite Z0. change (Qabs (0 - 0)) with 0. change (Qabs 0) with 0. lra.
  - destruct (round_ne_fin x H) as (y & E & _ & F).
    exists y. split; [exact E |].
    pose proof (pow2_pos (-1022)) as P0.
    assert (NZ : ~ x == 0).
    { intros Z0. rewrite Z0 in N. change (Qabs 0) with 0 in N. lra. }
    specialize (F NZ).
    assert (Pa : 0 < Qabs x) by lra.
    destruct (ilog2_spec (Qabs x) Pa) as [L U].
    assert (Il : (-1022 <= ilog2 (Qabs x))%Z).
    { assert (A : pow2 (-1022) < pow2 (ilog2 (Qabs x) + 1)) by lra.
      apply pow2_lt_inv in A. lia. }
    assert (Ee : ulp_exp x = (ilog2 (Qabs x) + -52)%Z).
    { unfold ulp_exp, prec, emin. lia. }
    rewrite Ee in F.
    set (e := (ilog2 (Qabs x) + -52)%Z) in *.
    pose proof (pow2_pos e) as Pe.
    pose proof (rne_err (x / pow2 e)) as R.
    apply (Qmult_le_compat_r _ _ (pow2 e)) in R; [| lra].
    assert (A : Qabs (inject_Z (rne (x / pow2 e)) - x / pow2 e) * pow2 e
                == Qabs (y - x)).
    { rewrite Qabs_mul_pos by lra.
      assert (D : (inject_Z (rne (x / pow2 e)) - x / pow2 e) * pow2 e
                  == y - x).
      { pose proof (div_pow2_mul x e) as Dz. rewrite F.
        generalize dependent (inject_Z (rne (x / pow2 e))). intros r _ _.
        lra. }
      rewrite D. reflexivity. }
    rewrite A in R.
    assert (S : pow2 e == pow2 (ilog2 (Qabs x)) * pow2 (-52)) by apply pow2_add.
    assert (V : u53 == (1 # 2) * pow2 (-52)) by reflexivity.
    assert (W : 0 < pow2 (-52)) by apply pow2_pos.
    assert (M : pow2 (ilog2 (Qabs x)) * pow2 (-52) <= Qabs x * pow2 (-52)).
    { apply Qmult_le_compat_r; lra. }
    rewrite V. rewrite S in R. lra.
Qed.

(** A dyadic number with a significand below 2^53 rounds to itself. *)
Lemma round_ne_exact (x : Q) (n s : Z) :
  x == inject_Z n / pow2 s ->
  (Z.abs n < 2 ^ 53)%Z -> (0 <= s <= 1074)%Z ->
  exists y, round_ne x = Fin y /\ y == x.
Proof.
  intros Hx Hn Hs.
  pose proof (pow2_pos s) as Ps.
  assert (P1 : 1 <= pow2 s).
  { change 1 with (pow2 0). apply pow2_le. lia. }
  assert (Ax : Qabs x == inject_Z (Z.abs n) / pow2 s).
  { rewrite Hx. unfold Qdiv. rewrite Qabs_Qmult, Qabs_Qinv.
    rewrite (Qabs_pos (pow2 s)) by lra.
    assert (A : Qabs (inject_Z n) == inject_Z (Z.abs n)) by reflexivity.
    rewrite A. reflexivity. }
  assert (Lt53 : Qabs x < pow2 (53 - s)).
  { rewrite Ax.
    assert (S : pow2 (53 - s) == pow2 53 / pow2 s).
    { replace (53 - s)%Z with (53 + - s)%Z by lia.
      rewrite pow2_add, pow2_opp. reflexivity. }
    rewrite S. unfold Qdiv. apply Qmult_lt_compat_r.
    - apply Qinv_lt_0_compat. exact Ps.
    - rewrite (pow2_inject 53) by lia. rewrite <- Zlt_Qlt. exact Hn. }
  assert (H : Qabs x < pow2 1023).
  { apply Qlt_le_trans with (pow2 (53 - s)); [exact Lt53 |].
    apply pow2_le. lia. }
  destruct (round_ne_fin x H) as (y & E & _ & F).
  exists y. split; [exact E |].
  destruct (Qeq_dec x 0) as [Z0 | NZ].
  - rewrite (round_ne_zero x Z0) in E. injection E as <-.
    symmetry. exact Z0.
  - specialize (F NZ).
    assert (Pa : 0 < Qabs x).
    { pose proof (Qabs_nonneg x) as A.
      destruct (Qeq_dec (Qabs x) 0) as [A0 | A0]; [| lra].
      exfalso. apply NZ.
      pose proof (Qle_Qabs x) as B. pose proof (Qle_Qabs (- x)) as B'.
      rewrite Qabs_opp in B'. lra. }
    destruct (ilog2_spec (Qabs x) Pa) as [L _].
    assert (Il : (ilog2 (Qabs x) < 53 - s)%Z).
    { apply pow2_lt_inv. lra. }
    set (e := ulp_exp x) in *.
    assert (Ee : (e <= - s)%Z) by (unfold e, ulp_exp, prec, emin; lia).
    pose proof (pow2_pos e) as Pe.
    assert (D : x / pow2 e == inject_Z (n * 2 ^ (- s - e))).
    { rewrite inject_Z_mult, <- pow2_inject by lia.
      replace (- s - e)%Z with (- s + - e)%Z by lia.
      rewrite pow2_add, !pow2_opp, Hx. field. split; lra. }
    rewrite (rne_wd _ _ D), rne_int in F.
    rewrite F, <- D. apply div_pow2_mul.
Qed.

(** [Float] against the standard library's binary64 on the samples of
    [IEEE.samples_agree], among them the inputs on which rounding shows. *)
Lemma agrees_with_SpecFloat : IEEE.samples_agree = true.
Proof. vm_compute. reflexivity. Qed.

Lemma round_ne_agrees_with_SpecFloat : IEEE.rounding_agrees = true.
Proof. vm_compute. reflexivity. Qed.

Lemma agrees_with_SpecFloat_above_2p53 :
  IEEE.same_float (priority_score (2 ^ 53 + 1) 0 0)
    (IEEE.b64_priority_score (2 ^ 53 + 1) 0 0) = true /\
  IEEE.b64 (10 ^ 400 * 20) 0 = SpecFloat.S754_infinity false.
Proof. split; vm_compute; reflexivity. Qed.

End FloatFacts.

(** * The priority score *)

Module PriorityFacts.

Import FloatFacts.
Local Open Scope Q_scope.

Lemma of_int_exact (n : Z) :
  (Z.abs n < 2 ^ 53)%Z ->
  exists y, of_int n = Ok (Fin y) /\ y == inject_Z n.
Proof.
  intros H.
  destruct (round_ne_exact (inject_Z n) n 0) as (y & E & V);
    [change (pow2 0) with 1; field | exact H | lia |].
  exists y. unfold of_int. rewrite E. split; [reflexivity | exact V].
Qed.

Lemma round_half_int (x : Q) (n : Z) :
  half_int x n -> exists y, round_ne x = Fin y /\ y == x.
Proof.
  intros [E B]. apply (round_ne_exact x n 1); [exact E | exact B | lia].
Qed.

(** The left operand of the division in [priority_factor], which is also
    the minuend of [priority_score]: exactly [urgency * 1.5 + importance * 2]
    for ints that are not huge. *)
Lemma weighted_sum_exact (u i : Z) :
  (Z.abs u <= 2 ^ 49)%Z -> (Z.abs i <= 2 ^ 49)%Z ->
  exists fu fi s,
    of_int u = Ok (Fin fu) /\ of_int (i * 2) = Ok (Fin fi) /\
    Float.add (Float.mul (Fin fu) (Fin (3 # 2))) (Fin fi) = Fin s /\
    s == inject_Z u * (3 # 2) + inject_Z i * 2.
Proof.
  intros Hu Hi.
  destruct (of_int_exact u) as (fu & E1 & V1); [lia |].
  destruct (of_int_exact (i * 2)) as (fi & E2 & V2); [lia |].
  destruct (round_half_int (fu * (3 # 2)) (3 * u)) as (a & E3 & V3).
  { split; [| lia]. rewrite V1, inject_Z_mult.
    change (pow2 1) with 2. change (inject_Z 3) with 3. field. }
  destruct (round_half_int (a + fi) (3 * u + 4 * i)) as (s & E4 & V4).
  { split; [| lia]. rewrite V3, V1, V2, inject_Z_plus, !inject_Z_mult.
    change (pow2 1) with 2. change (inject_Z 3) with 3.
    change (inject_Z 4) with 4. change (inject_Z 2) with 2. field. }
  exists fu, fi, s. repeat split; try assumption.
  - cbn [Float.mul Float.add]. rewrite E3. cbn [Float.add]. exact E4.
  - rewrite V4, V3, V1, V2, inject_Z_mult. change (inject_Z 2) with 2.
    reflexivity.
Qed.

Lemma priority_score_value (u i d : Z) :
  (Z.abs u <= 2 ^ 49)%Z -> (Z.abs i <= 2 ^ 49)%Z -> (Z.abs d <= 2 ^ 49)%Z ->
  exists p, priority_score u i d = Ok (Fin p) /\ p == Spec.priority u i d.
Proof.
  intros Hu Hi Hd.
  destruct (weighted_sum_exact u i Hu Hi) as (fu & fi & s & E1 & E2 & E3 & V3).
  destruct (of_int_exact d) as (fd & E4 & V4); [lia |].
  destruct (round_half_int (fd * (1 # 2)) d) as (h & E5 & V5).
  { split; [| lia]. rewrite V4. change (pow2 1) with 2. field. }
  destruct (round_half_int (s - h) (3 * u + 4 * i - d)) as (p & E6 & V6).
  { split; [| lia].
    rewrite V3, V5, V4.
    replace (3 * u + 4 * i - d)%Z with (3 * u + 4 * i + - d)%Z by lia.
    rewrite !inject_Z_plus, !inject_Z_mult, inject_Z_opp.
    change (pow2 1) with 2. change (inject_Z 3) with 3.
    change (inject_Z 4) with 4. field. }
  exists p. split.
  - unfold priority_score. rewrite E1. cbn [rbind]. rewrite E2. cbn [rbind].
    rewrite E3, E4. cbn [rbind Float.mul]. rewrite E5. cbn [Float.sub].
    rewrite E6. reflexivity.
  - rewrite V6, V3, V5, V4. reflexivity.
Qed.

End PriorityFacts.

(** * Priority score and priority factor *)

Section PriorityClaims.

Local Open Scope Q_scope.

(** C2, as the code has it: for int inputs of magnitude at most 2^49 (every
    value the sliders can produce, and far beyond), the priority score that
    [update_task] computes is exactly
    urgency * 1.5 + importance * 2 - daysUntilDue * 0.5; nothing clamps it,
    so it is negative whenever daysUntilDue * 0.5 exceeds
    urgency * 1.5 + importance * 2. *)
Theorem priority_score_exact (urgency importance days_until_due : Z) :
  (Z.abs urgency <= 2 ^ 49)%Z ->
  (Z.abs importance <= 2 ^ 49)%Z ->
  (Z.abs days_until_due <= 2 ^ 49)%Z ->
  exists p,
    priority_score urgency importance days_until_due = Ok (Fin p) /\
    p == Spec.priority urgency importance days_until_due /\
    (inject_Z urgency * (3 # 2) + inject_Z importance * 2
       < inject_Z days_until_due * (1 # 2) -> p < 0).
Proof.
  intros Hu Hi Hd.
  destruct (PriorityFacts.priority_score_value _ _ _ Hu Hi Hd) as (p & E & V).
  exists p. split; [exact E |]. split; [exact V |].
  intros N. rewrite V. unfold Spec.priority. lra.
Qed.

Lemma priority_score_exact_witness :
  (Z.abs 1 <= 2 ^ 49)%Z /\ (Z.abs 1 <= 2 ^ 49)%Z /\ (Z.abs 10 <= 2 ^ 49)%Z /\
  exists p, priority_score 1 1 10 = Ok (Fin p) /\
    p == Spec.priority 1 1 10 /\
    (inject_Z 1 * (3 # 2) + inject_Z 1 * 2 < inject_Z 10 * (1 # 2) -> p < 0).
Proof.
  repeat split; try (vm_compute; discriminate).
  apply (priority_score_exact 1 1 10); vm_compute; discriminate.
Defined.

(** C2 fails as stated for all inputs: an int above 2^53 is rounded when it
    is converted to float, so the score is not the exact formula. *)
Lemma priority_score_inexact_above_2p53 :
  exists p,
    priority_score (2 ^ 53 + 1) 0 0 = Ok (Fin p) /\
    ~ p == Spec.priority (2 ^ 53 + 1) 0 0.
Proof.
  exists 13510798882111488. split; [vm_compute; reflexivity |].
  vm_compute. discriminate.
Qed.

Ltac one_to_ten x :=
  let H := fresh in
  assert (H : (x = 1 \/ x = 2 \/ x = 3 \/ x = 4 \/ x = 5 \/ x = 6 \/ x = 7
               \/ x = 8 \/ x = 9 \/ x = 10)%Z) by lia;
  repeat (destruct H as [H | H]); subst x.

(** C9, as the code has it: for urgency and importance in 1..10 the
    priority factor (urgency * 1.5 + importance * 2) / 10 is a finite float
    with 0 < factor <= 3.5; the scale tops out at 3.5, not at 3. *)
Theorem priority_factor_range (urgency importance : Z) :
  (1 <= urgency <= 10)%Z -> (1 <= importance <= 10)%Z ->
  exists p, priority_factor urgency importance = Ok (Fin p) /\
    0 < p /\ p <= 7 # 2.
Proof.
  intros Hu Hi.
  one_to_ten urgency; one_to_ten importance;
    (eexists; split;
     [ vm_compute; reflexivity
     | split; [ vm_compute; reflexivity | vm_compute; discriminate ] ]).
Qed.

Lemma priority_factor_range_witness :
  (1 <= 5 <= 10)%Z /\ (1 <= 5 <= 10)%Z /\
  exists p, priority_factor 5 5 = Ok (Fin p) /\ 0 < p /\ p <= 7 # 2.
Proof.
  split; [lia |]. split; [lia |].
  apply (priority_factor_range 5 5); lia.
Defined.

(** C9 fails as stated: at urgency = importance = 10 the factor is 3.5,
    above the 0-3 scale. *)
Lemma priority_factor_exceeds_3 :
  (1 <= 10 <= 10)%Z /\
  exists p, priority_factor 10 10 = Ok (Fin p) /\ ~ (0 <= p <= 3).
Proof.
  split; [lia |].
  exists (7 # 2). split; [vm_compute; reflexivity |].
  intros [_ H]. vm_compute in H. apply H. reflexivity.
Qed.

End PriorityClaims.

(** * Staffing *)

Module StaffingFacts.

Import FloatFacts PriorityFacts.
Local Open Scope Q_scope.

Lemma TASK_TIME_values (task : string) (t : Z) :
  dict_get task TASK_TIME = Some t -> (t = 15 \/ t = 20 \/ t = 25)%Z.
Proof.
  unfold TASK_TIME. cbn [dict_get]. intros H.
  repeat match type of H with
         | (if ?b then _ else _) = _ =>
             destruct b; [injection H as <-; lia |]
         end.
  discriminate H.
Qed.

Lemma round_ne_le (x c : Q) :
  Qabs x <= c -> c < pow2 1023 ->
  exists y, round_ne x = Fin y /\ Qabs y <= 2 * c.
Proof.
  intros H C. destruct (round_ne_bound x) as (y & E & B); [lra |].
  exists y. split; [exact E | lra].
Qed.

Lemma Qabs_inject_le (n b : Z) :
  (Z.abs n <= b)%Z -> Qabs (inject_Z n) <= inject_Z b.
Proof.
  intros H.
  assert (A : Qabs (inject_Z n) == inject_Z (Z.abs n)) by reflexivity.
  rewrite A, <- Zle_Qle. exact H.
Qed.

Lemma of_int_le (n : Z) (c : Q) :
  Qabs (inject_Z n) <= c -> c < pow2 1023 ->
  exists y, of_int n = Ok (Fin y) /\ Qabs y <= 2 * c.
Proof.
  intros H C. destruct (round_ne_le _ _ H C) as (y & E & B).
  exists y. unfold of_int. rewrite E. split; [reflexivity | exact B].
Qed.

Lemma of_int_10 : of_int 10 = Ok (Fin 10).
Proof. vm_compute. reflexivity. Qed.

(** Magnitudes up to [huge] stay clear of overflow. *)
Lemma huge_room :
  let B := inject_Z huge in
  0 <= B /\ 20 * B < pow2 1023 /\ 2 * B * (4 * B) < pow2 1023.
Proof. vm_compute. repeat split; discriminate. Qed.

Lemma priority_factor_total (u i : Z) :
  (Z.abs u <= huge)%Z -> (Z.abs i <= huge)%Z ->
  exists p, priority_factor u i = Ok (Fin p) /\ Qabs p <= 4 * inject_Z huge.
Proof.
  intros Hu Hi. destruct huge_room as (B0 & B1 & _).
  apply Qabs_inject_le in Hu.
  assert (Hi2 : Qabs (inject_Z (i * 2)) <= 2 * inject_Z huge).
  { rewrite inject_Z_mult, Qabs_Qmult. apply Qabs_inject_le in Hi.
    change (Qabs (inject_Z 2)) with 2. lra. }
  set (B := inject_Z huge) in *.
  destruct (of_int_le u B Hu) as (fu & E1 & V1); [lra |].
  destruct (round_ne_le (fu * (3 # 2)) (3 * B)) as (a & E2 & V2); [| lra |].
  { rewrite Qabs_Qmult. change (Qabs (3 # 2)) with (3 # 2). lra. }
  destruct (of_int_le (i * 2) (2 * B) Hi2) as (fi & E3 & V3); [lra |].
  destruct (round_ne_le (a + fi) (10 * B)) as (s & E4 & V4); [| lra |].
  { pose proof (Qabs_triangle a fi). lra. }
  destruct (round_ne_le (s / 10) (2 * B)) as (p & E5 & V5); [| lra |].
  { unfold Qdiv. rewrite Qabs_Qmult. change (Qabs (/ 10)) with (1 # 10). lra. }
  exists p. split; [| lra].
  unfold priority_factor. rewrite E1. cbn [rbind]. rewrite E3. cbn [rbind].
  rewrite of_int_10. cbn [rbind Float.mul]. rewrite E2. cbn [Float.add].
  rewrite E4. cbn [Float.div].
  change (Qeq_bool 10 0) with false. cbv iota. rewrite E5. reflexivity.
Qed.

Lemma shifts_total (q t : Z) :
  (0 <= q <= huge)%Z -> (t = 15 \/ t = 20 \/ t = 25)%Z ->
  exists w, int_truediv (q * t) WORK_MINUTES_PER_WORKER = Ok (Fin w) /\
    Qabs w <= 2 * inject_Z huge.
Proof.
  intros Hq Ht. destruct huge_room as (B0 & B1 & _).
  assert (Q0 : 0 <= inject_Z q)
    by (change 0 with (inject_Z 0); rewrite <- Zle_Qle; lia).
  assert (Q1 : inject_Z q <= inject_Z huge) by (rewrite <- Zle_Qle; lia).
  assert (T0 : 0 <= inject_Z t <= 25).
  { change 0 with (inject_Z 0). change 25 with (inject_Z 25).
    rewrite <- !Zle_Qle. lia. }
  set (B := inject_Z huge) in *. clearbody B.
  destruct (round_ne_le (inject_Z (q * t) / inject_Z WORK_MINUTES_PER_WORKER) B)
    as (w & E & V); [| lra |].
  { rewrite inject_Z_mult. change (inject_Z WORK_MINUTES_PER_WORKER) with 420.
    assert (P : 0 <= inject_Z q * inject_Z t <= B * 25).
    { split; [apply Qmult_le_0_compat; lra |].
      apply Qmult_le_compat_nonneg; lra. }
    setoid_replace (inject_Z q * inject_Z t / 420)
      with (inject_Z q * inject_Z t * (1 # 420)) by field.
    apply Qabs_Qle_condition. lra. }
  exists w. split; [| exact V].
  unfold int_truediv. change (WORK_MINUTES_PER_WORKER =? 0)%Z with false.
  cbv iota. rewrite E. reflexivity.
Qed.

(** ** Accuracy on the documented ranges *)

Lemma Qabs_pos_lt (x : Q) : ~ x == 0 -> 0 < Qabs x.
Proof.
  intros NZ. pose proof (Qabs_nonneg x) as A.
  destruct (Qeq_dec (Qabs x) 0) as [A0 | A0]; [| lra].
  exfalso. apply NZ.
  pose proof (Qle_Qabs x) as B. pose proof (Qle_Qabs (- x)) as B'.
  rewrite Qabs_opp in B'. lra.
Qed.

Lemma tiny_le (c : Q) : 1 # 10000 <= c -> pow2 (-1022) <= c.
Proof.
  intros H. apply Qle_trans with (1 # 10000); [| exact H].
  vm_compute. discriminate.
Qed.

Lemma priority_factor_rel (u i : Z) :
  (1 <= u <= 10)%Z -> (1 <= i <= 10)%Z ->
  exists p, priority_factor u i = Ok (Fin p) /\
    Qabs (p - Spec.priority_factor u i) <= Spec.priority_factor u i * u53 /\
    7 # 20 <= Spec.priority_factor u i <= 7 # 2.
Proof.
  intros Hu Hi.
  destruct (weighted_sum_exact u i) as (fu & fi & s & E1 & E2 & E3 & V3);
    [lia | lia |].
  assert (Ru : 1 <= inject_Z u <= 10).
  { change 1 with (inject_Z 1). change 10 with (inject_Z 10).
    rewrite <- !Zle_Qle. lia. }
  assert (Ri : 1 <= inject_Z i <= 10).
  { change 1 with (inject_Z 1). change 10 with (inject_Z 10).
    rewrite <- !Zle_Qle. lia. }
  assert (SP : s / 10 == Spec.priority_factor u i).
  { unfold Spec.priority_factor. rewrite V3. reflexivity. }
  assert (R : 7 # 20 <= Spec.priority_factor u i <= 7 # 2).
  { unfold Spec.priority_factor.
    setoid_replace ((inject_Z u * (3 # 2) + inject_Z i * 2) / 10)
      with ((inject_Z u * (3 # 2) + inject_Z i * 2) * (1 # 10)) by field.
    lra. }
  destruct (round_ne_rel (s / 10)) as (p & E5 & V5).
  { right. rewrite SP, Qabs_pos by lra. apply tiny_le. lra. }
  { rewrite SP, Qabs_pos by lra.
    apply Qle_lt_trans with (7 # 2); [lra | vm_compute; reflexivity]. }
  exists p. split; [| split; [| exact R]].
  - unfold priority_factor. rewrite E1. cbn [rbind]. rewrite E2. cbn [rbind].
    rewrite of_int_10. cbn [rbind]. rewrite E3. cbn [Float.div].
    change (Qeq_bool 10 0) with false. cbv iota. rewrite E5. reflexivity.
  - rewrite SP in V5.
    rewrite (Qabs_pos (Spec.priority_factor u i)) in V5 by lra. exact V5.
Qed.

Lemma shifts_rel (q t : Z) :
  (0 <= q <= 10 ^ 9)%Z -> (t = 15 \/ t = 20 \/ t = 25)%Z ->
  let A := inject_Z (q * t) / 420 in
  exists w, int_truediv (q * t) WORK_MINUTES_PER_WORKER = Ok (Fin w) /\
    Qabs (w - A) <= A * u53 /\
    (q = 0%Z -> A == 0) /\ (q <> 0%Z -> 1 # 28 <= A) /\ A <= 60000000.
Proof.
  intros Hq Ht A.
  assert (Q1 : inject_Z (q * t) <= inject_Z (25 * 10 ^ 9))
    by (rewrite <- Zle_Qle; nia).
  assert (Q0 : q <> 0%Z -> inject_Z 15 <= inject_Z (q * t))
    by (intros; rewrite <- Zle_Qle; nia).
  change (inject_Z (25 * 10 ^ 9)) with 25000000000 in Q1.
  change (inject_Z 15) with 15 in Q0.
  assert (DA : A == inject_Z (q * t) * (1 # 420)) by (unfold A; field).
  assert (A0 : q = 0%Z -> A == 0).
  { intros ->. unfold A. reflexivity. }
  assert (A1 : q <> 0%Z -> 1 # 28 <= A).
  { intros N. specialize (Q0 N). rewrite DA. lra. }
  assert (A2 : A <= 60000000) by (rewrite DA; lra).
  assert (Apos : 0 <= A).
  { destruct (Z.eq_dec q 0) as [Z0 | NZ];
      [rewrite (A0 Z0) | specialize (A1 NZ)]; lra. }
  destruct (round_ne_rel A) as (w & E & V).
  { destruct (Z.eq_dec q 0) as [Z0 | NZ]; [left; auto |].
    right. specialize (A1 NZ). rewrite Qabs_pos by lra. apply tiny_le. lra. }
  { rewrite Qabs_pos by lra.
    apply Qle_lt_trans with 60000000; [lra | vm_compute; reflexivity]. }
  exists w. rewrite (Qabs_pos A) in V by lra.
  repeat split; try assumption.
  unfold int_truediv. change (WORK_MINUTES_PER_WORKER =? 0)%Z with false.
  cbv iota. change (inject_Z WORK_MINUTES_PER_WORKER) with 420.
  fold A. rewrite E. reflexivity.
Qed.

(** A rational with denominator [D] that is within less than [1/D] of [x]
    has its ceiling at or just below that of [x], and at it unless the
    rational is a whole number. *)
Lemma ceil_near (N D : Z) (x : Q) :
  (0 < D)%Z ->
  Qabs (x - inject_Z N / inject_Z D) < 1 / inject_Z D ->
  (Qceiling (inject_Z N / inject_Z D) <= Qceiling x
   <= Qceiling (inject_Z N / inject_Z D) + 1)%Z /\
  (N mod D <> 0 -> Qceiling x = Qceiling (inject_Z N / inject_Z D))%Z.
Proof.
  intros HD H.
  assert (PD : 1 <= inject_Z D).
  { change 1 with (inject_Z 1). rewrite <- Zle_Qle. lia. }
  set (y := inject_Z N / inject_Z D) in *.
  set (c := Qceiling y).
  apply Qabs_Qlt_condition in H. destruct H as [H1 H2].
  assert (ID : 0 < 1 / inject_Z D <= 1).
  { split.
    - apply Qlt_shift_div_l; lra.
    - apply Qle_shift_div_r; lra. }
  assert (Y : y * inject_Z D == inject_Z N) by (unfold y; field; lra).
  pose proof (Qle_ceiling y) as Cy. fold c in Cy.
  assert (Lower : (c <= Qceiling x)%Z).
  { destruct (Z_lt_le_dec (Qceiling x) c) as [Lt | Ge]; [exfalso | exact Ge].
    pose proof (Qle_ceiling x) as Cx.
    assert (X1 : x <= inject_Z (c - 1)).
    { apply Qle_trans with (inject_Z (Qceiling x)); [exact Cx |].
      rewrite <- Zle_Qle. lia. }
    pose proof (Qceiling_lt y) as Cy'. fold c in Cy'.
    assert (M : inject_Z (c - 1) * inject_Z D < inject_Z N).
    { rewrite <- Y. apply Qmult_lt_compat_r; lra. }
    rewrite <- inject_Z_mult, <- Zlt_Qlt in M.
    assert (M' : inject_Z ((c - 1) * D + 1) <= inject_Z N)
      by (rewrite <- Zle_Qle; lia).
    rewrite inject_Z_plus, inject_Z_mult in M'.
    change (inject_Z 1) with 1 in M'.
    assert (Y' : inject_Z (c - 1) + 1 / inject_Z D <= y).
    { unfold y. apply Qle_shift_div_l; [lra |].
      setoid_replace ((inject_Z (c - 1) + 1 / inject_Z D) * inject_Z D)
        with (inject_Z (c - 1) * inject_Z D + 1) by (field; lra).
      exact M'. }
    lra. }
  split; [split; [exact Lower |] |].
  - assert (X2 : x <= inject_Z (c + 1)).
    { rewrite inject_Z_plus. change (inject_Z 1) with 1. lra. }
    apply Qceiling_resp_le in X2. rewrite Qceiling_Z in X2. exact X2.
  - intros NI. apply Z.le_antisymm; [| exact Lower].
    assert (M : inject_Z N <= inject_Z c * inject_Z D).
    { rewrite <- Y. apply Qmult_le_compat_r; lra. }
    rewrite <- inject_Z_mult, <- Zle_Qle in M.
    assert (M1 : (N <> c * D)%Z).
    { intros E. apply NI. rewrite E. apply Z.mod_mul. lia. }
    assert (M' : inject_Z (N + 1) <= inject_Z (c * D))
      by (rewrite <- Zle_Qle; lia).
    rewrite inject_Z_plus, inject_Z_mult in M'.
    change (inject_Z 1) with 1 in M'.
    assert (Y' : y + 1 / inject_Z D <= inject_Z c).
    { apply Qmult_lt_0_le_reg_r with (inject_Z D); [lra |].
      setoid_replace ((y + 1 / inject_Z D) * inject_Z D)
        with (y * inject_Z D + 1) by (field; lra).
      rewrite Y. exact M'. }
    assert (X2 : x <= inject_Z c) by lra.
    apply Qceiling_resp_le in X2. rewrite Qceiling_Z in X2. exact X2.
Qed.

(** The ceiling of a number next to a whole number. *)
Lemma ceil_whole (k : Z) (x : Q) :
  Qabs (x - inject_Z k) < 1 ->
  (inject_Z k < x -> Qceiling x = (k + 1)%Z) /\
  (x <= inject_Z k -> Qceiling x = k).
Proof.
  intros H. apply Qabs_Qlt_condition in H. destruct H as [H1 H2].
  pose proof (Qle_ceiling x) as C1. pose proof (Qceiling_lt x) as C2.
  split; intros Hx; apply Z.le_antisymm.
  - assert (X : x <= inject_Z (k + 1))
      by (rewrite inject_Z_plus; change (inject_Z 1) with 1; lra).
    apply Qceiling_resp_le in X. rewrite Qceiling_Z in X. exact X.
  - assert (L : inject_Z k < inject_Z (Qceiling x)) by lra.
    rewrite <- Zlt_Qlt in L. lia.
  - apply Qceiling_resp_le in Hx. rewrite Qceiling_Z in Hx. exact Hx.
  - assert (L : inject_Z (k + -1) < inject_Z (Qceiling x))
      by (rewrite inject_Z_plus; change (inject_Z (-1)) with (- (1)); lra).
    rewrite <- Zlt_Qlt in L. lia.
Qed.

(** The priority score returns on magnitudes up to [huge]: only the
    conversions of the ints can raise. *)
Lemma priority_score_total (u i d : Z) :
  (Z.abs u <= huge)%Z -> (Z.abs i <= huge)%Z -> (Z.abs d <= huge)%Z ->
  exists p, priority_score u i d = Ok p.
Proof.
  intros Hu Hi Hd. destruct huge_room as (B0 & B1 & _).
  apply Qabs_inject_le in Hu. apply Qabs_inject_le in Hd.
  assert (Hi2 : Qabs (inject_Z (i * 2)) <= 2 * inject_Z huge).
  { rewrite inject_Z_mult, Qabs_Qmult. apply Qabs_inject_le in Hi.
    change (Qabs (inject_Z 2)) with 2. lra. }
  set (B := inject_Z huge) in *.
  destruct (of_int_le u B Hu) as (fu & E1 & _); [lra |].
  destruct (of_int_le (i * 2) (2 * B) Hi2) as (fi & E2 & _); [lra |].
  destruct (of_int_le d B Hd) as (fd & E3 & _); [lra |].
  unfold priority_score. rewrite E1. cbn [rbind]. rewrite E2. cbn [rbind].
  rewrite E3. cbn [rbind]. eexists. reflexivity.
Qed.

(** On magnitudes up to [huge] the staffing function returns. *)
Lemma calculate_people_needed_total (task : string) (q u i : Z) :
  (0 <= q <= huge)%Z -> (Z.abs u <= huge)%Z -> (Z.abs i <= huge)%Z ->
  exists n, calculate_people_needed task q u i = Ok n.
Proof.
  intros Hq Hu Hi. unfold calculate_people_needed.
  destruct (dict_get task TASK_TIME) as [t |] eqn:Hd; [| eexists; reflexivity].
  pose proof (TASK_TIME_values _ _ Hd) as Ht.
  destruct (priority_factor_total u i Hu Hi) as (p & Ep & Vp).
  destruct (shifts_total q t Hq Ht) as (w & Ew & Vw).
  rewrite Ep. cbn [rbind]. rewrite Ew. cbn [rbind Float.mul].
  destruct huge_room as (B0 & _ & B2).
  destruct (round_ne_le (w * p) (2 * inject_Z huge * (4 * inject_Z huge)))
    as (x & Ex & _); [| exact B2 |].
  { rewrite Qabs_Qmult.
    pose proof (Qabs_nonneg w). pose proof (Qabs_nonneg p).
    apply Qmult_le_compat_nonneg; split; assumption. }
  rewrite Ex. cbn [ceil rbind]. eexists. reflexivity.
Qed.

End StaffingFacts.

Section StaffingClaims.

Import FloatFacts StaffingFacts.
Local Open Scope Q_scope.

(** X20: How far the code is from the formula: for a catalogue task,
    urgency and importance in 1..10 and a quantity from 0 to 10^9,
    [calculate_people_needed] returns
    max(1, ceil((quantity * minutesPerUnit / 420)
                * (urgency * 1.5 + importance * 2) / 10)),
    except that it returns one more exactly when the exact product, which
    is quantity * minutesPerUnit * (3 * urgency + 4 * importance) / 8400,
    is a whole number and the product the code computes in double
    precision exceeds it. *)
Theorem people_needed_near_formula
    (task : string) (minutes quantity urgency importance : Z) :
  dict_get task TASK_TIME = Some minutes ->
  (0 <= quantity <= 10 ^ 9)%Z ->
  (1 <= urgency <= 10)%Z -> (1 <= importance <= 10)%Z ->
  exists p w x n,
    priority_factor urgency importance = Ok (Fin p) /\
    int_truediv (quantity * minutes) WORK_MINUTES_PER_WORKER = Ok (Fin w) /\
    Float.mul (Fin w) (Fin p) = Fin x /\
    calculate_people_needed task quantity urgency importance = Ok n /\
    ((quantity * minutes * (3 * urgency + 4 * importance)) mod 8400 = 0%Z /\
     inject_Z (quantity * minutes) / 420
     * Spec.priority_factor urgency importance < x ->
     n = (Spec.people_needed minutes quantity urgency importance + 1)%Z) /\
    (~ ((quantity * minutes * (3 * urgency + 4 * importance)) mod 8400 = 0%Z /\
        inject_Z (quantity * minutes) / 420
        * Spec.priority_factor urgency importance < x) ->
     n = Spec.people_needed minutes quantity urgency importance).
Proof.
  intros Hd Hq Hu Hi.
  pose proof (TASK_TIME_values _ _ Hd) as Ht.
  destruct (priority_factor_rel urgency importance Hu Hi)
    as (p & Ep & Vp & Rp).
  destruct (shifts_rel quantity minutes Hq Ht) as (w & Ew & Vw & A0 & A1 & A2).
  assert (CPN : forall x, round_ne (w * p) = Fin x ->
                  calculate_people_needed task quantity urgency importance
                  = Ok (Z.max 1 (Qceiling x))).
  { intros x Ex. unfold calculate_people_needed. rewrite Hd, Ep.
    cbn [rbind]. rewrite Ew. cbn [rbind Float.mul]. rewrite Ex.
    reflexivity. }
  unfold Spec.people_needed.
  set (A := inject_Z (quantity * minutes) / 420) in *.
  set (P := Spec.priority_factor urgency importance) in *.
  change u53 with (1 # 9007199254740992) in Vw, Vp.
  apply Qabs_Qle_condition in Vw. apply Qabs_Qle_condition in Vp.
  destruct (Z.eq_dec quantity 0) as [Z0 | NZ].
  - specialize (A0 Z0).
    assert (W0 : w == 0) by lra.
    assert (X0 : w * p == 0) by (rewrite W0; ring).
    exists p, w, 0, (Z.max 1 (Qceiling 0)).
    split; [exact Ep |]. split; [exact Ew |].
    split; [exact (round_ne_zero _ X0) |].
    split; [exact (CPN _ (round_ne_zero _ X0)) |].
    split.
    + intros [_ L]. exfalso. rewrite A0, Qmult_0_l in L. lra.
    + intros _. rewrite A0, Qmult_0_l. reflexivity.
  - specialize (A1 NZ). clear A0.
    assert (Lo : A * (9007199254740991 # 9007199254740992)
                 * (P * (9007199254740991 # 9007199254740992)) <= w * p).
    { apply Qmult_le_compat_nonneg; split; lra. }
    assert (Hi' : w * p <= A * (9007199254740993 # 9007199254740992)
                          * (P * (9007199254740993 # 9007199254740992))).
    { apply Qmult_le_compat_nonneg; split; lra. }
    assert (AP0 : (1 # 28) * (7 # 20) <= A * P).
    { apply Qmult_le_compat_nonneg; split; lra. }
    assert (AP1 : A * P <= 60000000 * (7 # 2)).
    { apply Qmult_le_compat_nonneg; split; lra. }
    destruct (round_ne_rel (w * p)) as (x & Ex & Vx).
    { right. rewrite Qabs_pos by lra. apply tiny_le. lra. }
    { rewrite Qabs_pos by lra.
      apply Qle_lt_trans with 1000000000; [lra | vm_compute; reflexivity]. }
    exists p, w, x, (Z.max 1 (Qceiling x)).
    split; [exact Ep |]. split; [exact Ew |]. split; [exact Ex |].
    split; [exact (CPN _ Ex) |].
    rewrite (Qabs_pos (w * p)) in Vx by lra.
    change u53 with (1 # 9007199254740992) in Vx.
    apply Qabs_Qle_condition in Vx.
    assert (Near : Qabs (x - A * P) < 1 # 8400).
    { apply Qabs_Qlt_condition. split; lra. }
    assert (Frac : A * P
                   == inject_Z (quantity * minutes
                                * (3 * urgency + 4 * importance))
                      / inject_Z 8400).
    { unfold A, P, Spec.priority_factor.
      rewrite !inject_Z_mult, inject_Z_plus, !inject_Z_mult.
      change (inject_Z 3) with 3. change (inject_Z 4) with 4.
      change (inject_Z 8400) with 8400. field. }
    destruct (Z.eq_dec
                ((quantity * minutes * (3 * urgency + 4 * importance))
                 mod 8400) 0) as [M | M].
    + set (N := (quantity * minutes * (3 * urgency + 4 * importance))%Z)
        in *.
      assert (K : A * P == inject_Z (N / 8400)).
      { rewrite Frac.
        rewrite (Z_div_exact_full_2 N 8400 ltac:(lia) M) at 1.
        rewrite inject_Z_mult. change (inject_Z 8400) with 8400. field. }
      assert (K1 : (1 <= N / 8400)%Z).
      { assert (L : inject_Z 0 < inject_Z (N / 8400))
          by (rewrite <- K; change (inject_Z 0) with 0; lra).
        rewrite <- Zlt_Qlt in L. lia. }
      destruct (ceil_whole (N / 8400) x) as [C1 C2].
      { rewrite <- K. apply Qlt_trans with (1 # 8400); [exact Near |].
        reflexivity. }
      split.
      * intros [_ L]. rewrite K in L. rewrite (C1 L), K, Qceiling_Z. lia.
      * intros NL.
        destruct (Qlt_le_dec (inject_Z (N / 8400)) x) as [L | L].
        -- exfalso. apply NL. split; [exact M | rewrite K; exact L].
        -- rewrite (C2 L), K, Qceiling_Z. reflexivity.
    + split; [intros [M' _]; contradiction |].
      intros _. rewrite Frac in Near |- *.
      destruct (ceil_near _ 8400 x ltac:(lia) Near) as [_ C'].
      rewrite (C' M). reflexivity.
Qed.

Lemma people_needed_near_formula_witness :
  dict_get "Putaway 3043" TASK_TIME = Some 15%Z /\
  (0 <= 200 <= 10 ^ 9)%Z /\ (1 <= 2 <= 10)%Z /\ (1 <= 9 <= 10)%Z /\
  exists p w x n,
    priority_factor 2 9 = Ok (Fin p) /\
    int_truediv (200 * 15) WORK_MINUTES_PER_WORKER = Ok (Fin w) /\
    Float.mul (Fin w) (Fin p) = Fin x /\
    calculate_people_needed "Putaway 3043" 200 2 9 = Ok n /\
    ((200 * 15 * (3 * 2 + 4 * 9)) mod 8400 = 0%Z /\
     inject_Z (200 * 15) / 420 * Spec.priority_factor 2 9 < x ->
     n = (Spec.people_needed 15 200 2 9 + 1)%Z) /\
    (~ ((200 * 15 * (3 * 2 + 4 * 9)) mod 8400 = 0%Z /\
        inject_Z (200 * 15) / 420 * Spec.priority_factor 2 9 < x) ->
     n = Spec.people_needed 15 200 2 9).
Proof.
  split; [reflexivity |]. split; [lia |]. split; [lia |]. split; [lia |].
  apply (people_needed_near_formula "Putaway 3043" 15 200 2 9);
    [reflexivity | lia | lia | lia].
Defined.

(** C1 fails in the code: for "Putaway 3043" (15 min/unit) with quantity
    200, urgency 2 and importance 9 the formula
    max(1, ceil((quantity * minutesPerUnit / 420)
                * (urgency * 1.5 + importance * 2) / 10))
    gives 15, the exact product being (3000/420) * 2.1 = 15, but in double
    precision the product is 15.000000000000002 and
    [calculate_people_needed] returns 16.  On the example of the claim,
    "Putaway 3002" with quantity 10, urgency 8 and importance 9, the code
    and the formula both give 2. *)
Lemma people_needed_differs_from_formula :
  dict_get "Putaway 3043" TASK_TIME = Some 15%Z /\
  calculate_people_needed "Putaway 3043" 200 2 9 = Ok 16%Z /\
  Spec.people_needed 15 200 2 9 = 15%Z /\
  dict_get "Putaway 3002" TASK_TIME = Some 20%Z /\
  calculate_people_needed "Putaway 3002" 10 8 9 = Ok 2%Z /\
  Spec.people_needed 20 10 8 9 = 2%Z.
Proof. repeat split; vm_compute; reflexivity. Qed.

(** C3, as the code has it: for every task name, every quantity from 0 to
    10^100 and urgency and importance of magnitude at most 10^100,
    [calculate_people_needed] returns an int that is at least 1. *)
Theorem people_needed_at_least_1
    (task : string) (quantity urgency importance : Z) :
  (0 <= quantity <= huge)%Z ->
  (Z.abs urgency <= huge)%Z -> (Z.abs importance <= huge)%Z ->
  exists n,
    calculate_people_needed task quantity urgency importance = Ok n /\
    (1 <= n)%Z.
Proof.
  intros Hq Hu Hi. unfold calculate_people_needed.
  destruct (dict_get task TASK_TIME) as [t |] eqn:Hd.
  - pose proof (TASK_TIME_values _ _ Hd) as Ht.
    destruct (priority_factor_total urgency importance Hu Hi) as (p & Ep & Vp).
    destruct (shifts_total quantity t Hq Ht) as (w & Ew & Vw).
    rewrite Ep. cbn [rbind]. rewrite Ew. cbn [rbind Float.mul].
    destruct huge_room as (B0 & _ & B2).
    destruct (round_ne_le (w * p) (2 * inject_Z huge * (4 * inject_Z huge)))
      as (x & Ex & _); [| exact B2 |].
    { rewrite Qabs_Qmult.
      pose proof (Qabs_nonneg w). pose proof (Qabs_nonneg p).
      apply Qmult_le_compat_nonneg; split; assumption. }
    rewrite Ex. cbn [ceil rbind]. eexists. split; [reflexivity | lia].
  - exists 1%Z. split; [reflexivity | lia].
Qed.

Lemma people_needed_at_least_1_witness :
  (0 <= 0 <= huge)%Z /\ (Z.abs (-7) <= huge)%Z /\ (Z.abs 3 <= huge)%Z /\
  exists n,
    calculate_people_needed "Unload Shuttles" 0 (-7) 3 = Ok n /\ (1 <= n)%Z.
Proof.
  split; [vm_compute; split; discriminate |].
  split; [vm_compute; discriminate |].
  split; [vm_compute; discriminate |].
  apply (people_needed_at_least_1 "Unload Shuttles" 0 (-7) 3);
    vm_compute; try split; discriminate.
Defined.

(** C3 fails as stated for every quantity: a quantity of 10^400 is too
    large for the float division, and the call raises [OverflowError]
    instead of returning. *)
Lemma people_needed_overflows :
  (0 <= 10 ^ 400)%Z /\
  calculate_people_needed "Putaway 3002" (10 ^ 400) 5 5 = Raise OverflowError.
Proof. split; [lia | vm_compute; reflexivity]. Qed.

(** C4: for a task name that is not in [TASK_TIME],
    [calculate_people_needed] returns 1 whatever the quantity, urgency and
    importance are; nothing is computed, so nothing can raise. *)
Theorem unknown_task_returns_1
    (task : string) (quantity urgency importance : Z) :
  dict_get task TASK_TIME = None ->
  calculate_people_needed task quantity urgency importance = Ok 1%Z.
Proof.
  intros H. unfold calculate_people_needed. rewrite H. reflexivity.
Qed.

Lemma unknown_task_returns_1_witness :
  dict_get "Sweep Floor" TASK_TIME = None /\
  calculate_people_needed "Sweep Floor" (10 ^ 400) 5 5 = Ok 1%Z.
Proof.
  split; [reflexivity |].
  apply (unknown_task_returns_1 "Sweep Floor" (10 ^ 400) 5 5). reflexivity.
Defined.

End StaffingClaims.

(** * Sheet operations *)

Module SheetFacts.

Lemma update_nth_compose {A : Type} (n : nat) (f g : A -> A) (l : list A) :
  update_nth n f (update_nth n g l) = update_nth n (fun x => f (g x)) l.
Proof.
  revert n. induction l as [| x l IH]; intros [| n]; cbn; try reflexivity.
  rewrite IH. reflexivity.
Qed.


Lemma update_nth_app {A : Type} (f : A -> A) (done : list A) (x : A)
    (rest : list A) :
  update_nth (List.length done) f (done ++ x :: rest) = done ++ f x :: rest.
Proof.
  induction done as [| y done IH]; cbn; [reflexivity |].
  rewrite IH. reflexivity.
Qed.

Lemma map_update_nth {A B : Type} (h : A -> B) (n : nat) (f : A -> A)
    (l : list A) :
  (forall x, h (f x) = h x) -> map h (update_nth n f l) = map h l.
Proof.
  intros H. revert n. induction l as [| x l IH]; intros [| n]; cbn;
    try reflexivity.
  - rewrite H. reflexivity.
  - rewrite IH. reflexivity.
Qed.

(** The six cell writes of one record, as [update_task] and [reset_tasks]
    issue them. *)
Lemma six_writes (k : Z) (v2 v3 v4 v5 v6 v7 : value) (s : sheet) :
  0 <= k ->
  update_cell (k + 2) 7 v7
    (update_cell (k + 2) 6 v6
       (update_cell (k + 2) 5 v5
          (update_cell (k + 2) 4 v4
             (update_cell (k + 2) 3 v3
                (update_cell (k + 2) 2 v2 s)))))
  = mkSheet
      (update_nth (Z.to_nat k) (with_fields v2 v3 v4 v5 v6 v7) (records s))
      (writes s ++ [(k + 2, 2, v2); (k + 2, 3, v3); (k + 2, 4, v4);
                    (k + 2, 5, v5); (k + 2, 6, v6); (k + 2, 7, v7)]).
Proof.
  intros Hk. unfold update_cell. cbn [records writes].
  assert (L : (k + 2 <? 2) = false) by (apply Z.ltb_ge; lia).
  rewrite L. replace (k + 2 - 2) with k by lia.
  rewrite !update_nth_compose, <- !app_assoc. cbn [app].
  reflexivity.
Qed.

(** The loop of [update_task], case by case: no match, a match whose
    recomputation raises, and a match that is written. *)
Lemma update_task_from_cases (task : string) (u i d q : Z) (rows : list row)
    (k : Z) (s : sheet) :
  0 <= k ->
  update_task_from k rows task u i d q s =
  match first_match task rows with
  | None => (Ok false, s)
  | Some idx =>
      match priority_score u i d with
      | Raise e => (Raise e, s)
      | Ok p =>
          match calculate_people_needed task q u i with
          | Raise e => (Raise e, s)
          | Ok n => (Ok true, updated_sheet (k + Z.of_nat idx) u i d q p n s)
          end
      end
  end.
Proof.
  revert k. induction rows as [| r rows IH]; intros k Hk; cbn.
  - reflexivity.
  - destruct (task_is task r).
    + destruct (priority_score u i d) as [p | e]; [| reflexivity].
      destruct (calculate_people_needed task q u i) as [n | e];
        [| reflexivity].
      rewrite six_writes by lia. unfold updated_sheet.
      replace (k + Z.of_nat 0) with k by lia. reflexivity.
    + rewrite IH by lia.
      destruct (first_match task rows) as [idx |]; cbn; [| reflexivity].
      destruct (priority_score u i d) as [p | e]; [| reflexivity].
      destruct (calculate_people_needed task q u i) as [n | e];
        [| reflexivity].
      replace (k + 1 + Z.of_nat idx) with (k + Z.of_nat (S idx)) by lia.
      reflexivity.
Qed.

Lemma first_match_none (task : string) (rows : list row) :
  (forall r, In r rows -> task_is task r = false) ->
  first_match task rows = None.
Proof.
  induction rows as [| r rows IH]; intros H; cbn; [reflexivity |].
  rewrite (H r) by (left; reflexivity).
  rewrite IH; [reflexivity |]. intros r' Hr. apply H. right. exact Hr.
Qed.

(** The loop of [reset_tasks], with [done] the records already visited. *)
Lemma reset_tasks_from_records (rest cur done : list row) (s : sheet) :
  records s = (done ++ cur)%list ->
  List.length rest = List.length cur ->
  records (reset_tasks_from (Z.of_nat (List.length done)) rest s)
  = (done ++ map baseline cur)%list.
Proof.
  revert cur done s.
  induction rest as [| r rest IH]; intros cur done s Hs Hl.
  - destruct cur; [| discriminate Hl]. cbn. rewrite Hs. reflexivity.
  - destruct cur as [| c cur]; [discriminate Hl |].
    cbn [reset_tasks_from]. rewrite six_writes by lia.
    replace (Z.of_nat (List.length done) + 1)
      with (Z.of_nat (List.length (done ++ [baseline c])))
      by (rewrite length_app; cbn; lia).
    rewrite (IH cur (done ++ [baseline c])%list).
    + rewrite <- app_assoc. reflexivity.
    + cbn [records]. rewrite Nat2Z.id, Hs, update_nth_app, <- app_assoc.
      reflexivity.
    + cbn in Hl. lia.
Qed.

Lemma reset_tasks_records (s : sheet) :
  records (reset_tasks s) = map baseline (records s).
Proof.
  unfold reset_tasks, get_all_records.
  apply (reset_tasks_from_records (records s) (records s) [] s); reflexivity.
Qed.

Lemma reset_tasks_from_writes (rest : list row) (k : Z) (s : sheet) :
  exists ws, writes (reset_tasks_from k rest s) = (writes s ++ ws)%list /\
    Forall (fun w => column_of w <> 1) ws.
Proof.
  revert k s. induction rest as [| r rest IH]; intros k s.
  - exists []. cbn. rewrite app_nil_r. split; [reflexivity | constructor].
  - cbn [reset_tasks_from].
    destruct (IH (k + 1)
                (update_cell (k + 2) 7 (vint 1)
                   (update_cell (k + 2) 6 (vint 0)
                      (update_cell (k + 2) 5 (vint 0)
                         (update_cell (k + 2) 4 (vint 0)
                            (update_cell (k + 2) 3 (vint 5)
                               (update_cell (k + 2) 2 (vint 5) s)))))))
      as (ws & E & F).
    rewrite E. cbn [update_cell writes]. rewrite <- !app_assoc. cbn [app].
    eexists. split; [reflexivity |].
    repeat (constructor; [cbn; lia |]). exact F.
Qed.

End SheetFacts.

Section SheetClaims.

Import SheetFacts.

(** C5, as the code has it: when [update_task] finds a record named
    [task], the first one at logical index [idx], and it is called with
    urgency, importance and daysUntilDue of magnitude at most 10^100 and a
    quantity from 0 to 10^100, it computes the priority and the head
    count and makes exactly six cell writes, all to sheet row [idx + 2]
    and in this order: urgency to column 2, importance to column 3,
    daysUntilDue to column 4, the recomputed priority to column 5,
    quantity to column 6 and the recomputed peopleNeeded to column 7; then
    it returns true.  The record ends with these six fields. *)
Theorem update_task_writes_six_fields
    (task : string) (urgency importance days_until_due quantity : Z)
    (s : sheet) (idx : nat) :
  first_match task (records s) = Some idx ->
  Z.abs urgency <= huge -> Z.abs importance <= huge ->
  Z.abs days_until_due <= huge -> 0 <= quantity <= huge ->
  exists priority people_needed s',
    priority_score urgency importance days_until_due = Ok priority /\
    calculate_people_needed task quantity urgency importance
    = Ok people_needed /\
    update_task task urgency importance days_until_due quantity s
    = (Ok true, s') /\
    writes s' =
      (writes s ++
       [ (Z.of_nat idx + 2, 2, vint urgency);
         (Z.of_nat idx + 2, 3, vint importance);
         (Z.of_nat idx + 2, 4, vint days_until_due);
         (Z.of_nat idx + 2, 5, vfloat priority);
         (Z.of_nat idx + 2, 6, vint quantity);
         (Z.of_nat idx + 2, 7, vint people_needed) ])%list /\
    records s' =
      update_nth idx
        (with_fields (vint urgency) (vint importance) (vint days_until_due)
           (vfloat priority) (vint quantity) (vint people_needed))
        (records s).
Proof.
  intros Hm Hu Hi Hd Hq.
  destruct (StaffingFacts.priority_score_total urgency importance
              days_until_due Hu Hi Hd) as (priority & Hp).
  destruct (StaffingFacts.calculate_people_needed_total task quantity urgency
              importance Hq Hu Hi) as (people_needed & Hn).
  exists priority, people_needed.
  unfold update_task, get_all_records.
  rewrite update_task_from_cases by lia. rewrite Hm, Hp, Hn.
  eexists. split; [reflexivity |]. split; [reflexivity |].
  split; [reflexivity |].
  unfold updated_sheet. cbn [writes records].
  replace (0 + Z.of_nat idx) with (Z.of_nat idx) by lia. rewrite Nat2Z.id.
  split; reflexivity.
Qed.

(** C5 fails as stated for every call that finds a row: with a quantity of
    10^400 for "Putaway 3002", which is the first record of the sheet, the
    head count cannot be computed; [update_task] raises [OverflowError],
    writes no cell and does not return true. *)
Lemma update_task_raises_before_writing :
  first_match "Putaway 3002" (records three_rows) = Some 0%nat /\
  update_task "Putaway 3002" 5 5 0 (10 ^ 400) three_rows
  = (Raise OverflowError, three_rows).
Proof. split; vm_compute; reflexivity. Qed.

(** C6: when no record is named [task], [update_task] returns false and
    leaves the sheet as it was: no cell write, every record unchanged. *)
Theorem update_task_absent
    (task : string) (urgency importance days_until_due quantity : Z)
    (s : sheet) :
  (forall r, In r (records s) -> task_is task r = false) ->
  update_task task urgency importance days_until_due quantity s
  = (Ok false, s).
Proof.
  intros H. unfold update_task, get_all_records.
  rewrite update_task_from_cases by lia.
  rewrite (first_match_none _ _ H). reflexivity.
Qed.

(** C7: [reset_tasks] gives every record, whatever it held and whatever
    its task, urgency 5, importance 5, daysUntilDue 0, priority 0,
    quantity 0 and peopleNeeded 1. *)
Theorem reset_tasks_baseline (s : sheet) :
  records (reset_tasks s) = map baseline (records s) /\
  forall r, In r (records (reset_tasks s)) ->
    Urgency r = vint 5 /\ Importance r = vint 5 /\ DaysUntilDue r = vint 0 /\
    Priority r = vint 0 /\ Quantity r = vint 0 /\ PeopleNeeded r = vint 1.
Proof.
  pose proof (reset_tasks_records s) as E.
  split; [exact E |].
  intros r Hr. rewrite E in Hr. apply in_map_iff in Hr.
  destruct Hr as (r0 & <- & _). cbn. repeat split; reflexivity.
Qed.

Lemma reset_tasks_baseline_witness :
  records (reset_tasks three_rows) = map baseline (records three_rows) /\
  forall r, In r (records (reset_tasks three_rows)) ->
    Urgency r = vint 5 /\ Importance r = vint 5 /\ DaysUntilDue r = vint 0 /\
    Priority r = vint 0 /\ Quantity r = vint 0 /\ PeopleNeeded r = vint 1.
Proof. exact (reset_tasks_baseline three_rows). Defined.

(** C10: neither [update_task] nor [reset_tasks] writes to column 1: every
    cell write they add is to another column, and the Task cell of every
    record is the same after the call as before, also when [update_task]
    raises. *)
Theorem task_names_preserved
    (task : string) (urgency importance days_until_due quantity : Z)
    (s : sheet) :
  let after_update :=
    snd (update_task task urgency importance days_until_due quantity s) in
  (exists ws, writes after_update = (writes s ++ ws)%list /\
              Forall (fun w => column_of w <> 1) ws) /\
  map Task (records after_update) = map Task (records s) /\
  (exists ws, writes (reset_tasks s) = (writes s ++ ws)%list /\
              Forall (fun w => column_of w <> 1) ws) /\
  map Task (records (reset_tasks s)) = map Task (records s).
Proof.
  cbv zeta. unfold update_task, get_all_records.
  rewrite update_task_from_cases by lia.
  assert (Same : (exists ws, writes s = (writes s ++ ws)%list /\
                   Forall (fun w => column_of w <> 1) ws) /\
                 map Task (records s) = map Task (records s)).
  { split; [| reflexivity]. exists []. rewrite app_nil_r.
    split; [reflexivity | constructor]. }
  destruct Same as [SameW SameR].
  split; [| split; [| split]].
  - destruct (first_match task (records s)) as [idx |]; [| exact SameW].
    destruct (priority_score urgency importance days_until_due)
      as [p | e]; [| exact SameW].
    destruct (calculate_people_needed task quantity urgency importance)
      as [n | e]; [| exact SameW].
    cbn [snd updated_sheet writes]. eexists. split; [reflexivity |].
    repeat (constructor; [cbn; lia |]). constructor.
  - destruct (first_match task (records s)) as [idx |]; [| exact SameR].
    destruct (priority_score urgency importance days_until_due)
      as [p | e]; [| exact SameR].
    destruct (calculate_people_needed task quantity urgency importance)
      as [n | e]; [| exact SameR].
    cbn [snd updated_sheet records]. apply map_update_nth.
    intros r. reflexivity.
  - apply reset_tasks_from_writes.
  - rewrite reset_tasks_records, map_map. reflexivity.
Qed.

Lemma update_task_writes_six_fields_witness :
  first_match "Unload Shuttles" (records three_rows) = Some 1%nat /\
  Z.abs 8 <= huge /\ Z.abs 9 <= huge /\ Z.abs 1 <= huge /\
  0 <= 10 <= huge /\
  exists priority people_needed s',
    priority_score 8 9 1 = Ok priority /\
    calculate_people_needed "Unload Shuttles" 10 8 9 = Ok people_needed /\
    update_task "Unload Shuttles" 8 9 1 10 three_rows = (Ok true, s') /\
    writes s' =
      (writes three_rows ++
       [ (Z.of_nat 1 + 2, 2, vint 8); (Z.of_nat 1 + 2, 3, vint 9);
         (Z.of_nat 1 + 2, 4, vint 1);
         (Z.of_nat 1 + 2, 5, vfloat priority);
         (Z.of_nat 1 + 2, 6, vint 10);
         (Z.of_nat 1 + 2, 7, vint people_needed) ])%list /\
    records s' =
      update_nth 1
        (with_fields (vint 8) (vint 9) (vint 1) (vfloat priority)
           (vint 10) (vint people_needed))
        (records three_rows).
Proof.
  split; [reflexivity |].
  split; [vm_compute; discriminate |].
  split; [vm_compute; discriminate |].
  split; [vm_compute; discriminate |].
  split; [split; vm_compute; discriminate |].
  apply (update_task_writes_six_fields "Unload Shuttles" 8 9 1 10
           three_rows 1);
    [reflexivity | vm_compute; discriminate | vm_compute; discriminate
    | vm_compute; discriminate | split; vm_compute; discriminate].
Defined.

Lemma update_task_absent_witness :
  (forall r, In r (records three_rows) -> task_is "Sweep Floor" r = false) /\
  update_task "Sweep Floor" 8 9 1 10 three_rows = (Ok false, three_rows).
Proof.
  assert (H : forall r, In r (records three_rows) ->
                        task_is "Sweep Floor" r = false).
  { intros r [<- | [<- | [<- | []]]]; reflexivity. }
  split; [exact H |].
  apply (update_task_absent "Sweep Floor" 8 9 1 10 three_rows H).
Defined.

End SheetClaims.

(** * Loading *)

Module LoadFacts.

Import FloatFacts StaffingFacts.

Lemma of_int_round (z : Z) (f : float) :
  of_int z = Ok f -> round_ne (inject_Z z) = f /\ exists x, f = Fin x.
Proof.
  unfold of_int. destruct (round_ne (inject_Z z)) as [x | b |]; intros H;
    inversion H. split; [reflexivity | exists x; reflexivity].
Qed.

(** An int of 64 bits, signed or not, converts to a float. *)
Lemma of_int_64 (z : Z) :
  - 2 ^ 63 <= z < 2 ^ 64 -> exists f, of_int z = Ok f.
Proof.
  intros H.
  destruct (of_int_le z (inject_Z (2 ^ 64))) as (y & E & _).
  - apply Qabs_inject_le. lia.
  - vm_compute. reflexivity.
  - exists (Fin y). exact E.
Qed.

Lemma of_int_raise_range (z : Z) (e : exn) :
  of_int z = Raise e -> z < - 2 ^ 63 \/ 2 ^ 64 <= z.
Proof.
  intros H.
  destruct (Z_lt_dec z (- 2 ^ 63)) as [L | L]; [left; exact L |].
  destruct (Z_le_dec (2 ^ 64) z) as [U | U]; [right; exact U |].
  destruct (of_int_64 z) as [f E]; [lia | congruence].
Qed.

Lemma in_int64_range (z : Z) :
  in_int64 z = true -> - 2 ^ 63 <= z < 2 ^ 63.
Proof.
  unfold in_int64. intros H. apply andb_true_iff in H. destruct H as [A B].
  apply Z.leb_le in A. apply Z.ltb_lt in B. lia.
Qed.

Lemma in_int64_small (z : Z) : Z.abs z < 2 ^ 53 -> in_int64 z = true.
Proof.
  intros H. unfold in_int64. apply andb_true_iff.
  split; [apply Z.leb_le | apply Z.ltb_lt]; lia.
Qed.

Lemma map_result_Forall2 {A B : Type} (f : A -> result B) (l : list A)
    (l' : list B) :
  map_result f l = Ok l' -> Forall2 (fun a b => f a = Ok b) l l'.
Proof.
  revert l'. induction l as [| a l IH]; intros l' H; cbn in H.
  - injection H as <-. constructor.
  - destruct (f a) as [b | e] eqn:E; cbn [rbind] in H; [| discriminate].
    destruct (map_result f l) as [bs | e]; cbn [rbind] in H; [| discriminate].
    injection H as <-. constructor; [exact E | apply IH; reflexivity].
Qed.

Lemma map_result_total {A B : Type} (f : A -> result B) (l : list A) :
  Forall (fun a => exists b, f a = Ok b) l -> exists l', map_result f l = Ok l'.
Proof.
  induction 1 as [| a l [b E] _ [bs IH]]; cbn.
  - eexists. reflexivity.
  - rewrite E. cbn [rbind]. rewrite IH. cbn [rbind]. eexists. reflexivity.
Qed.

Lemma map_result_raise {A B : Type} (f : A -> result B) (l : list A) (a : A)
    (e : exn) :
  In a l -> f a = Raise e -> exists e', map_result f l = Raise e'.
Proof.
  intros I E. induction l as [| x l IH]; [destruct I |].
  cbn. destruct (f x) as [b | e1] eqn:Ex; cbn [rbind];
    [| eexists; reflexivity].
  destruct I as [-> | I]; [congruence |].
  destruct (IH I) as [e' ->]. cbn [rbind]. eexists. reflexivity.
Qed.

Lemma forallb_false_In {A : Type} (p : A -> bool) (l : list A) (a : A) :
  In a l -> p a = false -> forallb p l = false.
Proof.
  intros I E. destruct (forallb p l) eqn:F; [| reflexivity].
  rewrite forallb_forall in F. rewrite (F a I) in E. discriminate.
Qed.

Lemma integer_column_false (ns : list number) (n : number) :
  In n ns -> number_in in_int64 n = false -> number_in in_uint64 n = false ->
  integer_column ns = false.
Proof.
  intros I A B. unfold integer_column.
  rewrite (forallb_false_In _ _ _ I A), (forallb_false_In _ _ _ I B).
  reflexivity.
Qed.

Lemma integer_column_ints (ns : list number) :
  integer_column ns = true -> Forall (fun n => exists z, n = NInt z) ns.
Proof.
  unfold integer_column. intros H. apply orb_true_iff in H.
  apply Forall_forall. intros [z | f] I; [exists z; reflexivity |].
  destruct H as [H | H]; rewrite forallb_forall in H;
    specialize (H _ I); discriminate.
Qed.

Lemma Forall2_map_left {A B C : Type} (f : A -> B) (P : B -> C -> Prop)
    (l : list A) (l' : list C) :
  Forall2 P (map f l) l' -> Forall2 (fun a c => P (f a) c) l l'.
Proof.
  revert l'. induction l as [| a l IH]; intros l' H; inversion H; subst;
    constructor; [assumption | apply IH; assumption].
Qed.

Lemma Forall2_nth_error {A B : Type} (P : A -> B -> Prop) (l : list A)
    (l' : list B) (n : nat) (a : A) :
  Forall2 P l l' -> nth_error l n = Some a ->
  exists b, nth_error l' n = Some b /\ P a b.
Proof.
  intros H. revert n. induction H as [| x y l l' Pxy _ IH]; intros [| n] N;
    cbn in N; try discriminate.
  - injection N as <-. exists y. split; [reflexivity | exact Pxy].
  - apply IH. exact N.
Qed.

(** *** Typing a column *)

Lemma infer_column_float (col : list value) (f s u : bool) :
  infer_column col f s u = Ok FloatColumn ->
  Forall (fun v => match v with
                   | VStr _ => False
                   | VNum (NInt z) => exists x, of_int z = Ok x
                   | VNum (NFloat _) => True
                   end) col /\
  (f = true \/ exists x, In (VNum (NFloat x)) col).
Proof.
  revert f s u. induction col as [| v col IH]; intros f s u H;
    cbn [infer_column] in H.
  - destruct f; [| discriminate]. split; [constructor | left; reflexivity].
  - destruct v as [[z | x] | t]; [| | discriminate].
    + destruct (of_int z) as [y | e] eqn:E; cbn [rbind] in H; [| discriminate].
      match type of H with
      | (if ?c then _ else _) = _ => destruct c; [discriminate |]
      end.
      apply IH in H. destruct H as [F D]. split.
      * constructor; [exists y; exact E | exact F].
      * destruct D as [D | [x I]]; [left; exact D |].
        right. exists x. right. exact I.
    + apply IH in H. destruct H as [F _]. split.
      * constructor; [exact I | exact F].
      * right. exists x. left. reflexivity.
Qed.

Lemma infer_column_raise (col : list value) (f s u : bool) (e : exn) :
  infer_column col f s u = Raise e ->
  exists z e', In (vint z) col /\ of_int z = Raise e'.
Proof.
  revert f s u. induction col as [| v col IH]; intros f s u H;
    cbn [infer_column] in H; [discriminate |].
  destruct v as [[z | x] | t]; [| | discriminate].
  - destruct (of_int z) as [y | e'] eqn:E; cbn [rbind] in H.
    + match type of H with
      | (if ?c then _ else _) = _ => destruct c; [discriminate |]
      end.
      destruct (IH _ _ _ H) as (z' & e' & I & R).
      exists z', e'. split; [right; exact I | exact R].
    + exists z, e'. split; [left; reflexivity | exact E].
  - destruct (IH _ _ _ H) as (z' & e' & I & R).
    exists z', e'. split; [right; exact I | exact R].
Qed.

Lemma infer_column_plain (col : list value) (f s u : bool) :
  Forall plain_value col -> exists k, infer_column col f s u = Ok k.
Proof.
  intros H. revert f s u.
  induction H as [| v col P _ IH]; intros f s u; cbn [infer_column].
  - eexists. reflexivity.
  - destruct v as [[z | x] | t]; [| apply IH | eexists; reflexivity].
    cbn in P. apply in_int64_range in P.
    destruct (of_int_64 z) as [y ->]; [lia |]. cbn [rbind].
    match goal with
    | |- exists k, (if ?c then _ else _) = _ => destruct c
    end; [eexists; reflexivity | apply IH].
Qed.

(** A column of small ints that are not negative is typed as one of
    ints. *)
Lemma infer_column_ints (col : list value) :
  Forall (fun v => exists z, v = vint z /\ 0 <= z < 2 ^ 53) col ->
  infer_column col false false false = Ok IntColumn.
Proof.
  induction 1 as [| v col (z & -> & R) _ IH]; cbn [infer_column vint];
    [reflexivity |].
  destruct (of_int_64 z) as [y ->]; [lia |]. cbn [rbind].
  assert (A : (z <? 0) = false) by (apply Z.ltb_ge; lia).
  assert (B : (2 ^ 63 <=? z) = false) by (apply Z.leb_gt; lia).
  assert (C : (2 ^ 64 <=? z) = false) by (apply Z.leb_gt; lia).
  assert (D : (z <? - 2 ^ 63) = false) by (apply Z.ltb_ge; lia).
  rewrite A, B, C, D. cbn [orb andb]. exact IH.
Qed.

Lemma frame_column_kept (col col' : list value) :
  frame_column col = Ok col' -> Forall2 kept col col'.
Proof.
  unfold frame_column.
  destruct (infer_column col false false false) as [k | e]; cbn [rbind];
    [| discriminate].
  destruct k; intros H; injection H as <-;
    induction col as [| v col IH]; cbn [map]; constructor;
    try exact IH; unfold kept; auto.
Qed.

Lemma frame_column_plain (col : list value) :
  Forall plain_value col -> exists col', frame_column col = Ok col'.
Proof.
  intros H. unfold frame_column.
  destruct (infer_column_plain col false false false H) as [k ->].
  cbn [rbind]. destruct k; eexists; reflexivity.
Qed.

Lemma frame_column_ints (col : list value) :
  Forall (fun v => exists z, v = vint z /\ 0 <= z < 2 ^ 53) col ->
  frame_column col = Ok col.
Proof.
  intros H. unfold frame_column. rewrite (infer_column_ints col H).
  reflexivity.
Qed.

(** A column with text in every cell is held as read. *)
Lemma frame_column_text (col : list value) :
  Forall (fun v => exists t, v = VStr t) col -> frame_column col = Ok col.
Proof.
  intros H. unfold frame_column.
  destruct H as [| v col [t ->] _]; reflexivity.
Qed.

Section Columns.

Variable parse_number : string -> option number.

(** *** Converting a column *)

Lemma to_numeric_cells (col : list value) (ns : list number) :
  to_numeric parse_number col = Ok ns ->
  Forall2
    (fun v n =>
       match cell_number parse_number v with
       | NInt z => n = NInt z \/ exists f, of_int z = Ok f /\ n = NFloat f
       | NFloat f => n = NFloat f
       end)
    col ns.
Proof.
  unfold to_numeric.
  destruct (integer_column (map (cell_number parse_number) col)) eqn:I;
    intros H.
  - injection H as <-. apply integer_column_ints in I.
    induction col as [| v col IH]; cbn [map] in *; constructor.
    + inversion I as [| ? ? [z E] _]; subst. rewrite E. left. reflexivity.
    + apply IH. inversion I; assumption.
  - apply map_result_Forall2, Forall2_map_left in H. clear I.
    induction H as [| v n col ns E _ IH]; [constructor |].
    constructor; [| exact IH].
    destruct (cell_number parse_number v) as [z | f]; cbn in E.
    + destruct (of_int z) as [y | e]; cbn [rbind] in E; [| discriminate].
      injection E as <-. right. exists y. split; reflexivity.
    + injection E as <-. reflexivity.
Qed.

Lemma fillna_coerces (d : Z) (col : list value) (ns : list number) :
  Forall2
    (fun v n =>
       match cell_number parse_number v with
       | NInt z => n = NInt z \/ exists f, of_int z = Ok f /\ n = NFloat f
       | NFloat f => n = NFloat f
       end)
    col ns ->
  Forall2 (coerces_to parse_number d) col (fillna d ns).
Proof.
  induction 1 as [| v n col ns H _ IH]; cbn [fillna map]; [constructor |].
  constructor; [| exact IH].
  unfold coerces_to.
  destruct (cell_number parse_number v) as [z | f].
  - destruct H as [-> | (y & E & ->)].
    + split; [reflexivity | left; reflexivity].
    + destruct (of_int_round _ _ E) as (_ & x & ->).
      split; [reflexivity | right; exists (Fin x); split; [exact E |]].
      reflexivity.
  - subst n. destruct f as [x | b |]; split; reflexivity.
Qed.

Lemma to_numeric_plain (col : list value) :
  Forall (fun v => plain_number (cell_number parse_number v)) col ->
  exists ns, to_numeric parse_number col = Ok ns.
Proof.
  intros H. unfold to_numeric.
  destruct (integer_column (map (cell_number parse_number) col));
    [eexists; reflexivity |].
  apply map_result_total, Forall_map.
  apply Forall_impl with (2 := H). intros v P.
  destruct (cell_number parse_number v) as [z | f]; cbn in *;
    [| eexists; reflexivity].
  apply in_int64_range in P. destruct (of_int_64 z) as [y ->]; [lia |].
  eexists. reflexivity.
Qed.

Lemma to_numeric_overflow (col : list value) (v : value) (z : Z) (e : exn) :
  In v col -> cell_number parse_number v = NInt z -> of_int z = Raise e ->
  exists e', to_numeric parse_number col = Raise e'.
Proof.
  intros I C E. unfold to_numeric.
  assert (I' : In (NInt z) (map (cell_number parse_number) col))
    by (apply in_map_iff; exists v; split; assumption).
  pose proof (of_int_raise_range _ _ E) as R.
  rewrite (integer_column_false _ _ I').
  - apply (map_result_raise _ _ _ e I'). cbn. rewrite E. reflexivity.
  - cbn. unfold in_int64. apply andb_false_iff.
    destruct R; [left; apply Z.leb_gt | right; apply Z.ltb_ge]; lia.
  - cbn. unfold in_uint64. apply andb_false_iff.
    destruct R; [left; apply Z.leb_gt | right; apply Z.ltb_ge]; lia.
Qed.

Lemma to_numeric_ints (col : list value) :
  Forall (fun v => exists z, v = vint z /\ 0 <= z < 2 ^ 53) col ->
  to_numeric parse_number col = Ok (map (cell_number parse_number) col).
Proof.
  intros H. unfold to_numeric.
  assert (I : integer_column (map (cell_number parse_number) col) = true).
  { unfold integer_column. apply orb_true_iff. left.
    apply forallb_forall. intros n N. apply in_map_iff in N.
    destruct N as (v & <- & V). rewrite Forall_forall in H.
    destruct (H v V) as (z & -> & R). cbn. apply in_int64_small. lia. }
  rewrite I. reflexivity.
Qed.

(** Converting the column of the data frame is converting the cells as
    read: what [pd.DataFrame] has made floats, [pd.to_numeric] would. *)
Lemma to_numeric_frame (col col' : list value) :
  frame_column col = Ok col' ->
  to_numeric parse_number col' = to_numeric parse_number col.
Proof.
  unfold frame_column.
  destruct (infer_column col false false false) as [k | e] eqn:K;
    cbn [rbind]; [| discriminate].
  destruct k; intros H; injection H as <-; try reflexivity.
  apply infer_column_float in K. destruct K as [F [D | [x I]]];
    [discriminate |].
  unfold to_numeric.
  rewrite (integer_column_false
             (map (cell_number parse_number) (map as_float64 col))
             (NFloat x)); try reflexivity.
  2: { apply in_map_iff. exists (VNum (NFloat x)). split; [reflexivity |].
       apply in_map_iff. exists (VNum (NFloat x)). split; [reflexivity |].
       exact I. }
  rewrite (integer_column_false (map (cell_number parse_number) col)
             (NFloat x)); try reflexivity.
  2: { apply in_map_iff. exists (VNum (NFloat x)). split; [reflexivity |].
       exact I. }
  clear I. induction F as [| v col P _ IH]; [reflexivity |].
  cbn [map map_result]. rewrite IH.
  destruct v as [[z | y] | t]; [| reflexivity | destruct P].
  destruct P as [f E]. cbn [as_float64 cell_number to_float64].
  rewrite E. destruct (of_int_round _ _ E) as [-> _]. reflexivity.
Qed.

Lemma to_numeric_frame_raise (col : list value) (e : exn) :
  frame_column col = Raise e ->
  exists e', to_numeric parse_number col = Raise e'.
Proof.
  unfold frame_column.
  destruct (infer_column col false false false) as [k | e1] eqn:K;
    cbn [rbind]; [destruct k; discriminate |].
  intros _. destruct (infer_column_raise _ _ _ _ _ K) as (z & e' & I & R).
  apply (to_numeric_overflow col (vint z) z e' I); [reflexivity | exact R].
Qed.

(** *** The rows of the frame *)

Lemma frame_rows_Forall2 (P1 P2 P3 : row -> value -> Prop)
    (P4 P5 P6 P7 : row -> number -> Prop) (data : list row)
    (ts us ims : list value) (ds ps qs ns : list number) :
  Forall2 P1 data ts -> Forall2 P2 data us -> Forall2 P3 data ims ->
  Forall2 P4 data ds -> Forall2 P5 data ps -> Forall2 P6 data qs ->
  Forall2 P7 data ns ->
  Forall2
    (fun r f =>
       P1 r (df_Task f) /\ P2 r (df_Urgency f) /\ P3 r (df_Importance f) /\
       P4 r (df_DaysUntilDue f) /\ P5 r (df_Priority f) /\
       P6 r (df_Quantity f) /\ P7 r (df_PeopleNeeded f))
    data (frame_rows ts us ims ds ps qs ns).
Proof.
  intros H1. revert us ims ds ps qs ns.
  induction H1 as [| r t data ts Q1 _ IH]; intros us ims ds ps qs ns
    H2 H3 H4 H5 H6 H7;
    inversion H2; inversion H3; inversion H4; inversion H5; inversion H6;
    inversion H7; subst; cbn [frame_rows]; constructor.
  - cbn. repeat split; assumption.
  - apply IH; assumption.
Qed.

Lemma frame_rows_const (ts : list value) (rows : list row)
    (u i : value) (d p q n : number) :
  List.length ts = List.length rows ->
  frame_rows ts (map (fun _ => u) rows) (map (fun _ => i) rows)
    (map (fun _ => d) rows) (map (fun _ => p) rows) (map (fun _ => q) rows)
    (map (fun _ => n) rows)
  = map (fun t => mkFrameRow t u i d p q n) ts.
Proof.
  revert rows. induction ts as [| t ts IH]; intros [| r rows] L;
    cbn in L |- *; try reflexivity; try discriminate.
  rewrite IH by (injection L as L; exact L). reflexivity.
Qed.

Lemma frame_rows_tasks (ts us ims : list value) (ds ps qs ns : list number)
    (f : frame_row) :
  In f (frame_rows ts us ims ds ps qs ns) -> In (df_Task f) ts.
Proof.
  revert us ims ds ps qs ns.
  induction ts as [| t ts IH]; intros [| u us] [| i ims] [| d ds] [| p ps]
    [| q qs] [| n ns] I; cbn in I; try contradiction.
  destruct I as [<- | I].
  - left. reflexivity.
  - right. apply (IH _ _ _ _ _ _ I).
Qed.

(** *** load_tasks *)

Lemma DataFrame_columns (data : list row) (df : data_frame) :
  DataFrame data = Ok df ->
  frame_column (map Task data) = Ok (Task_column df) /\
  frame_column (map Urgency data) = Ok (Urgency_column df) /\
  frame_column (map Importance data) = Ok (Importance_column df) /\
  frame_column (map DaysUntilDue data) = Ok (DaysUntilDue_column df) /\
  frame_column (map Priority data) = Ok (Priority_column df) /\
  frame_column (map Quantity data) = Ok (Quantity_column df) /\
  frame_column (map PeopleNeeded data) = Ok (PeopleNeeded_column df).
Proof.
  unfold DataFrame.
  destruct (frame_column (map Task data)); cbn [rbind]; [| discriminate].
  destruct (frame_column (map Urgency data)); cbn [rbind]; [| discriminate].
  destruct (frame_column (map Importance data)); cbn [rbind];
    [| discriminate].
  destruct (frame_column (map DaysUntilDue data)); cbn [rbind];
    [| discriminate].
  destruct (frame_column (map Priority data)); cbn [rbind]; [| discriminate].
  destruct (frame_column (map Quantity data)); cbn [rbind]; [| discriminate].
  destruct (frame_column (map PeopleNeeded data)); cbn [rbind];
    [| discriminate].
  intros H. injection H as <-. cbn. repeat split; reflexivity.
Qed.

(** [load_tasks] on records that are there, after the frame is built. *)
Lemma load_tasks_frame (data : list row) (df : data_frame) :
  data <> [] -> DataFrame data = Ok df ->
  load_tasks parse_number (Ok data)
  = match to_numeric parse_number (map Priority data),
          to_numeric parse_number (map Quantity data),
          to_numeric parse_number (map PeopleNeeded data),
          to_numeric parse_number (map DaysUntilDue data) with
    | Ok p, Ok q, Ok n, Ok d =>
        frame_rows (Task_column df) (Urgency_column df) (Importance_column df)
          (fillna 0 d) (fillna 0 p) (fillna 0 q) (fillna 1 n)
    | _, _, _, _ => []
    end.
Proof.
  intros N DF. destruct data as [| r data]; [congruence |].
  unfold load_tasks. cbv beta iota zeta. rewrite DF. cbn [rbind].
  destruct (DataFrame_columns _ _ DF) as (_ & _ & _ & F4 & F5 & F6 & F7).
  rewrite (to_numeric_frame _ _ F4), (to_numeric_frame _ _ F5),
    (to_numeric_frame _ _ F6), (to_numeric_frame _ _ F7).
  destruct (to_numeric parse_number (map Priority (r :: data)));
    cbn [rbind]; [| reflexivity].
  destruct (to_numeric parse_number (map Quantity (r :: data)));
    cbn [rbind]; [| reflexivity].
  destruct (to_numeric parse_number (map PeopleNeeded (r :: data)));
    cbn [rbind]; [| reflexivity].
  destruct (to_numeric parse_number (map DaysUntilDue (r :: data)));
    cbn [rbind]; reflexivity.
Qed.

Lemma load_tasks_no_frame (data : list row) (e : exn) :
  DataFrame data = Raise e -> load_tasks parse_number (Ok data) = [].
Proof.
  intros DF. destruct data as [| r data]; [reflexivity |].
  unfold load_tasks. cbv beta iota zeta. rewrite DF. reflexivity.
Qed.

(** The table is empty, or has a row for every record, made of the typed
    and the converted columns. *)
Lemma load_tasks_cases (data : list row) :
  load_tasks parse_number (Ok data) = [] \/
  exists t u i d p q n,
    frame_column (map Task data) = Ok t /\
    frame_column (map Urgency data) = Ok u /\
    frame_column (map Importance data) = Ok i /\
    to_numeric parse_number (map DaysUntilDue data) = Ok d /\
    to_numeric parse_number (map Priority data) = Ok p /\
    to_numeric parse_number (map Quantity data) = Ok q /\
    to_numeric parse_number (map PeopleNeeded data) = Ok n /\
    load_tasks parse_number (Ok data)
    = frame_rows t u i (fillna 0 d) (fillna 0 p) (fillna 0 q) (fillna 1 n).
Proof.
  destruct data as [| r data]; [left; reflexivity |].
  destruct (DataFrame (r :: data)) as [df | e] eqn:DF;
    [| left; apply (load_tasks_no_frame _ _ DF)].
  rewrite (load_tasks_frame _ df) by (discriminate || exact DF).
  destruct (DataFrame_columns _ _ DF) as (F1 & F2 & F3 & _).
  destruct (to_numeric parse_number (map Priority (r :: data))) as [p | e];
    [| left; reflexivity].
  destruct (to_numeric parse_number (map Quantity (r :: data))) as [q | e];
    [| left; reflexivity].
  destruct (to_numeric parse_number (map PeopleNeeded (r :: data)))
    as [n | e]; [| left; reflexivity].
  destruct (to_numeric parse_number (map DaysUntilDue (r :: data)))
    as [d | e]; [| left; reflexivity].
  right. exists (Task_column df), (Urgency_column df), (Importance_column df),
    d, p, q, n. repeat split; assumption || reflexivity.
Qed.

(** When the three columns are typed and the four are converted, the table
    has these rows. *)
Lemma load_tasks_rows (data : list row) (t u i : list value)
    (d p q n : list number) :
  data <> [] ->
  frame_column (map Task data) = Ok t ->
  frame_column (map Urgency data) = Ok u ->
  frame_column (map Importance data) = Ok i ->
  to_numeric parse_number (map DaysUntilDue data) = Ok d ->
  to_numeric parse_number (map Priority data) = Ok p ->
  to_numeric parse_number (map Quantity data) = Ok q ->
  to_numeric parse_number (map PeopleNeeded data) = Ok n ->
  load_tasks parse_number (Ok data)
  = frame_rows t u i (fillna 0 d) (fillna 0 p) (fillna 0 q) (fillna 1 n).
Proof.
  intros N F1 F2 F3 T4 T5 T6 T7.
  assert (DF : exists df, DataFrame data = Ok df /\ Task_column df = t /\
                          Urgency_column df = u /\ Importance_column df = i).
  { unfold DataFrame. rewrite F1, F2, F3. cbn [rbind].
    destruct (frame_column (map DaysUntilDue data)) as [c4 | e] eqn:F4;
      [| destruct (to_numeric_frame_raise _ _ F4); congruence].
    destruct (frame_column (map Priority data)) as [c5 | e] eqn:F5;
      [| destruct (to_numeric_frame_raise _ _ F5); congruence].
    destruct (frame_column (map Quantity data)) as [c6 | e] eqn:F6;
      [| destruct (to_numeric_frame_raise _ _ F6); congruence].
    destruct (frame_column (map PeopleNeeded data)) as [c7 | e] eqn:F7;
      [| destruct (to_numeric_frame_raise _ _ F7); congruence].
    cbn [rbind]. eexists. split; [reflexivity |]. cbn.
    repeat split; reflexivity. }
  destruct DF as (df & DF & <- & <- & <-).
  rewrite (load_tasks_frame _ df N DF), T4, T5, T6, T7. reflexivity.
Qed.

Lemma rows_loaded (data : list row) (t u i : list value)
    (d p q n : list number) :
  frame_column (map Task data) = Ok t ->
  frame_column (map Urgency data) = Ok u ->
  frame_column (map Importance data) = Ok i ->
  to_numeric parse_number (map DaysUntilDue data) = Ok d ->
  to_numeric parse_number (map Priority data) = Ok p ->
  to_numeric parse_number (map Quantity data) = Ok q ->
  to_numeric parse_number (map PeopleNeeded data) = Ok n ->
  Forall2 (loaded parse_number) data
    (frame_rows t u i (fillna 0 d) (fillna 0 p) (fillna 0 q) (fillna 1 n)).
Proof.
  intros F1 F2 F3 T4 T5 T6 T7.
  apply (frame_rows_Forall2
           (fun r v => kept (Task r) v) (fun r v => kept (Urgency r) v)
           (fun r v => kept (Importance r) v)
           (fun r x => coerces_to parse_number 0 (DaysUntilDue r) x)
           (fun r x => coerces_to parse_number 0 (Priority r) x)
           (fun r x => coerces_to parse_number 0 (Quantity r) x)
           (fun r x => coerces_to parse_number 1 (PeopleNeeded r) x)).
  - apply Forall2_map_left, frame_column_kept, F1.
  - apply Forall2_map_left, frame_column_kept, F2.
  - apply Forall2_map_left, frame_column_kept, F3.
  - apply Forall2_map_left, fillna_coerces, to_numeric_cells, T4.
  - apply Forall2_map_left, fillna_coerces, to_numeric_cells, T5.
  - apply Forall2_map_left, fillna_coerces, to_numeric_cells, T6.
  - apply Forall2_map_left, fillna_coerces, to_numeric_cells, T7.
Qed.

Lemma load_tasks_loaded (data : list row) :
  load_tasks parse_number (Ok data) = [] \/
  Forall2 (loaded parse_number) data (load_tasks parse_number (Ok data)).
Proof.
  destruct (load_tasks_cases data)
    as [E | (t & u & i & d & p & q & n & F1 & F2 & F3 & T4 & T5 & T6 & T7 & E)];
    [left; exact E | right].
  rewrite E. apply rows_loaded; assumption.
Qed.

(** On plain records nothing raises: every record has its row. *)
Lemma load_tasks_plain (data : list row) :
  plain_sheet parse_number data ->
  Forall2 (loaded parse_number) data (load_tasks parse_number (Ok data)).
Proof.
  intros P. destruct data as [| r0 data0] eqn:D; [constructor |].
  rewrite <- D in *. assert (N : data <> []) by (rewrite D; discriminate).
  clear D. unfold plain_sheet in P.
  destruct (frame_column_plain (map Task data)) as [t F1].
  { apply Forall_map. apply Forall_impl with (2 := P). intros r H. apply H. }
  destruct (frame_column_plain (map Urgency data)) as [u F2].
  { apply Forall_map. apply Forall_impl with (2 := P). intros r H. apply H. }
  destruct (frame_column_plain (map Importance data)) as [i F3].
  { apply Forall_map. apply Forall_impl with (2 := P). intros r H. apply H. }
  destruct (to_numeric_plain (map DaysUntilDue data)) as [d T4].
  { apply Forall_map. apply Forall_impl with (2 := P). intros r H. apply H. }
  destruct (to_numeric_plain (map Priority data)) as [p T5].
  { apply Forall_map. apply Forall_impl with (2 := P). intros r H. apply H. }
  destruct (to_numeric_plain (map Quantity data)) as [q T6].
  { apply Forall_map. apply Forall_impl with (2 := P). intros r H. apply H. }
  destruct (to_numeric_plain (map PeopleNeeded data)) as [n T7].
  { apply Forall_map. apply Forall_impl with (2 := P). intros r H. apply H. }
  rewrite (load_tasks_rows data t u i d p q n) by assumption.
  apply rows_loaded; assumption.
Qed.


End Columns.

End LoadFacts.

Section LoadClaims.

Variable parse_number : string -> option number.


End LoadClaims.



(** A sheet where one Quantity is 10^400 loads as the empty table: the
    conversion of the column raises, and no record is loaded. *)
Lemma load_tasks_overflow_empties :
  load_tasks parse_decimal
    (Ok [ mkRow (VStr "Putaway 3002") (vint 5) (vint 5) (vint 0) (vint 0)
            (vint 0) (vint 1);
          mkRow (VStr "Unload Shuttles") (vint 3) (vint 4) (vint 2)
            (vint 7) (vint (10 ^ 400)) (vint 1) ])
  = [].
Proof. vm_compute. reflexivity. Qed.

(** * Order properties of rounding *)

Module RoundingOrder.

Import FloatFacts.
Local Open Scope Q_scope.

Lemma rne_between (z : Q) : (Qfloor z <= rne z <= Qfloor z + 1)%Z.
Proof.
  unfold rne.
  destruct (Qcompare (z - inject_Z (Qfloor z)) (1 # 2));
    [destruct (Z.even (Qfloor z)) | |]; lia.
Qed.

Lemma rne_mono (z1 z2 : Q) : z1 <= z2 -> (rne z1 <= rne z2)%Z.
Proof.
  intros H. pose proof (Qfloor_resp_le _ _ H) as F.
  destruct (Z.eq_dec (Qfloor z1) (Qfloor z2)) as [E | N].
  - unfold rne. rewrite E.
    destruct (Qcompare_spec (z1 - inject_Z (Qfloor z2)) (1 # 2)) as [A | A | A];
      destruct (Qcompare_spec (z2 - inject_Z (Qfloor z2)) (1 # 2))
        as [B | B | B];
      try lia; try (exfalso; lra);
      destruct (Z.even (Qfloor z2)); lia.
  - pose proof (rne_between z1). pose proof (rne_between z2). lia.
Qed.

Lemma round_ne_nonneg (x a : Q) :
  0 <= x -> x < pow2 1023 -> round_ne x = Fin a -> 0 <= a.
Proof.
  intros X0 X1 E.
  destruct (round_ne_fin x) as (a' & E' & _ & F).
  { rewrite Qabs_pos by exact X0. exact X1. }
  rewrite E in E'. injection E' as <-.
  destruct (Qeq_dec x 0) as [Z0 | NZ].
  - rewrite (round_ne_zero x Z0) in E. injection E as <-. lra.
  - rewrite (F NZ).
    pose proof (pow2_pos (ulp_exp x)) as Pe.
    apply Qmult_le_0_compat; [| lra].
    change 0 with (inject_Z 0). rewrite <- Zle_Qle.
    rewrite <- (rne_int 0). apply rne_mono.
    change (inject_Z 0) with 0.
    apply Qle_shift_div_l; [exact Pe | lra].
Qed.

Lemma ilog2_mono (x y : Q) : 0 < x -> x <= y -> (ilog2 x <= ilog2 y)%Z.
Proof.
  intros X0 H.
  destruct (ilog2_spec x X0) as [Lx _].
  destruct (ilog2_spec y) as [_ Uy]; [lra |].
  assert (A : pow2 (ilog2 x) < pow2 (ilog2 y + 1)) by lra.
  apply pow2_lt_inv in A. lia.
Qed.

(** Rounding is monotone on the non-negative numbers. *)
Lemma round_ne_mono (x y a b : Q) :
  0 <= x -> x <= y -> y < pow2 1023 ->
  round_ne x = Fin a -> round_ne y = Fin b -> a <= b.
Proof.
  intros X0 H Y1 Ea Eb.
  destruct (Qeq_dec x 0) as [Zx | NZx].
  - rewrite (round_ne_zero x Zx) in Ea. injection Ea as <-.
    apply (round_ne_nonneg y b); [lra | exact Y1 | exact Eb].
  - assert (Xp : 0 < x).
    { destruct (Qlt_le_dec 0 x) as [P | N]; [exact P |].
      exfalso. apply NZx. lra. }
    assert (Yp : 0 < y) by lra.
    assert (NZy : ~ y == 0) by (intros E; rewrite E in Yp; discriminate Yp).
    destruct (round_ne_fin x) as (a' & Ea' & _ & Fa).
    { rewrite Qabs_pos by lra. lra. }
    destruct (round_ne_fin y) as (b' & Eb' & _ & Fb).
    { rewrite Qabs_pos by lra. exact Y1. }
    rewrite Ea in Ea'. injection Ea' as <-.
    rewrite Eb in Eb'. injection Eb' as <-.
    specialize (Fa NZx). specialize (Fb NZy).
    pose proof (ilog2_mono x y Xp H) as Il.
    destruct (ilog2_spec x Xp) as [_ Ux].
    destruct (ilog2_spec y Yp) as [Ly _].
    assert (Dx : ulp_exp x = Z.max (ilog2 x - 52) (-1074)).
    { unfold ulp_exp, prec, emin.
      rewrite (ilog2_wd (Qabs x) x) by (apply Qabs_pos; lra). reflexivity. }
    assert (Dy : ulp_exp y = Z.max (ilog2 y - 52) (-1074)).
    { unfold ulp_exp, prec, emin.
      rewrite (ilog2_wd (Qabs y) y) by (apply Qabs_pos; lra). reflexivity. }
    set (ex := ulp_exp x) in *. set (ey := ulp_exp y) in *.
    pose proof (pow2_pos ex) as Pex. pose proof (pow2_pos ey) as Pey.
    rewrite Fa, Fb.
    destruct (Z.eq_dec ex ey) as [Ee | Ne].
    + rewrite Ee. apply Qmult_le_compat_r; [| lra].
      rewrite <- Zle_Qle. apply rne_mono.
      unfold Qdiv. apply Qmult_le_compat_r; [exact H |].
      apply Qlt_le_weak, Qinv_lt_0_compat. rewrite <- Ee. exact Pex.
    + assert (Lt : (ex < ey)%Z) by lia.
      assert (Ey : ey = (ilog2 y - 52)%Z) by lia.
      assert (Il1 : (ilog2 x + 1 <= ilog2 y)%Z) by lia.
      apply Qle_trans with (pow2 (ilog2 y)).
      * (* the rounded x does not pass the next power of two *)
        set (k := (ilog2 y - ex)%Z).
        assert (K0 : (0 <= k)%Z) by (unfold k; lia).
        assert (Pk : pow2 (ilog2 y) == inject_Z (2 ^ k) * pow2 ex).
        { rewrite <- pow2_inject by exact K0. rewrite <- pow2_add.
          unfold k. replace (ilog2 y - ex + ex)%Z with (ilog2 y) by lia.
          reflexivity. }
        rewrite Pk. apply Qmult_le_compat_r; [| lra].
        rewrite <- Zle_Qle. rewrite <- (rne_int (2 ^ k)). apply rne_mono.
        apply Qle_shift_div_r; [exact Pex |]. rewrite <- Pk.
        apply Qle_trans with (pow2 (ilog2 x + 1)); [lra |].
        apply pow2_le. exact Il1.
      * (* the rounded y does not fall below its power of two *)
        assert (Pk : pow2 (ilog2 y) == inject_Z (2 ^ 52) * pow2 ey).
        { rewrite <- pow2_inject by lia. rewrite <- pow2_add.
          rewrite Ey. replace (52 + (ilog2 y - 52))%Z with (ilog2 y) by lia.
          reflexivity. }
        rewrite Pk. apply Qmult_le_compat_r; [| lra].
        rewrite <- Zle_Qle. rewrite <- (rne_int (2 ^ 52)) at 1.
        apply rne_mono.
        apply Qle_shift_div_l; [exact Pey |]. rewrite <- Pk. exact Ly.
Qed.

(** One rounding step on two ordered non-negative numbers. *)
Lemma round_step (x y c : Q) :
  0 <= x -> x <= y -> y <= c -> c < pow2 1023 ->
  exists a b, round_ne x = Fin a /\ round_ne y = Fin b /\
    0 <= a /\ a <= b /\ b <= 2 * c.
Proof.
  intros X0 H Yc C.
  destruct (round_ne_bound x) as (a & Ea & _).
  { rewrite Qabs_pos by lra. lra. }
  destruct (round_ne_bound y) as (b & Eb & Bb).
  { rewrite Qabs_pos by lra. lra. }
  exists a, b. split; [exact Ea |]. split; [exact Eb |].
  assert (A0 : 0 <= a) by (apply (round_ne_nonneg x a); [lra | lra | exact Ea]).
  assert (AB : a <= b)
    by (apply (round_ne_mono x y a b); [lra | lra | lra | exact Ea | exact Eb]).
  split; [exact A0 |]. split; [exact AB |].
  rewrite (Qabs_pos y) in Bb by lra.
  pose proof (Qle_Qabs b). lra.
Qed.

End RoundingOrder.

(** * Order and bounds of the staffing and priority computations *)

Module StaffingOrder.

Import FloatFacts PriorityFacts StaffingFacts RoundingOrder.
Local Open Scope Q_scope.

Lemma inject_range (a b c : Z) :
  (0 <= a)%Z -> (a <= b)%Z -> (b <= c)%Z ->
  0 <= inject_Z a /\ inject_Z a <= inject_Z b /\ inject_Z b <= inject_Z c.
Proof.
  intros. change 0 with (inject_Z 0). rewrite <- !Zle_Qle. lia.
Qed.

Lemma of_int_step (n1 n2 : Z) (c : Q) :
  0 <= inject_Z n1 -> inject_Z n1 <= inject_Z n2 -> inject_Z n2 <= c ->
  c < pow2 1023 ->
  exists a b, of_int n1 = Ok (Fin a) /\ of_int n2 = Ok (Fin b) /\
    0 <= a /\ a <= b /\ b <= 2 * c.
Proof.
  intros H0 H1 H2 C.
  destruct (round_step _ _ _ H0 H1 H2 C) as (a & b & Ea & Eb & R).
  exists a, b. unfold of_int. rewrite Ea, Eb.
  split; [reflexivity |]. split; [reflexivity | exact R].
Qed.

Lemma priority_factor_mono (u1 u2 i1 i2 : Z) :
  (0 <= u1)%Z -> (u1 <= u2)%Z -> (u2 <= huge)%Z ->
  (0 <= i1)%Z -> (i1 <= i2)%Z -> (i2 <= huge)%Z ->
  exists p1 p2,
    priority_factor u1 i1 = Ok (Fin p1) /\
    priority_factor u2 i2 = Ok (Fin p2) /\
    0 <= p1 /\ p1 <= p2 /\ p2 <= 4 * inject_Z huge.
Proof.
  intros U0 U1 U2 I0 I1 I2. destruct huge_room as (B0 & B1 & _).
  destruct (inject_range u1 u2 huge U0 U1 U2) as (Qu0 & Qu1 & Qu2).
  destruct (inject_range (i1 * 2) (i2 * 2) (huge * 2)) as (Qi0 & Qi1 & Qi2);
    [lia | lia | lia |].
  rewrite (inject_Z_mult huge 2) in Qi2. change (inject_Z 2) with 2 in Qi2.
  set (B := inject_Z huge) in *. clearbody B.
  destruct (of_int_step u1 u2 B Qu0 Qu1 Qu2) as (f1 & f2 & E1 & E2 & R1);
    [lra |].
  destruct (round_step (f1 * (3 # 2)) (f2 * (3 # 2)) (3 * B))
    as (a1 & a2 & E3 & E4 & R2); [lra | lra | lra | lra |].
  destruct (of_int_step (i1 * 2) (i2 * 2) (2 * B)) as (g1 & g2 & E5 & E6 & R3);
    [lra | lra | lra | lra |].
  destruct (round_step (a1 + g1) (a2 + g2) (10 * B))
    as (s1 & s2 & E7 & E8 & R4); [lra | lra | lra | lra |].
  assert (D1 : s1 / 10 == s1 * (1 # 10)) by field.
  assert (D2 : s2 / 10 == s2 * (1 # 10)) by field.
  destruct (round_step (s1 / 10) (s2 / 10) (2 * B))
    as (p1 & p2 & E9 & E10 & R5);
    [rewrite D1; lra | rewrite D1, D2; lra | rewrite D2; lra | lra |].
  exists p1, p2. split; [| split; [| lra]].
  - unfold priority_factor. rewrite E1. cbn [rbind]. rewrite E5. cbn [rbind].
    rewrite of_int_10. cbn [rbind Float.mul]. rewrite E3. cbn [Float.add].
    rewrite E7. cbn [Float.div].
    change (Qeq_bool 10 0) with false. cbv iota. rewrite E9. reflexivity.
  - unfold priority_factor. rewrite E2. cbn [rbind]. rewrite E6. cbn [rbind].
    rewrite of_int_10. cbn [rbind Float.mul]. rewrite E4. cbn [Float.add].
    rewrite E8. cbn [Float.div].
    change (Qeq_bool 10 0) with false. cbv iota. rewrite E10. reflexivity.
Qed.

Lemma shifts_mono (q1 q2 t : Z) :
  (0 <= q1)%Z -> (q1 <= q2)%Z -> (q2 <= huge)%Z ->
  (t = 15 \/ t = 20 \/ t = 25)%Z ->
  exists w1 w2,
    int_truediv (q1 * t) WORK_MINUTES_PER_WORKER = Ok (Fin w1) /\
    int_truediv (q2 * t) WORK_MINUTES_PER_WORKER = Ok (Fin w2) /\
    0 <= w1 /\ w1 <= w2 /\ w2 <= 2 * inject_Z huge.
Proof.
  intros Q0 Q1 Q2 Ht. destruct huge_room as (B0 & B1 & _).
  destruct (inject_range (q1 * t) (q2 * t) (huge * 25)) as (A0 & A1 & A2);
    [nia | nia | nia |].
  rewrite (inject_Z_mult huge 25) in A2. change (inject_Z 25) with 25 in A2.
  set (B := inject_Z huge) in *. clearbody B.
  set (x1 := inject_Z (q1 * t)) in *. set (x2 := inject_Z (q2 * t)) in *.
  assert (D1 : x1 / 420 == x1 * (1 # 420)) by field.
  assert (D2 : x2 / 420 == x2 * (1 # 420)) by field.
  destruct (round_step (x1 / 420) (x2 / 420) B) as (w1 & w2 & E1 & E2 & R);
    [rewrite D1; lra | rewrite D1, D2; lra | rewrite D2; lra | lra |].
  exists w1, w2. split; [| split; [| exact R]].
  - unfold int_truediv. change (WORK_MINUTES_PER_WORKER =? 0)%Z with false.
    cbv iota. change (inject_Z WORK_MINUTES_PER_WORKER) with 420.
    fold x1. rewrite E1. reflexivity.
  - unfold int_truediv. change (WORK_MINUTES_PER_WORKER =? 0)%Z with false.
    cbv iota. change (inject_Z WORK_MINUTES_PER_WORKER) with 420.
    fold x2. rewrite E2. reflexivity.
Qed.

(** Whatever the arguments, a returned head count is at least 1. *)
Lemma people_needed_floor (task : string) (q u i n : Z) :
  calculate_people_needed task q u i = Ok n -> (1 <= n)%Z.
Proof.
  unfold calculate_people_needed.
  destruct (dict_get task TASK_TIME) as [t |].
  - destruct (priority_factor u i) as [p | e]; cbn [rbind]; [| discriminate].
    destruct (int_truediv (q * t) WORK_MINUTES_PER_WORKER) as [w | e];
      cbn [rbind]; [| discriminate].
    destruct (ceil (Float.mul w p)) as [c | e]; cbn [rbind]; [| discriminate].
    intros H. injection H as <-. lia.
  - intros H. injection H as <-. lia.
Qed.

(** On magnitudes up to [huge] the staffing function returns. *)
Lemma people_needed_total (task : string) (q u i : Z) :
  (0 <= q <= huge)%Z -> (Z.abs u <= huge)%Z -> (Z.abs i <= huge)%Z ->
  exists n, calculate_people_needed task q u i = Ok n.
Proof. exact (calculate_people_needed_total task q u i). Qed.

(** One person per four units of work is enough, on the ranges of the
    form. *)
Lemma people_needed_quarter
    (task : string) (quantity urgency importance : Z) :
  (0 <= quantity <= 10 ^ 9)%Z ->
  (1 <= urgency <= 10)%Z -> (1 <= importance <= 10)%Z ->
  exists n,
    calculate_people_needed task quantity urgency importance = Ok n /\
    (1 <= n <= Z.max 1 ((quantity + 3) / 4))%Z.
Proof.
  intros Hq Hu Hi. unfold calculate_people_needed.
  destruct (dict_get task TASK_TIME) as [t |] eqn:Hd;
    [| exists 1%Z; split; [reflexivity | lia]].
  pose proof (TASK_TIME_values _ _ Hd) as Ht.
  destruct (priority_factor_rel urgency importance Hu Hi)
    as (p & Ep & Vp & Rp).
  destruct (shifts_rel quantity t Hq Ht) as (w & Ew & Vw & A0 & A1 & A2).
  rewrite Ep. cbn [rbind]. rewrite Ew. cbn [rbind Float.mul].
  set (A := inject_Z (quantity * t) / 420) in *.
  set (P := Spec.priority_factor urgency importance) in *.
  change u53 with (1 # 9007199254740992) in Vw, Vp.
  apply Qabs_Qle_condition in Vw. apply Qabs_Qle_condition in Vp.
  assert (Aq : 0 <= A /\ A <= inject_Z quantity * (25 # 420)).
  { unfold A.
    setoid_replace (inject_Z (quantity * t) / 420)
      with (inject_Z (quantity * t) * (1 # 420)) by field.
    assert (T : 0 <= inject_Z (quantity * t)
                /\ inject_Z (quantity * t) <= inject_Z (quantity * 25)).
    { change 0 with (inject_Z 0). rewrite <- !Zle_Qle. nia. }
    rewrite (inject_Z_mult quantity 25) in T.
    change (inject_Z 25) with 25 in T. lra. }
  assert (Q0 : 0 <= inject_Z quantity <= 1000000000).
  { change 0 with (inject_Z 0). change 1000000000 with (inject_Z (10 ^ 9)).
    rewrite <- !Zle_Qle. lia. }
  assert (WP : 0 <= w * p /\
               w * p <= inject_Z quantity * (25 # 420)
                        * (9007199254740993 # 9007199254740992)
                        * ((7 # 2) * (9007199254740993 # 9007199254740992))).
  { split; [apply Qmult_le_0_compat; lra |].
    apply Qmult_le_compat_nonneg; split; lra. }
  destruct (round_ne_le (w * p) 1000000000) as (x & Ex & _);
    [rewrite Qabs_pos by lra; lra | vm_compute; reflexivity |].
  rewrite Ex. cbn [ceil rbind]. eexists. split; [reflexivity |].
  split; [lia |].
  destruct (Z.eq_dec quantity 0) as [Z0 | NZ].
  - specialize (A0 Z0).
    assert (X0 : w * p == 0).
    { assert (W0 : w == 0) by lra. rewrite W0. ring. }
    rewrite (round_ne_zero _ X0) in Ex. injection Ex as <-.
    change (Qceiling 0) with 0%Z. lia.
  - specialize (A1 NZ).
    destruct (round_ne_rel (w * p)) as (x' & Ex' & Vx).
    { right. rewrite Qabs_pos by lra. apply tiny_le.
      assert (L : (1 # 28) * (9007199254740991 # 9007199254740992)
                  * ((7 # 20) * (9007199254740991 # 9007199254740992))
                  <= w * p)
        by (apply Qmult_le_compat_nonneg; split; lra).
      lra. }
    { rewrite Qabs_pos by lra.
      apply Qle_lt_trans with 1000000000; [lra | vm_compute; reflexivity]. }
    rewrite Ex in Ex'. injection Ex' as <-.
    rewrite (Qabs_pos (w * p)) in Vx by lra.
    change u53 with (1 # 9007199254740992) in Vx.
    apply Qabs_Qle_condition in Vx.
    assert (Gt : (quantity <= 4 * ((quantity + 3) / 4))%Z).
    { pose proof (Z.div_mod (quantity + 3) 4 ltac:(lia)).
      pose proof (Z.mod_pos_bound (quantity + 3) 4 ltac:(lia)). lia. }
    assert (Xq : x <= inject_Z ((quantity + 3) / 4)).
    { apply Qle_trans with (inject_Z quantity * (1 # 4)); [lra |].
      rewrite Zle_Qle in Gt.
      rewrite inject_Z_mult in Gt. change (inject_Z 4) with 4 in Gt. lra. }
    apply Qceiling_resp_le in Xq. rewrite Qceiling_Z in Xq. lia.
Qed.

End StaffingOrder.

Section StaffingExtras.

Import FloatFacts PriorityFacts StaffingFacts RoundingOrder StaffingOrder.
Local Open Scope Q_scope.

(** X1: More work, more urgency or more importance never lowers the head
    count: on non-negative arguments up to 10^100,
    [calculate_people_needed] is monotone in quantity, urgency and
    importance, although every step is rounded. *)
Theorem people_needed_monotone
    (task : string) (q1 q2 u1 u2 i1 i2 : Z) :
  (0 <= q1)%Z -> (q1 <= q2)%Z -> (q2 <= huge)%Z ->
  (0 <= u1)%Z -> (u1 <= u2)%Z -> (u2 <= huge)%Z ->
  (0 <= i1)%Z -> (i1 <= i2)%Z -> (i2 <= huge)%Z ->
  exists n1 n2,
    calculate_people_needed task q1 u1 i1 = Ok n1 /\
    calculate_people_needed task q2 u2 i2 = Ok n2 /\
    (n1 <= n2)%Z.
Proof.
  intros Q0 Q1 Q2 U0 U1 U2 I0 I1 I2. unfold calculate_people_needed.
  destruct (dict_get task TASK_TIME) as [t |] eqn:Hd.
  - pose proof (TASK_TIME_values _ _ Hd) as Ht.
    destruct (priority_factor_mono u1 u2 i1 i2 U0 U1 U2 I0 I1 I2)
      as (p1 & p2 & Ep1 & Ep2 & P0 & P1 & P2).
    destruct (shifts_mono q1 q2 t Q0 Q1 Q2 Ht)
      as (w1 & w2 & Ew1 & Ew2 & W0 & W1 & W2).
    rewrite Ep1, Ep2. cbn [rbind]. rewrite Ew1, Ew2. cbn [rbind Float.mul].
    destruct huge_room as (B0 & _ & B2).
    destruct (round_step (w1 * p1) (w2 * p2)
                (2 * inject_Z huge * (4 * inject_Z huge)))
      as (x1 & x2 & E1 & E2 & _ & X & _).
    { apply Qmult_le_0_compat; assumption. }
    { apply Qmult_le_compat_nonneg; split; assumption. }
    { apply Qmult_le_compat_nonneg; split; lra. }
    { exact B2. }
    rewrite E1, E2. cbn [ceil rbind].
    eexists. eexists. split; [reflexivity |]. split; [reflexivity |].
    apply Qceiling_resp_le in X. lia.
  - exists 1%Z, 1%Z. repeat split; lia.
Qed.

Lemma people_needed_monotone_witness :
  (0 <= 200)%Z /\ (200 <= 201)%Z /\ (201 <= huge)%Z /\
  (0 <= 2)%Z /\ (2 <= 3)%Z /\ (3 <= huge)%Z /\
  (0 <= 9)%Z /\ (9 <= 9)%Z /\ (9 <= huge)%Z /\
  exists n1 n2,
    calculate_people_needed "Putaway 3043" 200 2 9 = Ok n1 /\
    calculate_people_needed "Putaway 3043" 201 3 9 = Ok n2 /\
    (n1 <= n2)%Z.
Proof.
  repeat (split; [vm_compute; discriminate |]).
  apply (people_needed_monotone "Putaway 3043" 200 201 2 3 9 9);
    vm_compute; discriminate.
Defined.

(** X2: A quantity of zero asks for one person: for every task name and
    urgency and importance of magnitude up to 10^100,
    [calculate_people_needed(task, 0, urgency, importance)] returns 1. *)
Theorem zero_quantity_one_person (task : string) (urgency importance : Z) :
  (Z.abs urgency <= huge)%Z -> (Z.abs importance <= huge)%Z ->
  calculate_people_needed task 0 urgency importance = Ok 1%Z.
Proof.
  intros Hu Hi. unfold calculate_people_needed.
  destruct (dict_get task TASK_TIME) as [t |]; [| reflexivity].
  destruct (priority_factor_total urgency importance Hu Hi) as (p & Ep & _).
  rewrite Ep. cbn [rbind Z.mul].
  assert (W : int_truediv 0 WORK_MINUTES_PER_WORKER = Ok (Fin 0))
    by (vm_compute; reflexivity).
  rewrite W. cbn [rbind Float.mul].
  rewrite (round_ne_zero (0 * p)) by ring. reflexivity.
Qed.

Lemma zero_quantity_one_person_witness :
  (Z.abs (-4) <= huge)%Z /\ (Z.abs 10 <= huge)%Z /\
  calculate_people_needed "FTL Picks Next Day" 0 (-4) 10 = Ok 1%Z.
Proof.
  split; [vm_compute; discriminate |]. split; [vm_compute; discriminate |].
  apply (zero_quantity_one_person "FTL Picks Next Day" (-4) 10);
    vm_compute; discriminate.
Defined.

(** X3: The head count stays within one person per four units of work: for
    urgency and importance in 1..10 and a quantity up to 10^9,
    [calculate_people_needed] returns at most max(1, ceil(quantity / 4)). *)
Theorem people_needed_at_most_quarter
    (task : string) (quantity urgency importance : Z) :
  (0 <= quantity <= 10 ^ 9)%Z ->
  (1 <= urgency <= 10)%Z -> (1 <= importance <= 10)%Z ->
  exists n,
    calculate_people_needed task quantity urgency importance = Ok n /\
    (1 <= n <= Z.max 1 ((quantity + 3) / 4))%Z.
Proof. exact (people_needed_quarter task quantity urgency importance). Qed.

Lemma people_needed_at_most_quarter_witness :
  (0 <= 24 <= 10 ^ 9)%Z /\ (1 <= 10 <= 10)%Z /\ (1 <= 10 <= 10)%Z /\
  exists n,
    calculate_people_needed "Export Drop Next Day" 24 10 10 = Ok n /\
    (1 <= n <= Z.max 1 ((24 + 3) / 4))%Z.
Proof.
  split; [lia |]. split; [lia |]. split; [lia |].
  apply (people_needed_at_most_quarter "Export Drop Next Day" 24 10 10); lia.
Defined.

(** X4: The priority score orders tasks as its formula says: for ints of
    magnitude up to 2^49, raising urgency or importance or lowering
    daysUntilDue, with at least one of them changed, strictly raises the
    score that [update_task] computes. *)
Theorem priority_score_strictly_monotone (u1 u2 i1 i2 d1 d2 : Z) :
  (Z.abs u1 <= 2 ^ 49)%Z -> (Z.abs u2 <= 2 ^ 49)%Z ->
  (Z.abs i1 <= 2 ^ 49)%Z -> (Z.abs i2 <= 2 ^ 49)%Z ->
  (Z.abs d1 <= 2 ^ 49)%Z -> (Z.abs d2 <= 2 ^ 49)%Z ->
  (u1 <= u2)%Z -> (i1 <= i2)%Z -> (d2 <= d1)%Z ->
  (u1 < u2 \/ i1 < i2 \/ d2 < d1)%Z ->
  exists p1 p2,
    priority_score u1 i1 d1 = Ok (Fin p1) /\
    priority_score u2 i2 d2 = Ok (Fin p2) /\
    p1 < p2.
Proof.
  intros Hu1 Hu2 Hi1 Hi2 Hd1 Hd2 Lu Li Ld S.
  destruct (priority_score_value u1 i1 d1 Hu1 Hi1 Hd1) as (p1 & E1 & V1).
  destruct (priority_score_value u2 i2 d2 Hu2 Hi2 Hd2) as (p2 & E2 & V2).
  exists p1, p2. split; [exact E1 |]. split; [exact E2 |].
  rewrite V1, V2. unfold Spec.priority.
  assert (T : (3 * u1 + 4 * i1 - d1 < 3 * u2 + 4 * i2 - d2)%Z) by lia.
  rewrite Zlt_Qlt in T.
  replace (3 * u1 + 4 * i1 - d1)%Z with (3 * u1 + 4 * i1 + - d1)%Z in T by lia.
  replace (3 * u2 + 4 * i2 - d2)%Z with (3 * u2 + 4 * i2 + - d2)%Z in T by lia.
  rewrite !inject_Z_plus, !inject_Z_mult, !inject_Z_opp in T.
  change (inject_Z 3) with 3 in T. change (inject_Z 4) with 4 in T. lra.
Qed.

Lemma priority_score_strictly_monotone_witness :
  (Z.abs 8 <= 2 ^ 49)%Z /\ (Z.abs 8 <= 2 ^ 49)%Z /\
  (Z.abs 9 <= 2 ^ 49)%Z /\ (Z.abs 9 <= 2 ^ 49)%Z /\
  (Z.abs 2 <= 2 ^ 49)%Z /\ (Z.abs 1 <= 2 ^ 49)%Z /\
  (8 <= 8)%Z /\ (9 <= 9)%Z /\ (1 <= 2)%Z /\
  (8 < 8 \/ 9 < 9 \/ 1 < 2)%Z /\
  exists p1 p2,
    priority_score 8 9 2 = Ok (Fin p1) /\
    priority_score 8 9 1 = Ok (Fin p2) /\
    p1 < p2.
Proof.
  repeat (split; [vm_compute; discriminate |]).
  split; [right; right; lia |].
  apply (priority_score_strictly_monotone 8 8 9 9 2 1);
    try (vm_compute; discriminate).
  right; right; lia.
Defined.

(** X5: On the ranges of the page's sliders (urgency and importance 1..10,
    daysUntilDue 0..5) the priority score is between 1 and 35, so it is
    never negative there. *)
Theorem priority_score_slider_range
    (urgency importance days_until_due : Z) :
  (1 <= urgency <= 10)%Z -> (1 <= importance <= 10)%Z ->
  (0 <= days_until_due <= 5)%Z ->
  exists p,
    priority_score urgency importance days_until_due = Ok (Fin p) /\
    1 <= p <= 35.
Proof.
  intros Hu Hi Hd.
  destruct (priority_score_value urgency importance days_until_due)
    as (p & E & V); [lia | lia | lia |].
  exists p. split; [exact E |]. rewrite V. unfold Spec.priority.
  assert (Ru : 1 <= inject_Z urgency <= 10).
  { change 1 with (inject_Z 1). change 10 with (inject_Z 10).
    rewrite <- !Zle_Qle. lia. }
  assert (Ri : 1 <= inject_Z importance <= 10).
  { change 1 with (inject_Z 1). change 10 with (inject_Z 10).
    rewrite <- !Zle_Qle. lia. }
  assert (Rd : 0 <= inject_Z days_until_due <= 5).
  { change 0 with (inject_Z 0). change 5 with (inject_Z 5).
    rewrite <- !Zle_Qle. lia. }
  lra.
Qed.

Lemma priority_score_slider_range_witness :
  (1 <= 1 <= 10)%Z /\ (1 <= 1 <= 10)%Z /\ (0 <= 5 <= 5)%Z /\
  exists p, priority_score 1 1 5 = Ok (Fin p) /\ 1 <= p <= 35.
Proof.
  split; [lia |]. split; [lia |]. split; [lia |].
  apply (priority_score_slider_range 1 1 5); lia.
Defined.

End StaffingExtras.

(** * Frame, bounds and composition of the sheet operations *)

Module SheetOrder.

Import SheetFacts.

Lemma length_update_nth {A : Type} (n : nat) (f : A -> A) (l : list A) :
  List.length (update_nth n f l) = List.length l.
Proof.
  revert n. induction l as [| x l IH]; intros [| n]; cbn; try reflexivity.
  rewrite IH. reflexivity.
Qed.

Lemma nth_error_update_nth_other {A : Type} (n j : nat) (f : A -> A)
    (l : list A) :
  j <> n -> nth_error (update_nth n f l) j = nth_error l j.
Proof.
  revert n j. induction l as [| x l IH]; intros [| n] [| j] H; cbn;
    try reflexivity; try congruence.
  apply IH. congruence.
Qed.

Lemma nth_error_update_nth_same {A : Type} (n : nat) (f : A -> A)
    (l : list A) (x : A) :
  nth_error l n = Some x -> nth_error (update_nth n f l) n = Some (f x).
Proof.
  revert n. induction l as [| y l IH]; intros [| n] H; cbn in *;
    try discriminate.
  - injection H as ->. reflexivity.
  - apply IH. exact H.
Qed.

Lemma Forall_update_nth {A : Type} (P : A -> Prop) (n : nat) (f : A -> A)
    (l : list A) :
  (forall x, P (f x)) -> Forall P l -> Forall P (update_nth n f l).
Proof.
  intros Hf. revert n. induction l as [| x l IH]; intros [| n] H; cbn;
    inversion H; subst; constructor; auto.
Qed.

(** What [first_match] finds: a record named [task], with none before. *)
Lemma first_match_some (task : string) (rows : list row) (idx : nat) :
  first_match task rows = Some idx ->
  exists r, nth_error rows idx = Some r /\ task_is task r = true /\
    (idx < List.length rows)%nat.
Proof.
  revert idx. induction rows as [| r rows IH]; intros idx H; cbn in H.
  - discriminate.
  - destruct (task_is task r) eqn:T.
    + injection H as <-. exists r. cbn. repeat split; [exact T | lia].
    + destruct (first_match task rows) as [j |]; [| discriminate].
      cbn in H. injection H as <-.
      destruct (IH j eq_refl) as (r' & N & T' & L).
      exists r'. cbn. repeat split; [exact N | exact T' | lia].
Qed.

Lemma first_match_existsb (task : string) (rows : list row) :
  existsb (task_is task) rows
  = match first_match task rows with Some _ => true | None => false end.
Proof.
  induction rows as [| r rows IH]; cbn; [reflexivity |].
  destruct (task_is task r); cbn; [reflexivity |].
  rewrite IH. destruct (first_match task rows); reflexivity.
Qed.

(** [first_match] looks at the Task cells only. *)
Lemma first_match_names (task : string) (rows rows' : list row) :
  map Task rows = map Task rows' ->
  first_match task rows = first_match task rows'.
Proof.
  revert rows'. induction rows as [| r rows IH]; intros [| r' rows'] H;
    cbn in H; try discriminate; [reflexivity |].
  injection H as H1 H2. cbn. unfold task_is. rewrite H1.
  rewrite (IH rows' H2). reflexivity.
Qed.

Lemma update_task_cases (task : string) (u i d q : Z) (s : sheet) :
  update_task task u i d q s =
  match first_match task (records s) with
  | None => (Ok false, s)
  | Some idx =>
      match priority_score u i d with
      | Raise e => (Raise e, s)
      | Ok p =>
          match calculate_people_needed task q u i with
          | Raise e => (Raise e, s)
          | Ok n => (Ok true, updated_sheet (Z.of_nat idx) u i d q p n s)
          end
      end
  end.
Proof.
  unfold update_task, get_all_records.
  rewrite update_task_from_cases by lia.
  destruct (first_match task (records s)); reflexivity.
Qed.

Lemma update_task_names (task : string) (u i d q : Z) (s : sheet) :
  map Task (records (snd (update_task task u i d q s)))
  = map Task (records s).
Proof.
  rewrite update_task_cases.
  destruct (first_match task (records s)) as [idx |]; [| reflexivity].
  destruct (priority_score u i d) as [p | e]; [| reflexivity].
  destruct (calculate_people_needed task q u i) as [n | e]; [| reflexivity].
  cbn [snd updated_sheet records]. apply map_update_nth.
  intros r. reflexivity.
Qed.

Lemma map_baseline_names (rows rows' : list row) :
  map Task rows = map Task rows' -> map baseline rows = map baseline rows'.
Proof.
  revert rows'. induction rows as [| r rows IH]; intros [| r' rows'] H;
    cbn in H; try discriminate; [reflexivity |].
  injection H as H1 H2. cbn. rewrite (IH rows' H2).
  unfold baseline, with_fields. rewrite H1. reflexivity.
Qed.

(** The writes of the reset loop, from record index [k] on. *)
Lemma reset_tasks_from_grid (rest : list row) (k : Z) (s : sheet) (N : nat) :
  0 <= k -> k + Z.of_nat (List.length rest) <= Z.of_nat N ->
  exists ws,
    writes (reset_tasks_from k rest s) = (writes s ++ ws)%list /\
    List.length ws = (6 * List.length rest)%nat /\
    Forall (in_grid N) ws.
Proof.
  revert k s. induction rest as [| r rest IH]; intros k s Hk HN.
  - exists []. cbn. rewrite app_nil_r. repeat split. constructor.
  - cbn [reset_tasks_from]. cbn [List.length] in HN.
    destruct (IH (k + 1)
                (update_cell (k + 2) 7 (vint 1)
                   (update_cell (k + 2) 6 (vint 0)
                      (update_cell (k + 2) 5 (vint 0)
                         (update_cell (k + 2) 4 (vint 0)
                            (update_cell (k + 2) 3 (vint 5)
                               (update_cell (k + 2) 2 (vint 5) s)))))))
      as (ws & E & L & F); [lia | lia |].
    rewrite E. cbn [update_cell writes]. rewrite <- !app_assoc. cbn [app].
    eexists. split; [reflexivity |]. split.
    + cbn [List.length]. rewrite L. lia.
    + repeat (constructor;
              [unfold in_grid, row_of, column_of; cbn [fst snd]; lia |]).
      exact F.
Qed.

End SheetOrder.

Section SheetExtras.

Import SheetFacts SheetOrder.

(** X6: [update_task] touches one record at most: whatever it returns or
    raises, the sheet keeps its number of records, and every record other
    than the first one named [task] is exactly as before (so a second
    record with the same name is never updated). *)
Theorem update_task_frame
    (task : string) (urgency importance days_until_due quantity : Z)
    (s : sheet) :
  let s' :=
    snd (update_task task urgency importance days_until_due quantity s) in
  List.length (records s') = List.length (records s) /\
  forall j, first_match task (records s) <> Some j ->
    nth_error (records s') j = nth_error (records s) j.
Proof.
  cbv zeta. rewrite update_task_cases.
  destruct (first_match task (records s)) as [idx |];
    [| split; reflexivity].
  destruct (priority_score urgency importance days_until_due) as [p | e];
    [| split; reflexivity].
  destruct (calculate_people_needed task quantity urgency importance)
    as [n | e]; [| split; reflexivity].
  cbn [snd updated_sheet records]. rewrite Nat2Z.id. split.
  - apply length_update_nth.
  - intros j Hj. apply nth_error_update_nth_other. congruence.
Qed.

(** X7: Every cell write that [update_task] issues addresses an existing
    record (sheet rows 2 to n+1 for n records) and one of the columns 2 to
    7, and a call issues either no write or six. *)
Theorem update_task_writes_in_grid
    (task : string) (urgency importance days_until_due quantity : Z)
    (s : sheet) :
  exists ws,
    writes (snd (update_task task urgency importance days_until_due
                   quantity s))
    = (writes s ++ ws)%list /\
    Forall (in_grid (List.length (records s))) ws /\
    (List.length ws = 0%nat \/ List.length ws = 6%nat).
Proof.
  rewrite update_task_cases.
  assert (None' : exists ws, writes s = (writes s ++ ws)%list /\
            Forall (in_grid (List.length (records s))) ws /\
            (List.length ws = 0%nat \/ List.length ws = 6%nat)).
  { exists []. rewrite app_nil_r. repeat split; [constructor | left].
    reflexivity. }
  destruct (first_match task (records s)) as [idx |] eqn:M; [| exact None'].
  destruct (priority_score urgency importance days_until_due) as [p | e];
    [| exact None'].
  destruct (calculate_people_needed task quantity urgency importance)
    as [n | e]; [| exact None'].
  destruct (first_match_some _ _ _ M) as (r & _ & _ & L).
  cbn [snd updated_sheet writes]. eexists. split; [reflexivity |].
  split; [| right; reflexivity].
  repeat (constructor;
          [unfold in_grid, row_of, column_of; cbn [fst snd]; lia |]).
  constructor.
Qed.

(** X8: [reset_tasks] on n records issues exactly 6 n cell writes, each to an
    existing record and to one of the columns 2 to 7; on an empty sheet it
    writes nothing. *)
Theorem reset_tasks_writes_in_grid (s : sheet) :
  exists ws,
    writes (reset_tasks s) = (writes s ++ ws)%list /\
    List.length ws = (6 * List.length (records s))%nat /\
    Forall (in_grid (List.length (records s))) ws.
Proof.
  unfold reset_tasks, get_all_records.
  apply reset_tasks_from_grid; lia.
Qed.

(** X9: Resetting twice leaves the records as resetting once does, and a reset
    wipes whatever an earlier [update_task] wrote: the records after
    update-then-reset are those after reset alone. *)
Theorem reset_tasks_absorbs
    (task : string) (urgency importance days_until_due quantity : Z)
    (s : sheet) :
  records (reset_tasks (reset_tasks s)) = records (reset_tasks s) /\
  records (reset_tasks
             (snd (update_task task urgency importance days_until_due
                     quantity s)))
  = records (reset_tasks s).
Proof.
  rewrite !reset_tasks_records. split.
  - apply map_baseline_names. rewrite map_map. reflexivity.
  - apply map_baseline_names. apply update_task_names.
Qed.

(** X10: People Needed stays a positive int in the sheet: if every record
    holds an int of at least 1 there, so it does after [update_task] with
    any arguments at all, and after [reset_tasks] every record does
    whatever the sheet held. *)
Theorem people_needed_cells_stay_positive
    (task : string) (urgency importance days_until_due quantity : Z)
    (s : sheet) :
  (Forall people_ok (records s) ->
   Forall people_ok
     (records (snd (update_task task urgency importance days_until_due
                      quantity s)))) /\
  Forall people_ok (records (reset_tasks s)).
Proof.
  split.
  - intros H. rewrite update_task_cases.
    destruct (first_match task (records s)) as [idx |]; [| exact H].
    destruct (priority_score urgency importance days_until_due) as [p | e];
      [| exact H].
    destruct (calculate_people_needed task quantity urgency importance)
      as [n | e] eqn:En; [| exact H].
    cbn [snd updated_sheet records]. apply Forall_update_nth; [| exact H].
    intros r. exists n. split; [reflexivity |].
    apply (StaffingOrder.people_needed_floor _ _ _ _ _ En).
  - rewrite reset_tasks_records. apply Forall_forall. intros r Hr.
    apply in_map_iff in Hr. destruct Hr as (r0 & <- & _).
    exists 1. split; [reflexivity | lia].
Qed.

Lemma people_needed_cells_stay_positive_witness :
  Forall people_ok (records two_rows) /\
  Forall people_ok
    (records (snd (update_task "Unload Shuttles" 8 9 1 10 two_rows))) /\
  Forall people_ok (records (reset_tasks two_rows)).
Proof.
  assert (H : Forall people_ok (records two_rows))
    by (repeat (apply Forall_cons; [exists 1; split; [reflexivity | lia] |]);
        apply Forall_nil).
  destruct (people_needed_cells_stay_positive "Unload Shuttles" 8 9 1 10
              two_rows) as [A B].
  split; [exact H |]. split; [exact (A H) | exact B].
Defined.

(** X11: With arguments the page can supply (urgency, importance and
    daysUntilDue of magnitude up to 2^49, quantity from 0 to 10^100)
    [update_task] never raises: it returns true when some record is named
    [task] and false when none is. *)
Theorem update_task_returns_in_range
    (task : string) (urgency importance days_until_due quantity : Z)
    (s : sheet) :
  Z.abs urgency <= 2 ^ 49 -> Z.abs importance <= 2 ^ 49 ->
  Z.abs days_until_due <= 2 ^ 49 -> 0 <= quantity <= huge ->
  fst (update_task task urgency importance days_until_due quantity s)
  = Ok (existsb (task_is task) (records s)).
Proof.
  intros Hu Hi Hd Hq. rewrite update_task_cases, first_match_existsb.
  destruct (first_match task (records s)) as [idx |]; [| reflexivity].
  destruct (PriorityFacts.priority_score_value _ _ _ Hu Hi Hd)
    as (p & Ep & _).
  rewrite Ep.
  destruct (StaffingOrder.people_needed_total task quantity urgency
              importance Hq) as (n & En);
    [unfold huge; lia | unfold huge; lia |].
  rewrite En. reflexivity.
Qed.

Lemma update_task_returns_in_range_witness :
  Z.abs 10 <= 2 ^ 49 /\ Z.abs 1 <= 2 ^ 49 /\ Z.abs 5 <= 2 ^ 49 /\
  0 <= 1000 <= huge /\
  fst (update_task "Unload Shuttles" 10 1 5 1000 three_rows)
  = Ok (existsb (task_is "Unload Shuttles") (records three_rows)).
Proof.
  split; [vm_compute; discriminate |]. split; [vm_compute; discriminate |].
  split; [vm_compute; discriminate |].
  split; [vm_compute; split; discriminate |].
  apply (update_task_returns_in_range "Unload Shuttles" 10 1 5 1000
           three_rows); vm_compute; try split; discriminate.
Defined.



End SheetExtras.

(** * Loading after writing, and the form defaults *)

Module FormFacts.

Import FloatFacts PriorityFacts StaffingOrder SheetFacts SheetOrder LoadFacts.

Lemma task_is_name (task : string) (r : row) :
  task_is task r = true -> Task r = VStr task.
Proof.
  unfold task_is. destruct (Task r) as [n | s]; [discriminate |].
  intros H. apply String.eqb_eq in H. rewrite H. reflexivity.
Qed.

Lemma kept_text (t : string) (out : value) : kept (VStr t) out -> out = VStr t.
Proof. intros [-> | ->]; reflexivity. Qed.

Lemma kept_task_is (task : string) (r : row) (f : frame_row) :
  kept (Task r) (df_Task f) -> frame_task_is task f = task_is task r.
Proof.
  unfold kept, frame_task_is, task_is. intros [-> | ->]; [reflexivity |].
  destruct (Task r) as [[z | x] | t]; reflexivity.
Qed.

(** The rows that [df[df["Task"] == selected_task]] keeps start with the
    row loaded from the first match. *)
Lemma filter_first_match (parse_number : string -> option number)
    (task : string) (rows : list row) (df : list frame_row) :
  Forall2 (loaded parse_number) rows df ->
  match first_match task rows with
  | None => filter (frame_task_is task) df = []
  | Some idx =>
      exists r f tl,
        nth_error rows idx = Some r /\ nth_error df idx = Some f /\
        loaded parse_number r f /\
        filter (frame_task_is task) df = f :: tl
  end.
Proof.
  induction 1 as [| r f rows df L _ IH]; cbn; [reflexivity |].
  rewrite (kept_task_is task r f (proj1 L)).
  destruct (task_is task r).
  - exists r, f. eexists. repeat split; try reflexivity; apply L.
  - destruct (first_match task rows) as [idx |]; cbn.
    + destruct IH as (r' & f' & tl & N & N' & L' & F).
      exists r', f', tl. repeat split; try assumption; apply L'.
    + exact IH.
Qed.

Lemma trunc_int (x : Q) (z : Z) : (x == inject_Z z)%Q -> trunc x = z.
Proof.
  intros E. unfold trunc.
  destruct (Qle_bool 0 x); rewrite E; [apply Qfloor_Z | apply Qceiling_Z].
Qed.

Lemma int_of_num_is (n : number) (z : Z) :
  num_is n (inject_Z z) -> int_of_number n = Ok z.
Proof.
  destruct n as [y | [x | b |]]; cbn [num_is int_of_number]; intros H;
    try contradiction.
  - apply (proj1 (inject_Z_injective _ _)) in H. rewrite H. reflexivity.
  - rewrite (trunc_int x z H). reflexivity.
Qed.

Lemma int_of_val_is (parse_int : string -> option Z) (v : value) (z : Z) :
  val_is v (inject_Z z) -> int_of_value parse_int v = Ok z.
Proof.
  destruct v as [n | t]; cbn [val_is int_of_value];
    [apply int_of_num_is | contradiction].
Qed.

Lemma num_is_eq (n : number) (x y : Q) :
  num_is n x -> (x == y)%Q -> num_is n y.
Proof.
  destruct n as [z | [a | b |]]; cbn [num_is]; intros H E;
    try contradiction; rewrite H; exact E.
Qed.

Lemma kept_small (z : Z) (out : value) :
  Z.abs z < 2 ^ 53 -> kept (vint z) out -> val_is out (inject_Z z).
Proof.
  intros R [-> | ->]; cbn; [reflexivity |].
  destruct (of_int_exact z R) as (y & E & V).
  destruct (of_int_round _ _ E) as [-> _]. exact V.
Qed.

Lemma coerces_small (parse_number : string -> option number) (d z : Z)
    (out : number) :
  Z.abs z < 2 ^ 53 -> coerces_to parse_number d (vint z) out ->
  num_is out (inject_Z z).
Proof.
  unfold coerces_to. cbn [cell_number vint].
  intros R [_ [-> | (f & E & ->)]]; cbn; [reflexivity |].
  destruct (of_int_exact z R) as (y & E' & V).
  rewrite E' in E. injection E as <-. exact V.
Qed.

Lemma coerces_float (parse_number : string -> option number) (d : Z)
    (x : Q) (out : number) :
  coerces_to parse_number d (vfloat (Fin x)) out -> num_is out x.
Proof. intros [_ ->]. cbn. reflexivity. Qed.

Lemma Forall_update_nth_impl {A : Type} (P : A -> Prop) (n : nat)
    (f : A -> A) (l : list A) :
  (forall x, P x -> P (f x)) -> Forall P l -> Forall P (update_nth n f l).
Proof.
  intros Hf. revert n. induction l as [| x l IH]; intros [| n] H; cbn;
    inversion H; subst; constructor; auto.
Qed.

(** The record that [update_task] writes is plain when the values are
    small. *)
Lemma plain_with_fields (parse_number : string -> option number)
    (u i d q n : Z) (p : float) (r : row) :
  Z.abs u < 2 ^ 53 -> Z.abs i < 2 ^ 53 -> Z.abs d < 2 ^ 53 ->
  Z.abs q < 2 ^ 53 -> Z.abs n < 2 ^ 53 ->
  plain_row parse_number r ->
  plain_row parse_number
    (with_fields (vint u) (vint i) (vint d) (vfloat p) (vint q) (vint n) r).
Proof.
  intros Hu Hi Hd Hq Hn (T & _). unfold plain_row. cbn.
  repeat split; try exact T; apply in_int64_small; assumption.
Qed.

(** After an update with values of the form, the table has a row for the
    record written, the first of those the page selects for the task, and
    the row holds the values written. *)
Lemma update_then_load_row (parse_number : string -> option number)
    (task : string) (u i d q : Z) (s : sheet) (idx : nat) :
  1 <= u <= 10 -> 1 <= i <= 10 -> 0 <= d <= 5 -> 0 <= q <= 10 ^ 9 ->
  first_match task (records s) = Some idx ->
  plain_sheet parse_number (records s) ->
  exists f n tl,
    calculate_people_needed task q u i = Ok n /\ 1 <= n /\
    nth_error
      (load_tasks parse_number
         (Ok (get_all_records (snd (update_task task u i d q s)))))
      idx = Some f /\
    filter (frame_task_is task)
      (load_tasks parse_number
         (Ok (get_all_records (snd (update_task task u i d q s)))))
    = f :: tl /\
    df_Task f = VStr task /\
    val_is (df_Urgency f) (inject_Z u) /\
    val_is (df_Importance f) (inject_Z i) /\
    num_is (df_DaysUntilDue f) (inject_Z d) /\
    num_is (df_Priority f) (Spec.priority u i d) /\
    num_is (df_Quantity f) (inject_Z q) /\
    num_is (df_PeopleNeeded f) (inject_Z n).
Proof.
  intros Hu Hi Hd Hq M P.
  destruct (priority_score_value u i d) as (p & Ep & Vp); [lia | lia | lia |].
  destruct (people_needed_quarter task q u i Hq Hu Hi) as (n & En & N1 & N2).
  assert (Nq : (q + 3) / 4 <= 10 ^ 9).
  { pose proof (Z.div_mod (q + 3) 4 ltac:(lia)).
    pose proof (Z.mod_pos_bound (q + 3) 4 ltac:(lia)). lia. }
  pose proof (update_task_names task u i d q s) as Names.
  pose proof (first_match_names task _ _ Names) as M'. rewrite M in M'.
  destruct (first_match_some _ _ _ M) as (r & Nr & T & _).
  assert (R : records (snd (update_task task u i d q s))
              = update_nth idx
                  (with_fields (vint u) (vint i) (vint d) (vfloat (Fin p))
                     (vint q) (vint n))
                  (records s)).
  { rewrite update_task_cases, M, Ep, En.
    cbn [snd updated_sheet records]. rewrite Nat2Z.id. reflexivity. }
  unfold get_all_records. rewrite R in *.
  assert (P' : plain_sheet parse_number
                 (update_nth idx
                    (with_fields (vint u) (vint i) (vint d) (vfloat (Fin p))
                       (vint q) (vint n))
                    (records s))).
  { apply Forall_update_nth_impl; [| exact P].
    intros x. apply plain_with_fields; lia. }
  pose proof (filter_first_match parse_number task _ _
                (load_tasks_plain parse_number _ P')) as F.
  rewrite M' in F. destruct F as (r' & f & tl & N' & Nf & L & F).
  rewrite (nth_error_update_nth_same idx _ _ r Nr) in N'.
  injection N' as <-.
  destruct L as (L1 & L2 & L3 & L4 & L5 & L6 & L7). cbn in L1, L2, L3, L4, L5,
    L6, L7.
  exists f, n, tl. split; [exact En |]. split; [exact N1 |].
  split; [exact Nf |]. split; [exact F |].
  split; [rewrite (task_is_name _ _ T) in L1; apply (kept_text _ _ L1) |].
  split; [apply kept_small; [lia | exact L2] |].
  split; [apply kept_small; [lia | exact L3] |].
  split; [apply (coerces_small parse_number 0); [lia | exact L4] |].
  split; [apply (num_is_eq _ p); [| exact Vp];
          apply (coerces_float parse_number 0); exact L5 |].
  split; [apply (coerces_small parse_number 0); [lia | exact L6] |].
  apply (coerces_small parse_number 1); [lia | exact L7].
Qed.

(** The table loaded after [reset_tasks]: the baseline under every name of
    the Task column, as the data frame holds that column. *)
Lemma load_baseline (parse_number : string -> option number)
    (rows : list row) :
  load_tasks parse_number (Ok (map baseline rows))
  = match frame_column (map Task rows) with
    | Ok tasks =>
        map (fun t => mkFrameRow t (vint 5) (vint 5) (NInt 0) (NInt 0)
                        (NInt 0) (NInt 1))
          tasks
    | Raise _ => []
    end.
Proof.
  assert (C : forall c, 0 <= c < 2 ^ 53 ->
                Forall (fun v => exists z, v = vint z /\ 0 <= z < 2 ^ 53)
                  (map (fun _ : row => vint c) rows)).
  { intros c Hc. apply Forall_forall. intros v I. apply in_map_iff in I.
    destruct I as (r & <- & _). exists c. split; [reflexivity | exact Hc]. }
  assert (E1 : map Task (map baseline rows) = map Task rows)
    by (rewrite map_map; reflexivity).
  assert (E2 : map Urgency (map baseline rows) = map (fun _ => vint 5) rows)
    by (rewrite map_map; reflexivity).
  assert (E3 : map Importance (map baseline rows)
               = map (fun _ => vint 5) rows)
    by (rewrite map_map; reflexivity).
  assert (E4 : map DaysUntilDue (map baseline rows)
               = map (fun _ => vint 0) rows)
    by (rewrite map_map; reflexivity).
  assert (E5 : map Priority (map baseline rows) = map (fun _ => vint 0) rows)
    by (rewrite map_map; reflexivity).
  assert (E6 : map Quantity (map baseline rows) = map (fun _ => vint 0) rows)
    by (rewrite map_map; reflexivity).
  assert (E7 : map PeopleNeeded (map baseline rows)
               = map (fun _ => vint 1) rows)
    by (rewrite map_map; reflexivity).
  destruct rows as [| r0 rows0] eqn:D; [reflexivity |].
  rewrite <- D in *.
  assert (N : map baseline rows <> []) by (rewrite D; discriminate).
  clear D.
  destruct (frame_column (map Task rows)) as [tasks | e] eqn:FT.
  - rewrite (load_tasks_rows parse_number (map baseline rows) tasks
               (map (fun _ => vint 5) rows) (map (fun _ => vint 5) rows)
               (map (fun _ => NInt 0) rows) (map (fun _ => NInt 0) rows)
               (map (fun _ => NInt 0) rows) (map (fun _ => NInt 1) rows) N).
    + unfold fillna. rewrite !map_map. cbn [is_nan].
      apply frame_rows_const.
      apply frame_column_kept, Forall2_length in FT.
      rewrite <- FT. apply length_map.
    + rewrite E1. exact FT.
    + rewrite E2. apply frame_column_ints, C. lia.
    + rewrite E3. apply frame_column_ints, C. lia.
    + rewrite E4, to_numeric_ints by (apply C; lia).
      rewrite map_map. reflexivity.
    + rewrite E5, to_numeric_ints by (apply C; lia).
      rewrite map_map. reflexivity.
    + rewrite E6, to_numeric_ints by (apply C; lia).
      rewrite map_map. reflexivity.
    + rewrite E7, to_numeric_ints by (apply C; lia).
      rewrite map_map. reflexivity.
  - apply (load_tasks_no_frame parse_number _ e).
    unfold DataFrame. rewrite E1, FT. reflexivity.
Qed.

End FormFacts.

Section FormExtras.

Import SheetFacts SheetOrder LoadFacts FormFacts.

Variable parse_number : string -> option number.
Variable parse_int : string -> option Z.

(** X13: What is written is what is loaded: take a sheet whose ints all
    fit 64 bits, and [update_task] with values the form can hold (urgency
    and importance 1..10, daysUntilDue 0..5, quantity up to 10^9) for a
    task whose first record is at index [idx].  Then row [idx] of the
    table that [load_tasks] builds from the sheet holds that task, and its
    numbers are the urgency, importance, daysUntilDue and quantity given,
    the exact priority urgency * 1.5 + importance * 2 -
    daysUntilDue * 0.5, and the head count that
    [calculate_people_needed] returns, which is at least 1.  A number may
    come back as a float of the same value. *)
Theorem update_then_load
    (task : string) (urgency importance days_until_due quantity : Z)
    (s : sheet) (idx : nat) :
  1 <= urgency <= 10 -> 1 <= importance <= 10 ->
  0 <= days_until_due <= 5 -> 0 <= quantity <= 10 ^ 9 ->
  first_match task (records s) = Some idx ->
  plain_sheet parse_number (records s) ->
  exists f n,
    nth_error
      (load_tasks parse_number
         (Ok (get_all_records
                (snd (update_task task urgency importance days_until_due
                        quantity s)))))
      idx
    = Some f /\
    df_Task f = VStr task /\
    val_is (df_Urgency f) (inject_Z urgency) /\
    val_is (df_Importance f) (inject_Z importance) /\
    num_is (df_DaysUntilDue f) (inject_Z days_until_due) /\
    num_is (df_Priority f)
      (Spec.priority urgency importance days_until_due) /\
    num_is (df_Quantity f) (inject_Z quantity) /\
    calculate_people_needed task quantity urgency importance = Ok n /\
    num_is (df_PeopleNeeded f) (inject_Z n) /\
    1 <= n.
Proof.
  intros Hu Hi Hd Hq M P.
  destruct (update_then_load_row parse_number task urgency importance
              days_until_due quantity s idx Hu Hi Hd Hq M P)
    as (f & n & tl & En & N1 & Nf & _ & L1 & L2 & L3 & L4 & L5 & L6 & L7).
  exists f, n. repeat split; assumption.
Qed.

(** X14: The form shows what was saved: on a sheet whose ints all fit 64
    bits, after such an [update_task] for a task that is in the sheet, the
    page's defaults for that task, read from the reloaded table, are the
    urgency, importance, quantity and daysUntilDue just written.  Both
    sides pick the first record of that name. *)
Theorem update_then_form_defaults
    (task : string) (urgency importance days_until_due quantity : Z)
    (s : sheet) (idx : nat) :
  1 <= urgency <= 10 -> 1 <= importance <= 10 ->
  0 <= days_until_due <= 5 -> 0 <= quantity <= 10 ^ 9 ->
  first_match task (records s) = Some idx ->
  plain_sheet parse_number (records s) ->
  form_defaults parse_int
    (load_tasks parse_number
       (Ok (get_all_records
              (snd (update_task task urgency importance days_until_due
                      quantity s)))))
    task
  = Ok (urgency, importance, quantity, days_until_due).
Proof.
  intros Hu Hi Hd Hq M P.
  destruct (update_then_load_row parse_number task urgency importance
              days_until_due quantity s idx Hu Hi Hd Hq M P)
    as (f & n & tl & _ & _ & _ & F & _ & L2 & L3 & L4 & _ & L6 & _).
  unfold form_defaults. rewrite F.
  rewrite (int_of_val_is parse_int _ _ L2). cbn [rbind].
  rewrite (int_of_val_is parse_int _ _ L3). cbn [rbind].
  rewrite (int_of_num_is _ _ L6). cbn [rbind].
  rewrite (int_of_num_is _ _ L4). reflexivity.
Qed.

(** X15: After [reset_tasks] the reloaded table holds, for every record,
    urgency 5, importance 5, daysUntilDue 0, priority 0, quantity 0 and
    peopleNeeded 1 under the name it had, and the form defaults of every
    task are 5, 5, 0, 0.  The names are those of the Task column as the
    data frame holds it: as stored when they are text; and the table is
    empty if that column cannot be built. *)
Theorem reset_then_load (s : sheet) (task : string) :
  load_tasks parse_number (Ok (get_all_records (reset_tasks s)))
  = match frame_column (map Task (records s)) with
    | Ok tasks =>
        map (fun t => mkFrameRow t (vint 5) (vint 5) (NInt 0) (NInt 0)
                        (NInt 0) (NInt 1))
          tasks
    | Raise _ => []
    end /\
  (Forall (fun r => exists name, Task r = VStr name) (records s) ->
   load_tasks parse_number (Ok (get_all_records (reset_tasks s)))
   = map (fun r => mkFrameRow (Task r) (vint 5) (vint 5) (NInt 0) (NInt 0)
                     (NInt 0) (NInt 1))
       (records s)) /\
  form_defaults parse_int
    (load_tasks parse_number (Ok (get_all_records (reset_tasks s)))) task
  = Ok (5, 5, 0, 0).
Proof.
  unfold get_all_records. rewrite reset_tasks_records, load_baseline.
  split; [reflexivity |]. split.
  - intros H. rewrite frame_column_text, map_map; [reflexivity |].
    apply Forall_map. exact H.
  - destruct (frame_column (map Task (records s))) as [tasks | e];
      [| reflexivity].
    unfold form_defaults.
    destruct (filter (frame_task_is task)
                (map (fun t => mkFrameRow t (vint 5) (vint 5) (NInt 0)
                                 (NInt 0) (NInt 0) (NInt 1))
                   tasks)) as [| f tl] eqn:F; [reflexivity |].
    assert (I : In f (filter (frame_task_is task)
                        (map (fun t => mkFrameRow t (vint 5) (vint 5)
                                         (NInt 0) (NInt 0) (NInt 0) (NInt 1))
                           tasks)))
      by (rewrite F; left; reflexivity).
    apply filter_In in I. destruct I as [I _].
    apply in_map_iff in I. destruct I as (t & <- & _). reflexivity.
Qed.

(** X16: Without a row for the selected task the form falls back to 5, 5, 0, 0:
    when no record has that name, and when reading the sheet fails. *)
Theorem form_defaults_fallback (task : string) (data : list row) (e : exn) :
  (forall r, In r data -> task_is task r = false) ->
  form_defaults parse_int (load_tasks parse_number (Ok data)) task
  = Ok (5, 5, 0, 0) /\
  form_defaults parse_int (load_tasks parse_number (Raise e)) task
  = Ok (5, 5, 0, 0).
Proof.
  intros H. split; [| reflexivity].
  destruct (load_tasks_loaded parse_number data) as [-> | L];
    [reflexivity |].
  unfold form_defaults.
  pose proof (filter_first_match parse_number task data _ L) as F.
  rewrite (first_match_none _ _ H) in F. rewrite F. reflexivity.
Qed.

(** X17: Text in Urgency stops the page: [load_tasks] leaves Urgency as it is
    stored, so on a sheet whose ints all fit 64 bits, when the first record
    of the selected task holds there a string that [int] does not read,
    computing the form defaults raises [ValueError]. *)
Theorem form_defaults_text_urgency
    (task : string) (data : list row) (idx : nat) (r : row) (text : string) :
  plain_sheet parse_number data ->
  first_match task data = Some idx ->
  nth_error data idx = Some r ->
  Urgency r = VStr text -> parse_int text = None ->
  form_defaults parse_int (load_tasks parse_number (Ok data)) task
  = Raise ValueError.
Proof.
  intros Pl M N U P. unfold form_defaults.
  pose proof (filter_first_match parse_number task data _
                (load_tasks_plain parse_number data Pl)) as F.
  rewrite M in F. destruct F as (r' & f & tl & N' & _ & L & F). rewrite F.
  rewrite N in N'. injection N' as <-.
  destruct L as (_ & L2 & _). rewrite U in L2.
  rewrite (kept_text _ _ L2). cbn. rewrite P. reflexivity.
Qed.

End FormExtras.

Lemma update_then_load_witness :
  1 <= 8 <= 10 /\ 1 <= 9 <= 10 /\ 0 <= 1 <= 5 /\ 0 <= 10 <= 10 ^ 9 /\
  first_match "Unload Shuttles" (records three_rows) = Some 1%nat /\
  plain_sheet parse_decimal (records three_rows) /\
  exists f n,
    nth_error
      (load_tasks parse_decimal
         (Ok (get_all_records
                (snd (update_task "Unload Shuttles" 8 9 1 10 three_rows)))))
      1
    = Some f /\
    df_Task f = VStr "Unload Shuttles" /\
    val_is (df_Urgency f) (inject_Z 8) /\
    val_is (df_Importance f) (inject_Z 9) /\
    num_is (df_DaysUntilDue f) (inject_Z 1) /\
    num_is (df_Priority f) (Spec.priority 8 9 1) /\
    num_is (df_Quantity f) (inject_Z 10) /\
    calculate_people_needed "Unload Shuttles" 10 8 9 = Ok n /\
    num_is (df_PeopleNeeded f) (inject_Z n) /\
    1 <= n.
Proof.
  assert (P : plain_sheet parse_decimal (records three_rows))
    by (repeat constructor).
  split; [lia |]. split; [lia |]. split; [lia |]. split; [lia |].
  split; [reflexivity |]. split; [exact P |].
  apply (update_then_load parse_decimal "Unload Shuttles" 8 9 1 10
           three_rows 1);
    [lia | lia | lia | lia | reflexivity | exact P].
Defined.

Lemma update_then_form_defaults_witness :
  1 <= 8 <= 10 /\ 1 <= 9 <= 10 /\ 0 <= 1 <= 5 /\ 0 <= 10 <= 10 ^ 9 /\
  first_match "Unload Shuttles" (records three_rows) = Some 1%nat /\
  plain_sheet parse_decimal (records three_rows) /\
  form_defaults parse_unsigned
    (load_tasks parse_decimal
       (Ok (get_all_records
              (snd (update_task "Unload Shuttles" 8 9 1 10 three_rows)))))
    "Unload Shuttles"
  = Ok (8, 9, 10, 1).
Proof.
  assert (P : plain_sheet parse_decimal (records three_rows))
    by (repeat constructor).
  split; [lia |]. split; [lia |]. split; [lia |]. split; [lia |].
  split; [reflexivity |]. split; [exact P |].
  apply (update_then_form_defaults parse_decimal parse_unsigned
           "Unload Shuttles" 8 9 1 10 three_rows 1);
    [lia | lia | lia | lia | reflexivity | exact P].
Defined.

Lemma reset_then_load_witness :
  Forall (fun r => exists name, Task r = VStr name) (records three_rows) /\
  load_tasks parse_decimal (Ok (get_all_records (reset_tasks three_rows)))
  = map (fun r => mkFrameRow (Task r) (vint 5) (vint 5) (NInt 0) (NInt 0)
                    (NInt 0) (NInt 1))
      (records three_rows).
Proof.
  assert (H : Forall (fun r => exists name, Task r = VStr name)
                (records three_rows))
    by (repeat constructor; eexists; reflexivity).
  split; [exact H |].
  apply (reset_then_load parse_decimal parse_unsigned three_rows
           "Putaway 3002").
  exact H.
Defined.

(** Numbers used as task names are loaded as their column is typed: an
    int beside a float comes back as a float, so the table after
    [reset_tasks] need not hold the Task cells as they are stored. *)
Lemma reset_then_load_numeric_names :
  load_tasks parse_decimal
    (Ok (get_all_records
           (reset_tasks
              (mkSheet
                 [ mkRow (vint 1) (vint 3) (vint 4) (vint 2) (vint 7)
                     (vint 7) (vint 1);
                   mkRow (vfloat (Fin (5 # 2))) (vint 3) (vint 4) (vint 2)
                     (vint 7) (vint 7) (vint 1) ]
                 []))))
  = [ mkFrameRow (vfloat (Fin 1)) (vint 5) (vint 5) (NInt 0) (NInt 0)
        (NInt 0) (NInt 1);
      mkFrameRow (vfloat (Fin (5 # 2))) (vint 5) (vint 5) (NInt 0) (NInt 0)
        (NInt 0) (NInt 1) ].
Proof. vm_compute. reflexivity. Qed.

Lemma form_defaults_fallback_witness :
  (forall r, In r (records three_rows) -> task_is "Sweep Floor" r = false) /\
  form_defaults parse_unsigned
    (load_tasks parse_decimal (Ok (records three_rows))) "Sweep Floor"
  = Ok (5, 5, 0, 0) /\
  form_defaults parse_unsigned (load_tasks parse_decimal (Raise APIError))
    "Sweep Floor"
  = Ok (5, 5, 0, 0).
Proof.
  assert (H : forall r, In r (records three_rows) ->
                        task_is "Sweep Floor" r = false).
  { intros r [<- | [<- | [<- | []]]]; reflexivity. }
  split; [exact H |].
  apply (form_defaults_fallback parse_decimal parse_unsigned "Sweep Floor"
           (records three_rows) APIError H).
Defined.

Lemma form_defaults_text_urgency_witness :
  plain_sheet parse_decimal [text_row] /\
  first_match "Unload Shuttles" [text_row] = Some 0%nat /\
  nth_error [text_row] 0 = Some text_row /\
  Urgency text_row = VStr "high" /\ parse_unsigned "high" = None /\
  form_defaults parse_unsigned (load_tasks parse_decimal (Ok [text_row]))
    "Unload Shuttles"
  = Raise ValueError.
Proof.
  assert (P : plain_sheet parse_decimal [text_row]) by (repeat constructor).
  split; [exact P |].
  split; [reflexivity |]. split; [reflexivity |]. split; [reflexivity |].
  split; [reflexivity |].
  apply (form_defaults_text_urgency parse_decimal parse_unsigned
           "Unload Shuttles" [text_row] 0 text_row "high");
    [exact P | reflexivity | reflexivity | reflexivity | reflexivity].
Defined.

(** * Independent updates and tasks outside the catalogue *)

Module UpdateFacts.

Import SheetFacts SheetOrder FormFacts.

Lemma update_nth_comm {A : Type} (n m : nat) (f g : A -> A) (l : list A) :
  n <> m ->
  update_nth n f (update_nth m g l) = update_nth m g (update_nth n f l).
Proof.
  revert n m. induction l as [| x l IH]; intros [| n] [| m] H; cbn;
    try reflexivity; try congruence.
  rewrite IH by congruence. reflexivity.
Qed.

Lemma first_match_distinct (t1 t2 : string) (rows : list row)
    (j1 j2 : nat) :
  t1 <> t2 ->
  first_match t1 rows = Some j1 -> first_match t2 rows = Some j2 ->
  j1 <> j2.
Proof.
  intros D M1 M2 E. subst j2.
  destruct (first_match_some _ _ _ M1) as (r1 & N1 & T1 & _).
  destruct (first_match_some _ _ _ M2) as (r2 & N2 & T2 & _).
  rewrite N1 in N2. injection N2 as <-.
  apply task_is_name in T1. apply task_is_name in T2.
  rewrite T1 in T2. injection T2 as T2. contradiction.
Qed.

(** The records after an update, by the three outcomes of the call. *)
Lemma update_task_records (task : string) (u i d q : Z) (s : sheet) :
  records (snd (update_task task u i d q s)) =
  match first_match task (records s), priority_score u i d,
        calculate_people_needed task q u i with
  | Some idx, Ok p, Ok n =>
      update_nth idx
        (with_fields (vint u) (vint i) (vint d) (vfloat p) (vint q) (vint n))
        (records s)
  | _, _, _ => records s
  end.
Proof.
  rewrite update_task_cases.
  destruct (first_match task (records s)) as [idx |]; [| reflexivity].
  destruct (priority_score u i d) as [p | e]; [| reflexivity].
  destruct (calculate_people_needed task q u i) as [n | e]; [| reflexivity].
  cbn [snd updated_sheet records]. rewrite Nat2Z.id. reflexivity.
Qed.

End UpdateFacts.

Section UpdateExtras.

Import SheetFacts SheetOrder FormFacts UpdateFacts.

(** X18: Updates of two different tasks do not interfere: done in either order
    they leave the same records, whatever each call returns or raises. *)
Theorem update_task_commutes
    (t1 t2 : string) (u1 i1 d1 q1 u2 i2 d2 q2 : Z) (s : sheet) :
  t1 <> t2 ->
  records (snd (update_task t2 u2 i2 d2 q2
                  (snd (update_task t1 u1 i1 d1 q1 s))))
  = records (snd (update_task t1 u1 i1 d1 q1
                    (snd (update_task t2 u2 i2 d2 q2 s)))).
Proof.
  intros D.
  rewrite (update_task_records t2 u2 i2 d2 q2
             (snd (update_task t1 u1 i1 d1 q1 s))).
  rewrite (update_task_records t1 u1 i1 d1 q1
             (snd (update_task t2 u2 i2 d2 q2 s))).
  rewrite (first_match_names t2 _ _ (update_task_names t1 u1 i1 d1 q1 s)).
  rewrite (first_match_names t1 _ _ (update_task_names t2 u2 i2 d2 q2 s)).
  rewrite (update_task_records t1 u1 i1 d1 q1 s).
  rewrite (update_task_records t2 u2 i2 d2 q2 s).
  destruct (first_match t1 (records s)) as [j1 |] eqn:M1;
    destruct (first_match t2 (records s)) as [j2 |] eqn:M2;
    destruct (priority_score u1 i1 d1) as [p1 | e1];
    destruct (calculate_people_needed t1 q1 u1 i1) as [n1 | e1'];
    destruct (priority_score u2 i2 d2) as [p2 | e2];
    destruct (calculate_people_needed t2 q2 u2 i2) as [n2 | e2'];
    try reflexivity.
  apply update_nth_comm.
  intros E. apply (first_match_distinct t1 t2 (records s) j1 j2 D M1 M2).
  symmetry. exact E.
Qed.

Lemma update_task_commutes_witness :
  "Putaway 3002"%string <> "Unload Shuttles"%string /\
  records (snd (update_task "Unload Shuttles" 8 9 1 10
                  (snd (update_task "Putaway 3002" 2 3 4 50 three_rows))))
  = records (snd (update_task "Putaway 3002" 2 3 4 50
                    (snd (update_task "Unload Shuttles" 8 9 1 10
                            three_rows)))).
Proof.
  assert (D : "Putaway 3002"%string <> "Unload Shuttles"%string)
    by discriminate.
  split; [exact D |].
  apply (update_task_commutes "Putaway 3002" "Unload Shuttles"
           2 3 4 50 8 9 1 10 three_rows D).
Defined.



End UpdateExtras.
